(** * vmware_to_virt: a shallow embedding of [VMwareToVirtConverter]

    The development follows [vmware_to_virt.py] function by function.
    Python values are modelled as follows.

    - [str] is a list of Unicode code points ([pystr]); [bytes] is a list of
      [Byte.byte].  Decoding is CPython's UTF-8 decoder, strict or with
      [errors='ignore'], followed in text mode by newline translation.
    - The input directory is a list of entries in the order [Path.glob]
      yields them; it does not change during a run.  The output directory
      is a finite map from file names to file contents.  The two
      directories are distinct.
    - External programs ([fdisk], [file], [qemu-img], [cp]) are oracles of
      the environment, as are the builtins [int] and [str.lower] and the
      locale's encoder; every invocation of a program is appended to a
      command trace.
    - [click.echo] appends an event to a log.
    - Exceptions are values of [exn]; methods run in a state-and-error
      monad over the converter object and the output side of the file
      system. *)

From Stdlib Require Import ZArith NArith List Bool Lia DecimalString.
From Stdlib.Strings Require Import String Ascii Byte.
From stdpp Require Import gmap list.

Local Open Scope N_scope.

(** ** Python strings *)

Abbreviation pystr := (list N).

(** An ASCII literal of the source as a [str]. *)
Definition lit (s : string) : pystr :=
  map (fun b => Byte.to_N b) (list_byte_of_string s).

(** The same literal as [bytes]. *)
Definition blit (s : string) : list byte := list_byte_of_string s.

(** [s.startswith(p)] *)
Fixpoint startswith (p s : pystr) : bool :=
  match p, s with
  | [], _ => true
  | _ :: _, [] => false
  | a :: p', b :: s' => (a =? b) && startswith p' s'
  end.

(** [needle in hay] on strings: substring test. *)
Fixpoint py_in (needle hay : pystr) : bool :=
  startswith needle hay ||
  match hay with
  | [] => false
  | _ :: t => py_in needle t
  end.

(** [s.endswith(p)] *)
Definition endswith (p s : pystr) : bool :=
  startswith (rev p) (rev s).

(** ** UTF-8 decoding

    CPython's decoder as a byte-at-a-time automaton.  [Pend n acc lo hi]
    waits for [n] more continuation bytes, the next of which must lie in
    [lo..hi]; [acc] holds the bits read so far.  A byte that cannot continue
    the pending sequence ends it with an error and is decoded afresh. *)

Inductive dstate :=
| Idle
| Pend (need : nat) (acc lo hi : N).

(** Result of one step: next state, code points produced, error flag. *)
Definition utf8_start (b : N) : dstate * pystr * bool :=
  if b <? 0x80 then (Idle, [b], false)
  else if b <? 0xC2 then (Idle, [], true)
  else if b <? 0xE0 then (Pend 1 (N.land b 0x1F) 0x80 0xBF, [], false)
  else if b =? 0xE0 then (Pend 2 (N.land b 0x0F) 0xA0 0xBF, [], false)
  else if b =? 0xED then (Pend 2 (N.land b 0x0F) 0x80 0x9F, [], false)
  else if b <? 0xF0 then (Pend 2 (N.land b 0x0F) 0x80 0xBF, [], false)
  else if b =? 0xF0 then (Pend 3 (N.land b 0x07) 0x90 0xBF, [], false)
  else if b <? 0xF4 then (Pend 3 (N.land b 0x07) 0x80 0xBF, [], false)
  else if b =? 0xF4 then (Pend 3 (N.land b 0x07) 0x80 0x8F, [], false)
  else (Idle, [], true).

Definition utf8_step (st : dstate) (b : N) : dstate * pystr * bool :=
  match st with
  | Idle => utf8_start b
  | Pend n acc lo hi =>
      if (lo <=? b) && (b <=? hi) then
        let acc' := N.lor (N.shiftl acc 6) (N.land b 0x3F) in
        match n with
        | O | S O => (Idle, [acc'], false)
        | S n' => (Pend n' acc' 0x80 0xBF, [], false)
        end
      else
        let '(st', out, _) := utf8_start b in (st', out, true)
  end.

(** Run the automaton: code points, whether an error occurred, final state. *)
Fixpoint utf8_run (st : dstate) (bs : list byte) : pystr * bool * dstate :=
  match bs with
  | [] => ([], false, st)
  | b :: bs' =>
      let '(st1, out, e) := utf8_step st (Byte.to_N b) in
      let '(rest, e', st2) := utf8_run st1 bs' in
      (out ++ rest, e || e', st2)
  end.

Definition is_idle (st : dstate) : bool :=
  match st with Idle => true | Pend _ _ _ _ => false end.

(** [bs.decode('utf-8', errors='ignore')]: offending bytes, and a truncated
    sequence at the end, are dropped. *)
Definition decode_ignore (bs : list byte) : pystr :=
  fst (fst (utf8_run Idle bs)).

(** [bs.decode('utf-8')]: [None] stands for [UnicodeDecodeError]. *)
Definition decode_strict (bs : list byte) : option pystr :=
  let '(cs, e, st) := utf8_run Idle bs in
  if e || negb (is_idle st) then None else Some cs.

(** [bs.decode('latin-1')] *)
Definition decode_latin1 (bs : list byte) : pystr :=
  map (fun b => Byte.to_N b) bs.

(** Universal-newline translation of text-mode reads. *)
Fixpoint universal_newlines (s : pystr) : pystr :=
  match s with
  | [] => []
  | c :: t =>
      if c =? 13 then
        10 :: match t with
              | [] => []
              | d :: t' => if d =? 10 then universal_newlines t'
                           else universal_newlines t
              end
      else c :: universal_newlines t
  end.

(** ** Paths and directory listings *)

(** [s.rfind(c)] *)
Fixpoint rfind (c : N) (s : pystr) : option nat :=
  match s with
  | [] => None
  | x :: t =>
      match rfind c t with
      | Some i => Some (S i)
      | None => if x =? c then Some O else None
      end
  end.

(** Index at which [PurePath] splits a file name into stem and suffix:
    the last dot, unless it is the first or the last character. *)
Definition suffix_index (name : pystr) : option nat :=
  match rfind 46 name with
  | Some i =>
      if (0 <? i)%nat && (i <? length name - 1)%nat then Some i else None
  | None => None
  end.

(** [Path.suffix] *)
Definition path_suffix (name : pystr) : pystr :=
  match suffix_index name with
  | Some i => drop i name
  | None => []
  end.

(** [Path.stem] *)
Definition path_stem (name : pystr) : pystr :=
  match suffix_index name with
  | Some i => take i name
  | None => name
  end.

(** A directory entry of the input directory.  [edata = None] is an entry
    that cannot be opened for reading; [esize] is [stat().st_size] when
    [stat()] succeeds. *)
Record entry := Entry {
  ename : pystr;
  edata : option (list byte);
  esize : N
}.

(** [input_dir.glob("*" + ext)]: the entries whose name ends with [ext],
    in listing order. *)
Definition glob_ext (ext : pystr) (l : list entry) : list entry :=
  List.filter (fun e => endswith ext (ename e)) l.

(** [input_dir.glob("*.*")] *)
Definition glob_dotted (l : list entry) : list entry :=
  List.filter (fun e => py_in [46] (ename e)) l.

(** A path below the input or the output directory. *)
Inductive path :=
| InDir (name : pystr)
| OutDir (name : pystr).

(** ** The environment *)

(** [subprocess.run(..., check=False)]: either the call itself raises
    (the program cannot be started, its output cannot be decoded) or it
    completes with some output. *)
Inductive proc :=
| Raised
| Out (stdout : pystr).

(** [qemu-img info --output=json] followed by [json.loads] and
    [info.get('format', 'vmdk')]. *)
Inductive info_result :=
| InfoFailed                       (* non-zero exit: CalledProcessError *)
| InfoNotJson                      (* json.loads raises *)
| InfoFormat (fmt : option pystr). (* the value under "format", if any *)

(** The errors of the operating system that the program tells apart.  The
    first three are the classes named by the first handler of [main]. *)
Inductive os_error := ENOENT | ENOTDIR | EACCES | EISDIR | EOTHER.

(** [output_dir.exists()] followed by [output_dir.mkdir(parents=True)],
    when the directory is not there: both succeed, or one of them raises. *)
Inductive mkdir_result := MkdirOk | MkdirFails (k : os_error).

(** What click makes of the command line.  [input_dir] says that INPUT_DIR
    is given, [output_dir] that OUTPUT_DIR is given and not empty.  The
    option [--verbose] only selects the logging level and whether a
    traceback follows the report of an unexpected error. *)
Inductive command_line :=
| Cl_rejected     (* click's parser rejects it: an unknown option, or too
                     many arguments without the help option *)
| Cl_help         (* it holds --help or -h, which click handles first *)
| Cl_arguments (input_dir output_dir : bool).

Record world := World {
  cmdline : command_line;
  (* what INPUT_DIR names: [os.stat] succeeds, the path is a directory, a
     regular file, [os.access(R_OK)] holds; the entries of the directory *)
  in_exists : bool;
  in_is_dir : bool;
  in_is_file : bool;
  in_readable : bool;
  in_files : list entry;
  (* the error of [stat()] on an entry, if any (a dangling link), and the
     error of [open()] on an entry that cannot be opened *)
  stat_error : entry -> option os_error;
  open_error : entry -> os_error;
  (* what OUTPUT_DIR names before the run *)
  out_exists0 : bool;
  out_is_file0 : bool;
  out_readable0 : bool;
  out_fs0 : gmap pystr (list byte);
  (* external programs; the second argument is the file's current content *)
  fdisk_l : path -> option (list byte) -> proc;
  file_s : path -> option (list byte) -> proc;
  qemu_available : bool;
  qemu_img_info : entry -> info_result;
  qemu_convert : pystr -> entry -> option (list byte);
  cp_ok : pystr -> bool;
  tmp_writable : bool;
  mkdir_out : mkdir_result;
  (* the error of [output_dir.iterdir()] on an existing path, if any *)
  iterdir_out : option os_error;
  (* [shutil.copy2] can write the copy of an entry it can read *)
  copy2_ok : entry -> bool;
  confirm : bool;
  (* str(output_dir), Path.resolve on an output file, uuid.uuid4() *)
  out_dir : pystr;
  resolve : pystr -> pystr;
  fresh_uuid : pystr;
  (* the locale's encoder for files opened in text mode; None is
     UnicodeEncodeError *)
  encode_text : pystr -> option (list byte);
  (* the builtins int() and str.lower(); None is ValueError *)
  py_int : pystr -> option Z;
  py_lower : pystr -> pystr
}.

(** [qemu-img info] on a source.  A file on which [stat()] fails cannot be
    opened by [qemu-img] either, which then exits with an error. *)
Definition qemu_info (w : world) (vmdk : entry) : info_result :=
  match stat_error w vmdk with
  | Some _ => InfoFailed
  | None => qemu_img_info w vmdk
  end.

(** [str(self.output_dir / name)] *)
Definition out_path_str (w : world) (name : pystr) : pystr :=
  out_dir w ++ lit "/" ++ name.

(** ** Exceptions, log events, commands *)

Inductive fnf_msg :=
| Input_dir_missing
| No_vmx_found
| No_vmdk_found
| No_valid_vmdk
| Disk_file_missing (abs_disk_path : pystr)
| No_such_file.                      (* raised by the operating system *)

Inductive rt_msg :=
| Qemu_img_not_found
| Failed_to_convert (name : pystr).

Inductive exn :=
| FileNotFoundError (m : fnf_msg)
| NotADirectoryError
| PermissionError
| RuntimeError (m : rt_msg)
| Abort
| SystemExit (code : Z)
| CalledProcessError
| JSONDecodeError
| ValueError
| StopIteration
| IsADirectoryError
| OSError.                           (* any other [OSError] *)

Definition os_exn (k : os_error) : exn :=
  match k with
  | ENOENT => FileNotFoundError No_such_file
  | ENOTDIR => NotADirectoryError
  | EACCES => PermissionError
  | EISDIR => IsADirectoryError
  | EOTHER => OSError
  end.

Inductive warning :=
| W_vmem (n : nat)
| W_vmss (n : nat)
| W_could_not_analyze (name : pystr)
| W_shows_as_data (name : pystr)
| W_could_not_check_signature (name : pystr).

(** One constructor per [click.echo] call (consecutive calls with fixed
    text are one event). *)
Inductive msg :=
| E_found_vm (name : pystr)
| E_found_descriptor (name : pystr)
| E_skipping_snapshot (name : pystr)
| E_could_not_read (name : pystr)
| E_monolithic (n : nat)
| E_validating
| E_checking (name : pystr)
| E_has_partition_table (name : pystr)
| E_no_partition_table (name : pystr)
| E_appears_descriptor (name : pystr)
| E_boot_signature (name : pystr)
| E_warnings (ws : list warning)
| E_validation_failed (errors : list pystr)
| E_no_bootable_disks
| E_validation_passed
| E_converting_images
| E_converting_count (n : nat)
| E_converting (i n : nat) (src out : pystr)
| E_detected_format (fmt : pystr)
| E_raw_detected
| E_converted_as_vmdk
| E_vmdk_failed
| E_vmdk_failed_using_raw (gib : N)
| E_converted (name : pystr)
| E_partition_detected
| E_no_partition_attempting_fix
| E_could_not_verify
| E_attempting_repair
| E_dos_boot_sector_detected
| E_manual_intervention (backup_path : pystr)
| E_automatic_repair_failed
| E_could_not_detect_type
| E_repair_failed
| E_created_output_dir
| E_copy_warning (name : pystr)
| E_copied (names : list pystr)
| E_starting
| E_aborted_validation
| E_processing_config (name : pystr)
| E_completed_successfully (xml_file : pystr)
| E_error (e : exn)
| E_cancelled
| E_unexpected (e : exn)
| E_arguments_required
| E_help
| E_usage_error.

Inductive cmd :=
| Fdisk_l (p : path)
| File_s (p : path)
| Qemu_version
| Qemu_info (src : pystr)
| Qemu_convert (fmt src out : pystr)
| Cp (src dst : pystr).

(** ** State and the monad *)

(** The converter object ([vm_name], [disk_files]) together with what the
    run can change outside it. *)
Record state := State {
  vm_name : option pystr;
  disk_files : list pystr;          (* names below the output directory *)
  out_exists : bool;
  out_fs : gmap pystr (list byte);
  tmp_script : option pystr;        (* /tmp/testdisk_script.txt *)
  cmds : list cmd;
  log : list msg
}.

Definition init_state (w : world) : state :=
  State None [] (out_exists0 w) (out_fs0 w) None [] [].

Inductive result (A : Type) :=
| Ok (a : A)
| Raise (e : exn).
Arguments Ok {A} a.
Arguments Raise {A} e.

Definition M (A : Type) : Type := state -> result A * state.

Definition ret {A} (a : A) : M A := fun s => (Ok a, s).

Definition bind {A B} (m : M A) (k : A -> M B) : M B :=
  fun s => match m s with
           | (Ok a, s') => k a s'
           | (Raise e, s') => (Raise e, s')
           end.

Definition raise {A} (e : exn) : M A := fun s => (Raise e, s).

(** [try: m except C: h] where [handles] selects the class [C]. *)
Definition try_except {A} (m : M A) (handles : exn -> bool) (h : exn -> M A)
  : M A :=
  fun s => match m s with
           | (Ok a, s') => (Ok a, s')
           | (Raise e, s') => if handles e then h e s' else (Raise e, s')
           end.

Notation "x <- m ;; k" := (bind m (fun x => k))
  (at level 62, m at next level, right associativity).
Notation "m ;;; k" := (bind m (fun _ => k))
  (at level 62, right associativity).

Definition get : M state := fun s => (Ok s, s).

Definition echo (m : msg) : M unit :=
  fun s => (Ok tt, State (vm_name s) (disk_files s) (out_exists s) (out_fs s)
                         (tmp_script s) (cmds s) (log s ++ [m])).

Definition run_cmd (c : cmd) : M unit :=
  fun s => (Ok tt, State (vm_name s) (disk_files s) (out_exists s) (out_fs s)
                         (tmp_script s) (cmds s ++ [c]) (log s)).

Definition write_out (name : pystr) (b : list byte) : M unit :=
  fun s => (Ok tt, State (vm_name s) (disk_files s) (out_exists s)
                         (<[name := b]> (out_fs s))
                         (tmp_script s) (cmds s) (log s)).

Definition set_out_exists : M unit :=
  fun s => (Ok tt, State (vm_name s) (disk_files s) true (out_fs s)
                         (tmp_script s) (cmds s) (log s)).

Definition set_vm_name (n : pystr) : M unit :=
  fun s => (Ok tt, State (Some n) (disk_files s) (out_exists s) (out_fs s)
                         (tmp_script s) (cmds s) (log s)).

Definition append_disk_file (n : pystr) : M unit :=
  fun s => (Ok tt, State (vm_name s) (disk_files s ++ [n]) (out_exists s)
                         (out_fs s) (tmp_script s) (cmds s) (log s)).

Definition write_tmp_script (content : pystr) : M unit :=
  fun s => (Ok tt, State (vm_name s) (disk_files s) (out_exists s) (out_fs s)
                         (Some content) (cmds s) (log s)).

(** ** More string methods *)

(** [str.isspace] on one character. *)
Definition py_isspace (c : N) : bool :=
  ((9 <=? c) && (c <=? 13)) || ((28 <=? c) && (c <=? 32)) ||
  (c =? 133) || (c =? 160) || (c =? 5760) ||
  ((8192 <=? c) && (c <=? 8202)) || (c =? 8232) || (c =? 8233) ||
  (c =? 8239) || (c =? 8287) || (c =? 12288).

Fixpoint lstrip_by (p : N -> bool) (s : pystr) : pystr :=
  match s with
  | [] => []
  | c :: t => if p c then lstrip_by p t else s
  end.

Definition strip_by (p : N -> bool) (s : pystr) : pystr :=
  rev (lstrip_by p (rev (lstrip_by p s))).

(** [s.strip()] *)
Definition py_strip (s : pystr) : pystr := strip_by py_isspace s.

(** [s.strip(q)] where [q] is the double-quote character. *)
Definition strip_quotes (s : pystr) : pystr := strip_by (N.eqb 34) s.

(** [s.split(sep)] for a non-empty separator.  [skip] counts the characters
    of a separator just matched that are still to be passed over; [cur] is
    the current piece, reversed. *)
Fixpoint split_go (sep : pystr) (skip : nat) (cur s : pystr) : list pystr :=
  match s with
  | [] => [rev cur]
  | c :: t =>
      match skip with
      | S k => split_go sep k cur t
      | O =>
          if startswith sep s
          then rev cur :: split_go sep (length sep - 1) [] t
          else split_go sep 0 (c :: cur) t
      end
  end.

Definition py_split (sep s : pystr) : list pystr := split_go sep 0 [] s.

(** [s.split(c, 1)] for a one-character separator that occurs in [s]:
    the text before and after its first occurrence. *)
Fixpoint split_once (c : N) (s : pystr) : pystr * pystr :=
  match s with
  | [] => ([], [])
  | x :: t =>
      if x =? c then ([], t)
      else let '(k, v) := split_once c t in (x :: k, v)
  end.

(** Line boundaries of [str.splitlines] other than CR and CR LF. *)
Definition is_linebreak (c : N) : bool :=
  (c =? 10) || (c =? 11) || (c =? 12) || (c =? 28) || (c =? 29) ||
  (c =? 30) || (c =? 133) || (c =? 8232) || (c =? 8233).

(** [s.splitlines()]; [cur] is the current line, reversed. *)
Fixpoint splitlines_go (cur s : pystr) : list pystr :=
  match s with
  | [] => match cur with [] => [] | _ => [rev cur] end
  | c :: t =>
      if c =? 13 then
        rev cur :: match t with
                   | [] => []
                   | d :: t' => if d =? 10 then splitlines_go [] t'
                                else splitlines_go [] t
                   end
      else if is_linebreak c then rev cur :: splitlines_go [] t
      else splitlines_go (c :: cur) t
  end.

Definition splitlines (s : pystr) : list pystr := splitlines_go [] s.

(** [sep.join(parts)] *)
Fixpoint join (sep : pystr) (parts : list pystr) : pystr :=
  match parts with
  | [] => []
  | [p] => p
  | p :: rest => p ++ sep ++ join sep rest
  end.

(** [str(n)] for an integer. *)
Definition str_of_Z (z : Z) : pystr :=
  lit (DecimalString.NilZero.string_of_int (Z.to_int z)).

(** ** Text-mode reads *)

(** [open(p, 'r', encoding='utf-8', errors='ignore').read()] *)
Definition read_text_ignore (b : list byte) : pystr :=
  universal_newlines (decode_ignore b).

(** The text layer decodes the file in chunks of this many bytes. *)
Definition TEXT_CHUNK : nat := N.to_nat 8192.

Fixpoint chunked (fuel k : nat) (b : list byte) : list (list byte) :=
  match b with
  | [] => []
  | _ :: _ =>
      match fuel with
      | O => [b]
      | S f => take k b :: chunked f k (drop k b)
      end
  end.

(** Decode chunk after chunk until [n] characters are available or the file
    ends; an invalid byte in a chunk that was read, or a sequence cut off by
    the end of the file, is [UnicodeDecodeError] ([None]). *)
Fixpoint read_chunks (st : dstate) (acc : pystr) (chunks : list (list byte))
    (n : nat) : option pystr :=
  match chunks with
  | [] => if is_idle st then Some (take n (universal_newlines acc)) else None
  | c :: rest =>
      let '(cs, e, st') := utf8_run st c in
      if e then None
      else if (n <=? length (universal_newlines (acc ++ cs)))%nat
           then Some (take n (universal_newlines (acc ++ cs)))
           else read_chunks st' (acc ++ cs) rest n
  end.

(** [open(p, 'r', encoding='utf-8').read(n)] *)
Definition read_text_strict (b : list byte) (n : nat) : option pystr :=
  read_chunks Idle [] (chunked (length b) TEXT_CHUNK b) n.

(** [open(p, 'r', encoding='utf-8').read()] *)
Definition read_all_strict (b : list byte) : option pystr :=
  option_map universal_newlines (decode_strict b).

(** ** The converter's methods *)

Definition PARENT_HINT : pystr := lit "parentFileNameHint".
Definition CREATE_TYPE : pystr := lit "createType".

(** [validate_input] *)
Definition validate_input (w : world) : M unit :=
  if negb (in_exists w) then raise (FileNotFoundError Input_dir_missing)
  else if negb (in_is_dir w) then raise NotADirectoryError
  else
    match glob_ext (lit ".vmx") (in_files w) with
    | [] => raise (FileNotFoundError No_vmx_found)
    | vmx :: _ =>
        set_vm_name (path_stem (ename vmx)) ;;;
        echo (E_found_vm (path_stem (ename vmx)))
    end.

(** The test of [identify_disk_structure] on one file: the first 512 bytes,
    decoded leniently, mention a creation type or a parent hint.  A file
    that cannot be read counts as a data file. *)
Definition is_descriptor (vmdk : entry) : bool :=
  match edata vmdk with
  | Some b =>
      let header := decode_ignore (take 512 b) in
      py_in CREATE_TYPE header || py_in PARENT_HINT header
  | None => false
  end.

(** The loop of [identify_disk_structure]: one step appends the file to
    [descriptor_files] or to [data_files]. *)
Definition classify_step (acc : list entry * list entry) (vmdk : entry)
  : list entry * list entry :=
  if is_descriptor vmdk then (fst acc ++ [vmdk], snd acc)
  else (fst acc, snd acc ++ [vmdk]).

(** [identify_disk_structure] *)
Definition identify_disk_structure (w : world)
  : M (list entry * list entry) :=
  match glob_ext (lit ".vmdk") (in_files w) with
  | [] => raise (FileNotFoundError No_vmdk_found)
  | vmdk_files => ret (fold_left classify_step vmdk_files ([], []))
  end.

(** The loop over [descriptor_files] in [get_disk_conversion_targets]. *)
Fixpoint select_descriptors (descs targets : list entry) : M (list entry) :=
  match descs with
  | [] => ret targets
  | desc :: rest =>
      match edata desc with
      | Some b =>
          if negb (py_in PARENT_HINT (read_text_ignore b)) then
            echo (E_found_descriptor (ename desc)) ;;;
            select_descriptors rest (targets ++ [desc])
          else
            echo (E_skipping_snapshot (ename desc)) ;;;
            select_descriptors rest targets
      | None =>
          echo (E_could_not_read (ename desc)) ;;;
          select_descriptors rest targets
      end
  end.

(** [get_disk_conversion_targets] *)
Definition get_disk_conversion_targets (w : world) : M (list entry) :=
  r <- identify_disk_structure w ;;
  let '(descriptor_files, data_files) := r in
  conversion_targets <-
    match descriptor_files with
    | _ :: _ => select_descriptors descriptor_files []
    | [] => echo (E_monolithic (length data_files)) ;;; ret data_files
    end ;;
  match conversion_targets with
  | [] => raise (FileNotFoundError No_valid_vmdk)
  | _ :: _ => ret conversion_targets
  end.

(** The accumulators of [validate_vmware_vm]. *)
Record vacc := VAcc {
  validation_errors : list pystr;
  warnings : list warning;
  bootable_disks : nat
}.

Definition add_error (a : vacc) (name : pystr) : vacc :=
  VAcc (validation_errors a ++ [name]) (warnings a) (bootable_disks a).

Definition add_warning (a : vacc) (x : warning) : vacc :=
  VAcc (validation_errors a) (warnings a ++ [x]) (bootable_disks a).

Definition add_bootable (a : vacc) : vacc :=
  VAcc (validation_errors a) (warnings a) (S (bootable_disks a)).

(** The test applied to the output of [fdisk -l]. *)
Definition has_partition_table (stdout : pystr) : bool :=
  py_in (lit "Disklabel type:") stdout || py_in (lit "Device") stdout.

(** The inner [try] of the first loop: the first 1024 characters, decoded
    strictly, mention both [createType] and [VMDK]; any exception is
    swallowed. *)
Definition looks_like_descriptor (vmdk : entry) : bool :=
  match edata vmdk with
  | Some b =>
      match read_text_strict b 1024 with
      | Some content =>
          py_in CREATE_TYPE content && py_in (lit "VMDK") content
      | None => false
      end
  | None => false
  end.

(** Body of the first loop of [validate_vmware_vm]. *)
Definition check_partition_table (w : world) (a : vacc) (vmdk : entry)
  : M vacc :=
  echo (E_checking (ename vmdk)) ;;;
  run_cmd (Fdisk_l (InDir (ename vmdk))) ;;;
  match fdisk_l w (InDir (ename vmdk)) (edata vmdk) with
  | Raised => ret (add_warning a (W_could_not_analyze (ename vmdk)))
  | Out stdout =>
      if has_partition_table stdout then
        echo (E_has_partition_table (ename vmdk)) ;;;
        ret (add_bootable a)
      else
        echo (E_no_partition_table (ename vmdk)) ;;;
        if looks_like_descriptor vmdk then
          echo (E_appears_descriptor (ename vmdk)) ;;;
          ret a
        else ret (add_error a (ename vmdk))
  end.

(** [vmdk.stat().st_size] *)
Definition stat (w : world) (vmdk : entry) : M N :=
  match stat_error w vmdk with
  | Some k => raise (os_exn k)
  | None => ret (esize vmdk)
  end.

(** Body of the second loop of [validate_vmware_vm].  [stat()] is called
    outside the [try]: its error ends the loop and the method.  Indexing
    the split output at 1 may raise [IndexError], which the handler turns
    into a warning. *)
Definition check_boot_signature (w : world) (a : vacc) (vmdk : entry)
  : M vacc :=
  st_size <- stat w vmdk ;;
  if st_size <? 1024 then ret a
  else
    run_cmd (File_s (InDir (ename vmdk))) ;;;
    match file_s w (InDir (ename vmdk)) (edata vmdk) with
    | Raised => ret (add_warning a (W_could_not_check_signature (ename vmdk)))
    | Out stdout =>
        if py_in (lit "boot sector") (py_lower w stdout)
           || py_in (lit "filesystem") (py_lower w stdout)
        then echo (E_boot_signature (ename vmdk)) ;;; ret a
        else
          match py_split (lit ": ") (py_strip stdout) !! 1%nat with
          | None =>
              ret (add_warning a (W_could_not_check_signature (ename vmdk)))
          | Some kind =>
              if bool_decide (lit "data" = kind)
              then ret (add_warning a (W_shows_as_data (ename vmdk)))
              else ret a
          end
    end.

(** A [for] loop threading an accumulator. *)
Fixpoint for_each {A B} (f : B -> A -> M B) (l : list A) (b : B) : M B :=
  match l with
  | [] => ret b
  | x :: rest => b' <- f b x ;; for_each f rest b'
  end.

(** The warnings for suspended or crashed state, from the [.vmem] and
    [.vmss] files. *)
Definition state_warnings (w : world) : list warning :=
  let vmem_files := glob_ext (lit ".vmem") (in_files w) in
  let vmss_files := glob_ext (lit ".vmss") (in_files w) in
  (match vmem_files with [] => [] | _ => [W_vmem (length vmem_files)] end) ++
  (match vmss_files with [] => [] | _ => [W_vmss (length vmss_files)] end).

(** Both loops of [validate_vmware_vm], up to the final report. *)
Definition validate_scan (w : world) : M vacc :=
  let vmdk_files := glob_ext (lit ".vmdk") (in_files w) in
  a <- for_each (check_partition_table w) vmdk_files
         (VAcc [] (state_warnings w) 0) ;;
  for_each (check_boot_signature w) vmdk_files a.

(** [validate_vmware_vm] *)
Definition validate_vmware_vm (w : world) : M bool :=
  echo E_validating ;;;
  a <- validate_scan w ;;
  (match warnings a with
   | [] => ret tt
   | _ :: _ => echo (E_warnings (warnings a))
   end) ;;;
  match validation_errors a with
  | _ :: _ =>
      echo (E_validation_failed (validation_errors a)) ;;;
      ret false
  | [] =>
      (if (bootable_disks a =? 0)%nat && bool_decide (warnings a = [])
       then echo E_no_bootable_disks else ret tt) ;;;
      echo E_validation_passed ;;;
      ret true
  end.

Definition is_called_process_error (e : exn) : bool :=
  match e with CalledProcessError => true | _ => false end.

(** The script written to [/tmp/testdisk_script.txt]. *)
Definition testdisk_script (disk_path : pystr) : pystr :=
  join [10] [lit "select," ++ disk_path; lit "analyse"; lit "quick_search";
             lit "write"; lit "quit"].

(** [attempt_boot_sector_fix].  Every exception ends in the outer handler
    (sniffer cannot be started, [cp] fails) or in the inner one (the script
    cannot be written); the method always returns [False]. *)
Definition attempt_boot_sector_fix (w : world) (name : pystr) : M bool :=
  echo E_attempting_repair ;;;
  run_cmd (File_s (OutDir name)) ;;;
  s <- get ;;
  match file_s w (OutDir name) (out_fs s !! name) with
  | Raised => echo E_repair_failed ;;; ret false
  | Out stdout =>
      if py_in (lit "DOS/MBR boot sector") stdout
         || py_in (lit "Microsoft") stdout
      then
        echo E_dos_boot_sector_detected ;;;
        let backup := name ++ lit ".backup" in
        run_cmd (Cp (out_path_str w name) (out_path_str w backup)) ;;;
        match out_fs s !! name with
        | Some image =>
            if cp_ok w name then
              write_out backup image ;;;
              (if tmp_writable w then
                 write_tmp_script (testdisk_script (out_path_str w name)) ;;;
                 echo (E_manual_intervention (out_path_str w backup))
               else echo E_automatic_repair_failed) ;;;
              ret false
            else echo E_repair_failed ;;; ret false
        | None => echo E_repair_failed ;;; ret false
        end
      else echo E_could_not_detect_type ;;; ret false
  end.

(** [verify_converted_disk] *)
Definition verify_converted_disk (w : world) (name : pystr) : M bool :=
  run_cmd (Fdisk_l (OutDir name)) ;;;
  s <- get ;;
  match fdisk_l w (OutDir name) (out_fs s !! name) with
  | Raised => echo E_could_not_verify ;;; ret false
  | Out stdout =>
      if has_partition_table stdout then
        echo E_partition_detected ;;; ret true
      else
        echo E_no_partition_attempting_fix ;;;
        attempt_boot_sector_fix w name
  end.

(** One [qemu-img convert -f fmt -O qcow2] with [check=True]: on success
    the output file holds the converted image. *)
Definition qemu_img_convert (w : world) (fmt : pystr) (vmdk : entry)
    (output_name : pystr) : M unit :=
  run_cmd (Qemu_convert fmt (ename vmdk) output_name) ;;;
  match qemu_convert w fmt vmdk with
  | Some image => write_out output_name image
  | None => raise CalledProcessError
  end.

(** Body of the loop of [convert_disk_images]. *)
Definition convert_one (w : world) (i n : nat) (vmdk : entry) : M unit :=
  let output_name := path_stem (ename vmdk) ++ lit ".qcow2" in
  echo (E_converting i n (ename vmdk) output_name) ;;;
  try_except
    (run_cmd (Qemu_info (ename vmdk)) ;;;
     detected_format <-
       match qemu_info w vmdk with
       | InfoFailed => raise CalledProcessError
       | InfoNotJson => raise JSONDecodeError
       | InfoFormat f => ret (default (lit "vmdk") f)
       end ;;
     echo (E_detected_format detected_format) ;;;
     (if bool_decide (detected_format = lit "raw") then
        echo E_raw_detected ;;;
        try_except
          (qemu_img_convert w (lit "vmdk") vmdk output_name ;;;
           echo E_converted_as_vmdk)
          is_called_process_error
          (fun _ =>
             echo E_vmdk_failed ;;;
             st_size <- stat w vmdk ;;
             echo (E_vmdk_failed_using_raw (st_size / 1024 ^ 3)) ;;;
             qemu_img_convert w (lit "raw") vmdk output_name)
      else qemu_img_convert w detected_format vmdk output_name) ;;;
     verify_converted_disk w output_name ;;;
     append_disk_file output_name ;;;
     echo (E_converted (ename vmdk)))
    is_called_process_error
    (fun _ => raise (RuntimeError (Failed_to_convert (ename vmdk)))).

Fixpoint convert_loop (w : world) (i n : nat) (targets : list entry)
  : M unit :=
  match targets with
  | [] => ret tt
  | vmdk :: rest => convert_one w i n vmdk ;;; convert_loop w (S i) n rest
  end.

(** [convert_disk_images] *)
Definition convert_disk_images (w : world) : M unit :=
  echo E_converting_images ;;;
  run_cmd Qemu_version ;;;
  if negb (qemu_available w) then raise (RuntimeError Qemu_img_not_found)
  else
    conversion_targets <- get_disk_conversion_targets w ;;
    echo (E_converting_count (length conversion_targets)) ;;;
    convert_loop w 1 (length conversion_targets) conversion_targets.

(** The suffixes that [create_output_structure] does not copy. *)
Definition not_copied (sfx : pystr) : bool :=
  bool_decide (sfx = lit ".vmdk") || bool_decide (sfx = lit ".vmx") ||
  bool_decide (sfx = lit ".vmsd") || bool_decide (sfx = lit ".log").

(** The loop of [create_output_structure] over [glob("*.*")].  A copy
    fails when the source cannot be read or the copy cannot be written;
    the handler turns either into a warning. *)
Fixpoint copy_additional (w : world) (files : list entry)
    (additional_files : list pystr) : M (list pystr) :=
  match files with
  | [] => ret additional_files
  | file :: rest =>
      if not_copied (path_suffix (ename file)) then
        copy_additional w rest additional_files
      else
        match edata file with
        | Some b =>
            if copy2_ok w file then
              write_out (ename file) b ;;;
              copy_additional w rest (additional_files ++ [ename file])
            else
              echo (E_copy_warning (ename file)) ;;;
              copy_additional w rest additional_files
        | None =>
            echo (E_copy_warning (ename file)) ;;;
            copy_additional w rest additional_files
        end
  end.

(** [create_output_structure].  The handler of the [try] turns a
    [PermissionError] into a [PermissionError] with another text; every
    other error of [exists], [mkdir] and [iterdir] passes as it is. *)
Definition create_output_structure (w : world) : M unit :=
  s <- get ;;
  (if negb (out_exists s) then
     match mkdir_out w with
     | MkdirOk => set_out_exists ;;; echo E_created_output_dir
     | MkdirFails k => raise (os_exn k)
     end
   else
     match iterdir_out w with
     | Some k => raise (os_exn k)
     | None =>
         if negb (bool_decide (out_fs s = ∅)) then
           if confirm w then ret tt else raise Abort
         else ret tt
     end) ;;;
  additional_files <- copy_additional w (glob_dotted (in_files w)) [] ;;
  match additional_files with
  | [] => ret tt
  | _ :: _ => echo (E_copied additional_files)
  end.

(** ** Configuration and the domain descriptor *)

(** The text of the [.vmx] file: UTF-8, or Latin-1 when that fails (which
    never fails, so the third attempt of the source is never reached). *)
Definition read_vmx (b : list byte) : pystr :=
  match read_all_strict b with
  | Some content => content
  | None => universal_newlines (decode_latin1 b)
  end.

(** Body of the loop of [parse_vmx_config]. *)
Definition parse_line (config : gmap pystr pystr) (line : pystr)
  : gmap pystr pystr :=
  let line := py_strip line in
  if py_in (lit "=") line && negb (startswith (lit "#") line) then
    let '(key, value) := split_once 61 line in
    <[py_strip key := strip_quotes (py_strip value)]> config
  else config.

(** [parse_vmx_config]; a file that cannot be opened raises the [OSError]
    of [open()]. *)
Definition parse_vmx_config (w : world) (vmx_file : entry)
  : M (gmap pystr pystr) :=
  match edata vmx_file with
  | Some b => ret (fold_left parse_line (splitlines (read_vmx b)) ∅)
  | None => raise (os_exn (open_error w vmx_file))
  end.

(** [chr(n)]; [None] is [ValueError]. *)
Definition py_chr (n : N) : option N :=
  if n <=? 0x10FFFF then Some n else None.

(** A literal of the source in which the double quotes are written as
    single quotes. *)
Definition dq (s : string) : pystr :=
  map (fun c => if c =? 39 then 34 else c) (lit s).

(** The [disk_xml] f-string for one disk. *)
Definition disk_xml (abs_disk_path : pystr) (letter : N) : pystr :=
  join [10] [
    dq "    <disk type='file' device='disk'>";
    dq "      <driver name='qemu' type='qcow2' cache='writethrough'/>";
    dq "      <source file='" ++ abs_disk_path ++ dq "'/>";
    dq "      <target dev='hd" ++ [letter] ++ dq "' bus='ide'/>";
    dq "    </disk>"].

(** [xml_template.format(...)] *)
Definition xml_template (vm_name vm_uuid memory_kb vcpus disk_xml : pystr)
  : pystr :=
  join [10] [
    dq "<?xml version='1.0' encoding='UTF-8'?>";
    dq "<domain type='kvm'>";
    lit "  <name>" ++ vm_name ++ lit "</name>";
    lit "  <uuid>" ++ vm_uuid ++ lit "</uuid>";
    dq "  <memory unit='KiB'>" ++ memory_kb ++ lit "</memory>";
    dq "  <currentMemory unit='KiB'>" ++ memory_kb ++ lit "</currentMemory>";
    dq "  <vcpu placement='static'>" ++ vcpus ++ lit "</vcpu>";
    lit "  <os>";
    dq "    <type arch='x86_64' machine='pc-i440fx-2.9'>hvm</type>";
    dq "    <boot dev='hd'/>";
    lit "  </os>";
    lit "  <features>";
    lit "    <acpi/>";
    lit "    <apic/>";
    lit "  </features>";
    dq "  <cpu mode='host-passthrough'/>";
    dq "  <clock offset='utc'/>";
    lit "  <on_poweroff>destroy</on_poweroff>";
    lit "  <on_reboot>restart</on_reboot>";
    lit "  <on_crash>destroy</on_crash>";
    lit "  <devices>";
    lit "    <emulator>/usr/bin/qemu-system-x86_64</emulator>";
    disk_xml;
    dq "    <interface type='network'>";
    dq "      <source network='default'/>";
    dq "      <model type='e1000'/>";
    lit "    </interface>";
    dq "    <serial type='pty'>";
    dq "      <target port='0'/>";
    lit "    </serial>";
    dq "    <console type='pty'>";
    dq "      <target type='serial' port='0'/>";
    lit "    </console>";
    dq "    <input type='mouse' bus='ps2'/>";
    dq "    <input type='keyboard' bus='ps2'/>";
    dq "    <graphics type='vnc' port='-1' autoport='yes'/>";
    lit "    <video>";
    dq "      <model type='cirrus' vram='16384' heads='1' primary='yes'/>";
    lit "    </video>";
    lit "  </devices>";
    lit "</domain>"].

(** The loop of [generate_libvirt_xml] over [enumerate(self.disk_files)]. *)
Fixpoint disk_xml_loop (w : world) (i : nat) (files : list pystr)
    (disk_xml_parts : list pystr) : M (list pystr) :=
  match files with
  | [] => ret disk_xml_parts
  | disk_file :: rest =>
      s <- get ;;
      let abs_disk_path := resolve w disk_file in
      match out_fs s !! disk_file with
      | None => raise (FileNotFoundError (Disk_file_missing abs_disk_path))
      | Some _ =>
          match py_chr (97 + N.of_nat i) with
          | None => raise ValueError
          | Some letter =>
              disk_xml_loop w (S i) rest
                (disk_xml_parts ++ [disk_xml abs_disk_path letter])
          end
      end
  end.

(** [str(self.vm_name)] *)
Definition vm_name_str (s : state) : pystr :=
  default (lit "None") (vm_name s).

(** [generate_libvirt_xml] *)
Definition generate_libvirt_xml (w : world) (vmx_config : gmap pystr pystr)
  : M pystr :=
  s <- get ;;
  disk_xml_parts <- disk_xml_loop w 0 (disk_files s) [] ;;
  match py_int w (default (lit "1024") (vmx_config !! lit "memsize")) with
  | None => raise ValueError
  | Some memory_mb =>
      let memory_kb := (memory_mb * 1024)%Z in
      let vcpus := default (lit "1") (vmx_config !! lit "numvcpus") in
      ret (xml_template (vm_name_str s) (fresh_uuid w) (str_of_Z memory_kb)
             vcpus (join [10] disk_xml_parts))
  end.

(** ** The command *)

(** The [try] block of [main]. *)
Definition main_body (w : world) : M unit :=
  echo E_starting ;;;
  validate_input w ;;;
  valid <- validate_vmware_vm w ;;
  (if valid then ret tt
   else echo E_aborted_validation ;;; raise (SystemExit 1)) ;;;
  create_output_structure w ;;;
  convert_disk_images w ;;;
  vmx_file <-
    match glob_ext (lit ".vmx") (in_files w) with
    | [] => raise StopIteration
    | vmx :: _ => ret vmx
    end ;;
  echo (E_processing_config (ename vmx_file)) ;;;
  vmx_config <- parse_vmx_config w vmx_file ;;
  xml_config <- generate_libvirt_xml w vmx_config ;;
  s <- get ;;
  let xml_file := vm_name_str s ++ lit ".xml" in
  match encode_text w xml_config with
  | Some b => write_out xml_file b
  | None => write_out xml_file [] ;;; raise ValueError
  end ;;;
  echo (E_completed_successfully (out_path_str w xml_file)).

Definition log_final (m : msg) (s : state) : state :=
  State (vm_name s) (disk_files s) (out_exists s) (out_fs s) (tmp_script s)
        (cmds s) (log s ++ [m]).

(** The classes named by the handlers of [main].  [click.Abort] is a
    subclass of [RuntimeError], so the second handler takes it and the
    third is never reached; [SystemExit] is not an [Exception]. *)
Definition is_os_error (e : exn) : bool :=
  match e with
  | FileNotFoundError _ | NotADirectoryError | PermissionError => true
  | _ => false
  end.

Definition is_runtime_error (e : exn) : bool :=
  match e with
  | RuntimeError _ | Abort => true
  | _ => false
  end.

Definition is_abort (e : exn) : bool :=
  match e with Abort => true | _ => false end.

Definition is_system_exit (e : exn) : bool :=
  match e with SystemExit _ => true | _ => false end.

(** [main] called with both arguments: the exit status and the final
    state.  The handlers are tried in order; each reports the exception and
    exits with status 1.  [SystemExit] passes them all and carries its own
    status. *)
Definition main (w : world) : Z * state :=
  match main_body w (init_state w) with
  | (Ok _, s) => (0%Z, s)
  | (Raise e, s) =>
      if is_os_error e then (1%Z, log_final (E_error e) s)
      else if is_runtime_error e then (1%Z, log_final (E_error e) s)
      else if is_abort e then (1%Z, log_final E_cancelled s)
      else if negb (is_system_exit e) then (1%Z, log_final (E_unexpected e) s)
      else match e with
           | SystemExit code => (code, s)
           | _ => (1%Z, s)
           end
  end.

(** [main] as click calls it.  Without INPUT_DIR or without OUTPUT_DIR it
    prints that both are required, the help text and the usage examples,
    and exits with status 1, before anything else. *)
Definition main_callback (w : world) (input_dir output_dir : bool)
  : Z * state :=
  if input_dir && output_dir then main w
  else (1%Z, log_final E_arguments_required (init_state w)).

(** The check of [click.Path] on a path argument: a path on which
    [os.stat] fails is rejected when it must exist; a path that exists is
    rejected when it is a regular file ([file_okay=False]) or cannot be
    read. *)
Definition path_rejected (must_exist exists_ is_file readable : bool)
  : bool :=
  if exists_ then is_file || negb readable else must_exist.

(** The command.  click parses the command line and checks the path
    arguments that are given, INPUT_DIR with [exists=True], then calls
    [main].  A command line or a path it rejects ends the run with its
    usage error and status 2; [--help] ends it with the help text and
    status 0. *)
Definition command (w : world) : Z * state :=
  match cmdline w with
  | Cl_rejected => (2%Z, log_final E_usage_error (init_state w))
  | Cl_help => (0%Z, log_final E_help (init_state w))
  | Cl_arguments input_dir output_dir =>
      if (input_dir &&
          path_rejected true (in_exists w) (in_is_file w) (in_readable w))
         || (output_dir &&
             path_rejected false (out_exists0 w) (out_is_file0 w)
               (out_readable0 w))
      then (2%Z, log_final E_usage_error (init_state w))
      else main_callback w input_dir output_dir
  end.

(** ** Sample environments

    A small runtime and a few directories, used to run the model. *)

Module Sample.

(** [int] on an optional sign followed by ASCII digits. *)
Fixpoint digits_value (acc : Z) (s : pystr) : option Z :=
  match s with
  | [] => Some acc
  | c :: t =>
      if (48 <=? c) && (c <=? 57)
      then digits_value (acc * 10 + Z.of_N (c - 48))%Z t
      else None
  end.

Definition int_ascii (s : pystr) : option Z :=
  match py_strip s with
  | [] => None
  | c :: t =>
      if c =? 45 then
        match t with [] => None | _ => Z.opp <$> digits_value 0 t end
      else if c =? 43 then
        match t with [] => None | _ => digits_value 0 t end
      else digits_value 0 (c :: t)
  end.

Definition lower_ascii (s : pystr) : pystr :=
  map (fun c => if (65 <=? c) && (c <=? 90) then c + 32 else c) s.

Definition encode_ascii (s : pystr) : option (list byte) :=
  mapM (fun c => if c <? 128 then Byte.of_N c else None) s.

(** Bytes of a literal in which double quotes are written as single
    quotes. *)
Definition bq (s : string) : list byte :=
  map (fun b => if Byte.to_N b =? 39 then x22 else b) (blit s).

(** A readable file: its size is the number of its bytes. *)
Definition file (name : string) (b : list byte) : entry :=
  Entry (lit name) (Some b) (N.of_nat (length b)).

Definition vmx : entry :=
  file "vm.vmx"
       (bq "displayName = 'vm'" ++ [x0a] ++
        bq "memsize = '2048'" ++ [x0a] ++
        bq "numvcpus = '2'" ++ [x0a]).

Definition vmx_bad_memsize : entry :=
  file "vm.vmx" (bq "memsize = 'lots'" ++ [x0a]).

Definition vmx_no_memsize : entry :=
  file "vm.vmx" (bq "numvcpus = '2'" ++ [x0a]).

Definition descriptor_bytes : list byte :=
  blit "# Disk DescriptorFile" ++ [x0a] ++
  bq "createType='twoGbMaxExtentFlat'" ++ [x0a] ++
  bq "RW 4192256 FLAT 'disk-flat.vmdk' 0 VMDK" ++ [x0a].

Definition descriptor : entry := file "disk.vmdk" descriptor_bytes.

Definition snapshot_bytes : list byte :=
  blit "# Disk DescriptorFile" ++ [x0a] ++
  bq "createType='twoGbMaxExtentSparse'" ++ [x0a] ++
  bq "parentFileNameHint='disk.vmdk'" ++ [x0a].

Definition snapshot : entry := file "disk-000001.vmdk" snapshot_bytes.

(** A descriptor whose parent hint lies beyond the first 512 bytes. *)
Definition late_snapshot_bytes : list byte :=
  bq "createType='twoGbMaxExtentSparse'" ++ [x0a] ++
  repeat x23 600 ++ [x0a] ++
  bq "parentFileNameHint='disk.vmdk'" ++ [x0a].

Definition late_snapshot : entry := file "late.vmdk" late_snapshot_bytes.

Definition flat : entry := file "disk-flat.vmdk" (repeat x00 2048).

Definition vmem : entry := file "vm.vmem" (repeat x00 16).

Definition image_vmdk : list byte := blit "QFI-from-vmdk".
Definition image_raw : list byte := blit "QFI-from-raw".

Definition fdisk_table : proc :=
  Out (lit "Disklabel type: dos").
Definition fdisk_none : proc :=
  Out (lit "Disk image: 2 MiB, 2097152 bytes, 4096 sectors").
Definition file_dos : proc :=
  Out (lit "image: DOS/MBR boot sector").
Definition file_data : proc :=
  Out (lit "image: data").

(** An environment in which every tool works; [fd] and [fl] answer for
    [fdisk -l] and [file -s], [info] and [conv] for [qemu-img]. *)
Definition mk_world (files : list entry)
    (fd fl : path -> option (list byte) -> proc)
    (info : entry -> info_result)
    (conv : pystr -> entry -> option (list byte)) : world :=
  {| cmdline := Cl_arguments true true;
     in_exists := true; in_is_dir := true; in_is_file := false;
     in_readable := true; in_files := files;
     stat_error := fun _ => None; open_error := fun _ => EACCES;
     out_exists0 := false; out_is_file0 := false; out_readable0 := true;
     out_fs0 := ∅;
     fdisk_l := fd; file_s := fl;
     qemu_available := true; qemu_img_info := info; qemu_convert := conv;
     cp_ok := fun _ => true; tmp_writable := true;
     mkdir_out := MkdirOk; iterdir_out := None; copy2_ok := fun _ => true;
     confirm := true;
     out_dir := lit "/out";
     resolve := fun name => lit "/out/" ++ name;
     fresh_uuid := lit "00000000-0000-4000-8000-000000000000";
     encode_text := encode_ascii;
     py_int := int_ascii; py_lower := lower_ascii |}.

(** [fdisk] finds a partition table everywhere. *)
Definition fd_ok (_ : path) (_ : option (list byte)) : proc := fdisk_table.
(** [fdisk] finds a table in the sources but not in converted images. *)
Definition fd_out_none (p : path) (_ : option (list byte)) : proc :=
  match p with InDir _ => fdisk_table | OutDir _ => fdisk_none end.
(** [fdisk] finds no table anywhere. *)
Definition fd_none (_ : path) (_ : option (list byte)) : proc := fdisk_none.

Definition fl_dos (_ : path) (_ : option (list byte)) : proc := file_dos.
Definition fl_data (_ : path) (_ : option (list byte)) : proc := file_data.

Definition info_vmdk (_ : entry) : info_result := InfoFormat (Some (lit "vmdk")).
Definition info_raw (_ : entry) : info_result := InfoFormat (Some (lit "raw")).

Definition conv_any (_ : pystr) (_ : entry) : option (list byte) :=
  Some image_vmdk.
(** Only the raw strategy succeeds. *)
Definition conv_raw_only (fmt : pystr) (_ : entry) : option (list byte) :=
  if bool_decide (fmt = lit "raw") then Some image_raw else None.
Definition conv_never (_ : pystr) (_ : entry) : option (list byte) := None.

(** One descriptor with its flat extent. *)
Definition w_split : world :=
  mk_world [vmx; descriptor; flat] fd_ok fl_dos info_vmdk conv_any.

(** A snapshot descriptor and a flat file, no base descriptor. *)
Definition w_snapshot_only : world :=
  mk_world [vmx; snapshot; flat] fd_ok fl_dos info_vmdk conv_any.

(** Only a flat file. *)
Definition w_flat : world :=
  mk_world [vmx; flat] fd_ok fl_dos info_vmdk conv_any.

(** No disk at all. *)
Definition w_no_vmdk : world :=
  mk_world [vmx] fd_ok fl_dos info_vmdk conv_any.

(** Neither a disk nor a configuration file. *)
Definition w_empty : world :=
  mk_world [vmem] fd_ok fl_dos info_vmdk conv_any.

(** A flat disk without partition table next to a memory dump. *)
Definition w_suspended : world :=
  mk_world [vmx; flat; vmem] fd_none fl_data info_vmdk conv_any.

(** Only a descriptor; no disk shows a partition table, no warning. *)
Definition w_descriptor_no_table : world :=
  mk_world [vmx; descriptor] fd_none fl_data info_vmdk conv_any.

(** The converted image shows no partition table but a DOS boot sector. *)
Definition w_unbootable_result : world :=
  mk_world [vmx; flat] fd_out_none fl_dos info_vmdk conv_any.

(** A raw source that only converts as raw. *)
Definition w_raw : world :=
  mk_world [vmx; flat] fd_ok fl_dos info_raw conv_raw_only.

Definition w_raw_fails : world :=
  mk_world [vmx; flat] fd_ok fl_dos info_raw conv_never.

Definition w_late_snapshot : world :=
  mk_world [vmx; late_snapshot; descriptor] fd_ok fl_dos info_vmdk conv_any.

Definition w_bad_memsize : world :=
  mk_world [vmx_bad_memsize; flat] fd_ok fl_dos info_vmdk conv_any.

Definition w_no_memsize : world :=
  mk_world [vmx_no_memsize; flat] fd_ok fl_dos info_vmdk conv_any.

End Sample.

(** ** Vocabulary of the statements *)

(** [tok] occurs in [hay] as a contiguous run of bytes. *)
Definition contains_bytes (tok hay : list byte) : Prop :=
  exists pre post, hay = pre ++ tok ++ post.

Definition ascii_bytes (bs : list byte) : Prop :=
  Forall (fun b => Byte.to_N b < 128) bs.

(** No pending sequence accepts an ASCII byte as continuation. *)
Definition wf_dstate (st : dstate) : Prop :=
  match st with
  | Idle => True
  | Pend _ _ lo _ => 128 <= lo
  end.

Definition no_newline (tok : pystr) : Prop :=
  Forall (fun c => c <> 13 /\ c <> 10) tok.

(** The [.vmdk] files of the input directory, in discovery order, and the
    two lists [identify_disk_structure] computes from them. *)
Definition vmdk_files (w : world) : list entry :=
  glob_ext (lit ".vmdk") (in_files w).

Definition descriptor_files (w : world) : list entry :=
  fst (fold_left classify_step (vmdk_files w) ([], [])).

Definition data_files (w : world) : list entry :=
  snd (fold_left classify_step (vmdk_files w) ([], [])).

(** The branch [select_descriptors] takes on one descriptor: it is kept
    when it can be read and its whole text has no parent hint. *)
Definition is_selected (desc : entry) : bool :=
  match edata desc with
  | Some b => negb (py_in PARENT_HINT (read_text_ignore b))
  | None => false
  end.

(** The message [select_descriptors] prints for one descriptor. *)
Definition select_msg (desc : entry) : msg :=
  match edata desc with
  | Some b =>
      if negb (py_in PARENT_HINT (read_text_ignore b))
      then E_found_descriptor (ename desc)
      else E_skipping_snapshot (ename desc)
  | None => E_could_not_read (ename desc)
  end.

(** The state after printing the messages [l]. *)
Definition with_log (l : list msg) (s : state) : state :=
  State (vm_name s) (disk_files s) (out_exists s) (out_fs s) (tmp_script s)
        (cmds s) (log s ++ l).

(** The first loop of [validate_vmware_vm] records an error for [vmdk]:
    [fdisk] ran, printed no partition table, and the file does not look
    like a descriptor. *)
Definition unexcused (w : world) (vmdk : entry) : bool :=
  match fdisk_l w (InDir (ename vmdk)) (edata vmdk) with
  | Raised => false
  | Out stdout =>
      negb (has_partition_table stdout) && negb (looks_like_descriptor vmdk)
  end.

(** [fdisk] ran on [vmdk] and printed a partition table. *)
Definition shows_partition_table (w : world) (vmdk : entry) : bool :=
  match fdisk_l w (InDir (ename vmdk)) (edata vmdk) with
  | Raised => false
  | Out stdout => has_partition_table stdout
  end.

(** The formats of the [qemu-img convert] calls in a trace, in order. *)
Definition conversion_attempts (cs : list cmd) : list pystr :=
  omap (fun c => match c with
                 | Qemu_convert fmt _ _ => Some fmt
                 | _ => None
                 end) cs.

(** Commands that read a disk, or copy it. *)
Definition reads_or_copies (c : cmd) : bool :=
  match c with
  | Fdisk_l _ | File_s _ | Cp _ _ => true
  | _ => false
  end.

(** The sniffer output that makes [attempt_boot_sector_fix] back the image
    up. *)
Definition dos_boot_sector (stdout : pystr) : bool :=
  py_in (lit "DOS/MBR boot sector") stdout || py_in (lit "Microsoft") stdout.

(** Only the trace and the log differ between two states. *)
Definition only_trace (s s' : state) : Prop :=
  vm_name s' = vm_name s /\ disk_files s' = disk_files s /\
  out_exists s' = out_exists s /\ out_fs s' = out_fs s /\
  tmp_script s' = tmp_script s.

(** Every exception [m] raises satisfies [P]. *)
Definition raises_only {A} (P : exn -> Prop) (m : M A) : Prop :=
  forall s e s', m s = (Raise e, s') -> P e.

(** [e] is not [SystemExit]. *)
Definition not_exit (e : exn) : Prop := is_system_exit e = false.

(** The configuration [main] passes to [generate_libvirt_xml]. *)
Definition vmx_config_of (vmx_file : entry) : gmap pystr pystr :=
  match edata vmx_file with
  | Some b => fold_left parse_line (splitlines (read_vmx b)) ∅
  | None => ∅
  end.

(** Commands that only inspect a disk. *)
Definition is_probe (c : cmd) : bool :=
  match c with
  | Fdisk_l _ | File_s _ => true
  | _ => false
  end.

(** From [s] to [s'] the trace grew by commands satisfying [p]. *)
Definition trace_grew (p : cmd -> bool) (s s' : state) : Prop :=
  exists extra, cmds s' = cmds s ++ extra /\ forallb p extra = true.

(** What [verify_converted_disk] may change besides trace and log: nothing
    of the converter object, and of the output directory at most the backup
    of the image [name]. *)
Definition backup_frame (name : pystr) (s s' : state) : Prop :=
  vm_name s' = vm_name s /\ disk_files s' = disk_files s /\
  out_exists s' = out_exists s /\
  (out_fs s' = out_fs s \/
   exists image, out_fs s !! name = Some image /\
                 out_fs s' = <[name ++ lit ".backup" := image]> (out_fs s)).

(** The name of the image converted from [vmdk]. *)
Definition output_name (vmdk : entry) : pystr :=
  path_stem (ename vmdk) ++ lit ".qcow2".

(** One disk entry per file, in list order, with the letters from [a]
    on. *)
Definition disk_entries (w : world) (files : list pystr) : list pystr :=
  imap (fun i f => disk_xml (resolve w f) (97 + N.of_nat i)) files.

(** The [<target>] line of a disk entry. *)
Definition target_line (letter : N) : pystr :=
  dq "      <target dev='hd" ++ [letter] ++ dq "' bus='ide'/>".

(** The [<source>] line of a disk entry. *)
Definition source_line (abs_disk_path : pystr) : pystr :=
  dq "      <source file='" ++ abs_disk_path ++ dq "'/>".

(** The text of the descriptor around the disk entries: the opening of the
    [<devices>] element with its emulator, the element that follows the
    entries, and the end of the document. *)
Definition devices_open : pystr :=
  lit "  <devices>" ++ [10] ++
  lit "    <emulator>/usr/bin/qemu-system-x86_64</emulator>" ++ [10].

Definition after_disks : pystr :=
  [10] ++ dq "    <interface type='network'>".

Definition document_end : pystr :=
  lit "  </devices>" ++ [10] ++ lit "</domain>".

(** At most this many disks get a letter from [chr]. *)
Definition max_disks : N := 0x110000 - 97.

(** States of the converter with two recorded disks: both present, and the
    second one missing from the output directory. *)
Module SampleStates.

Definition two_disks : state :=
  State (Some (lit "vm")) [lit "a.qcow2"; lit "b.qcow2"] true
        {[ lit "a.qcow2" := Sample.image_vmdk;
           lit "b.qcow2" := Sample.image_raw ]}
        None [] [].

Definition second_missing : state :=
  State (Some (lit "vm")) [lit "a.qcow2"; lit "b.qcow2"] true
        {[ lit "a.qcow2" := Sample.image_vmdk ]}
        None [] [].

Definition cfg_bad_memsize : gmap pystr pystr :=
  {[ lit "memsize" := lit "lots" ]}.

End SampleStates.

(** ** Vocabulary of the further properties *)

(** The first 512 bytes of a file as [identify_disk_structure] reads
    them. *)
Definition header_of (b : list byte) : pystr := decode_ignore (take 512 b).

(** The body of [convert_disk_images]'s loop completes on [vmdk]: the
    format query answers, and the conversion, or for a raw source one of
    its two attempts, succeeds. *)
Definition converts (w : world) (vmdk : entry) : bool :=
  match qemu_info w vmdk with
  | InfoFormat f =>
      let fmt := default (lit "vmdk") f in
      if bool_decide (fmt = lit "raw") then
        match qemu_convert w (lit "vmdk") vmdk with
        | Some _ => true
        | None =>
            match qemu_convert w (lit "raw") vmdk with
            | Some _ => true
            | None => false
            end
        end
      else
        match qemu_convert w fmt vmdk with
        | Some _ => true
        | None => false
        end
  | _ => false
  end.

(** The sources of the [qemu-img info] calls in a trace, in order. *)
Definition info_queries (cs : list cmd) : list pystr :=
  omap (fun c => match c with
                 | Qemu_info src => Some src
                 | _ => None
                 end) cs.

(** [create_output_structure] copies [file]: its suffix is not excluded
    and it can be read. *)
Definition is_copied (w : world) (file : entry) : bool :=
  negb (not_copied (path_suffix (ename file))) &&
  match edata file with Some _ => copy2_ok w file | None => false end.

(** The error of the first entry of [l] on which [stat()] fails, and the
    entries before that one. *)
Fixpoint first_stat_error (w : world) (l : list entry) : option os_error :=
  match l with
  | [] => None
  | e :: rest =>
      match stat_error w e with
      | Some k => Some k
      | None => first_stat_error w rest
      end
  end.

Fixpoint before_stat_error (w : world) (l : list entry) : list entry :=
  match l with
  | [] => []
  | e :: rest =>
      match stat_error w e with
      | Some _ => []
      | None => e :: before_stat_error w rest
      end
  end.

(** The commands of [validate_vmware_vm]: every disk is probed; then the
    disks of at least 1024 bytes are sniffed, up to the first disk on
    which [stat()] fails. *)
Definition validation_trace (w : world) : list cmd :=
  map (fun e => Fdisk_l (InDir (ename e))) (vmdk_files w) ++
  map (fun e => File_s (InDir (ename e)))
      (List.filter (fun e => negb (esize e <? 1024))
         (before_stat_error w (vmdk_files w))).

(** Neither the first nor the last character of [s] satisfies [p]. *)
Definition clean_ends (p : N -> bool) (s : pystr) : Prop :=
  match s with [] => True | c :: _ => p c = false end /\
  match rev s with [] => True | c :: _ => p c = false end.

(** The effect of one step of [copy_additional] on the output directory. *)
Definition copy_into (w : world) (fs : gmap pystr (list byte))
    (file : entry) : gmap pystr (list byte) :=
  if not_copied (path_suffix (ename file)) then fs
  else match edata file with
       | Some b => if copy2_ok w file then <[ename file := b]> fs else fs
       | None => fs
       end.

(** The targets [get_disk_conversion_targets] returns when it returns:
    the data files when no file is a descriptor, the selected descriptors
    otherwise. *)
Definition conversion_targets (w : world) : list entry :=
  match descriptor_files w with
  | [] => data_files w
  | _ :: _ => List.filter is_selected (descriptor_files w)
  end.

(** How a failed run reports the exception [e]. *)
Definition final_message (e : exn) : msg :=
  if is_os_error e || is_runtime_error e then E_error e else E_unexpected e.

(** More environments. *)
Module Sample2.

Definition flat2 : entry := Sample.file "data2.vmdk" (repeat x01 2048).

Definition conv_first_only (_ : pystr) (e : entry) : option (list byte) :=
  if bool_decide (ename e = lit "disk-flat.vmdk")
  then Some Sample.image_vmdk else None.

Definition w_second_fails : world :=
  Sample.mk_world [Sample.vmx; Sample.flat; flat2] Sample.fd_ok Sample.fl_dos
    Sample.info_vmdk conv_first_only.

Definition w_two_flat : world :=
  Sample.mk_world [Sample.vmx; Sample.flat; flat2] Sample.fd_ok Sample.fl_dos
    Sample.info_vmdk Sample.conv_any.


(** Changing one answer of an environment. *)
Definition set_cmdline (x : command_line) (w : world) : world :=
  World x (in_exists w) (in_is_dir w) (in_is_file w) (in_readable w) (in_files 
    w) (stat_error w) (open_error w) (out_exists0 w) (out_is_file0 w) 
    (out_readable0 w) (out_fs0 w) (fdisk_l w) (file_s w) (qemu_available 
    w) (qemu_img_info w) (qemu_convert w) (cp_ok w) (tmp_writable w) 
    (mkdir_out w) (iterdir_out w) (copy2_ok w) (confirm w) (out_dir w) 
    (resolve w) (fresh_uuid w) (encode_text w) (py_int w) (py_lower w).

Definition set_in_exists (x : bool) (w : world) : world :=
  World (cmdline w) x (in_is_dir w) (in_is_file w) (in_readable w) (in_files 
    w) (stat_error w) (open_error w) (out_exists0 w) (out_is_file0 w) 
    (out_readable0 w) (out_fs0 w) (fdisk_l w) (file_s w) (qemu_available 
    w) (qemu_img_info w) (qemu_convert w) (cp_ok w) (tmp_writable w) 
    (mkdir_out w) (iterdir_out w) (copy2_ok w) (confirm w) (out_dir w) 
    (resolve w) (fresh_uuid w) (encode_text w) (py_int w) (py_lower w).

Definition set_in_is_file (x : bool) (w : world) : world :=
  World (cmdline w) (in_exists w) (in_is_dir w) x (in_readable w) (in_files w) 
    (stat_error w) (open_error w) (out_exists0 w) (out_is_file0 w) 
    (out_readable0 w) (out_fs0 w) (fdisk_l w) (file_s w) (qemu_available 
    w) (qemu_img_info w) (qemu_convert w) (cp_ok w) (tmp_writable w) 
    (mkdir_out w) (iterdir_out w) (copy2_ok w) (confirm w) (out_dir w) 
    (resolve w) (fresh_uuid w) (encode_text w) (py_int w) (py_lower w).

Definition set_stat_error (x : entry -> option os_error) (w : world) : world :=
  World (cmdline w) (in_exists w) (in_is_dir w) (in_is_file w) (in_readable w) 
    (in_files w) x (open_error w) (out_exists0 w) (out_is_file0 w) 
    (out_readable0 w) (out_fs0 w) (fdisk_l w) (file_s w) (qemu_available 
    w) (qemu_img_info w) (qemu_convert w) (cp_ok w) (tmp_writable w) 
    (mkdir_out w) (iterdir_out w) (copy2_ok w) (confirm w) (out_dir w) 
    (resolve w) (fresh_uuid w) (encode_text w) (py_int w) (py_lower w).

Definition set_open_error (x : entry -> os_error) (w : world) : world :=
  World (cmdline w) (in_exists w) (in_is_dir w) (in_is_file w) (in_readable w) 
    (in_files w) (stat_error w) x (out_exists0 w) (out_is_file0 w) 
    (out_readable0 w) (out_fs0 w) (fdisk_l w) (file_s w) (qemu_available 
    w) (qemu_img_info w) (qemu_convert w) (cp_ok w) (tmp_writable w) 
    (mkdir_out w) (iterdir_out w) (copy2_ok w) (confirm w) (out_dir w) 
    (resolve w) (fresh_uuid w) (encode_text w) (py_int w) (py_lower w).

Definition set_out_exists0 (x : bool) (w : world) : world :=
  World (cmdline w) (in_exists w) (in_is_dir w) (in_is_file w) (in_readable w) 
    (in_files w) (stat_error w) (open_error w) x (out_is_file0 w) 
    (out_readable0 w) (out_fs0 w) (fdisk_l w) (file_s w) (qemu_available 
    w) (qemu_img_info w) (qemu_convert w) (cp_ok w) (tmp_writable w) 
    (mkdir_out w) (iterdir_out w) (copy2_ok w) (confirm w) (out_dir w) 
    (resolve w) (fresh_uuid w) (encode_text w) (py_int w) (py_lower w).

Definition set_out_fs0 (x : gmap pystr (list byte)) (w : world) : world :=
  World (cmdline w) (in_exists w) (in_is_dir w) (in_is_file w) (in_readable w) 
    (in_files w) (stat_error w) (open_error w) (out_exists0 w) 
    (out_is_file0 w) (out_readable0 w) x (fdisk_l w) (file_s w) 
    (qemu_available w) (qemu_img_info w) (qemu_convert w) (cp_ok w) 
    (tmp_writable w) (mkdir_out w) (iterdir_out w) (copy2_ok w) (confirm 
    w) (out_dir w) (resolve w) (fresh_uuid w) (encode_text w) (py_int w) 
    (py_lower w).


Definition set_tmp_writable (x : bool) (w : world) : world :=
  World (cmdline w) (in_exists w) (in_is_dir w) (in_is_file w) (in_readable w) 
    (in_files w) (stat_error w) (open_error w) (out_exists0 w) 
    (out_is_file0 w) (out_readable0 w) (out_fs0 w) (fdisk_l w) (file_s w) 
    (qemu_available w) (qemu_img_info w) (qemu_convert w) (cp_ok w) x 
    (mkdir_out w) (iterdir_out w) (copy2_ok w) (confirm w) (out_dir w) 
    (resolve w) (fresh_uuid w) (encode_text w) (py_int w) (py_lower w).

Definition set_mkdir_out (x : mkdir_result) (w : world) : world :=
  World (cmdline w) (in_exists w) (in_is_dir w) (in_is_file w) (in_readable w) 
    (in_files w) (stat_error w) (open_error w) (out_exists0 w) 
    (out_is_file0 w) (out_readable0 w) (out_fs0 w) (fdisk_l w) (file_s w) 
    (qemu_available w) (qemu_img_info w) (qemu_convert w) (cp_ok w) 
    (tmp_writable w) x (iterdir_out w) (copy2_ok w) (confirm w) (out_dir 
    w) (resolve w) (fresh_uuid w) (encode_text w) (py_int w) (py_lower w).

Definition set_iterdir_out (x : option os_error) (w : world) : world :=
  World (cmdline w) (in_exists w) (in_is_dir w) (in_is_file w) (in_readable w) 
    (in_files w) (stat_error w) (open_error w) (out_exists0 w) 
    (out_is_file0 w) (out_readable0 w) (out_fs0 w) (fdisk_l w) (file_s w) 
    (qemu_available w) (qemu_img_info w) (qemu_convert w) (cp_ok w) 
    (tmp_writable w) (mkdir_out w) x (copy2_ok w) (confirm w) (out_dir w) 
    (resolve w) (fresh_uuid w) (encode_text w) (py_int w) (py_lower w).


Definition set_confirm (x : bool) (w : world) : world :=
  World (cmdline w) (in_exists w) (in_is_dir w) (in_is_file w) (in_readable w) 
    (in_files w) (stat_error w) (open_error w) (out_exists0 w) 
    (out_is_file0 w) (out_readable0 w) (out_fs0 w) (fdisk_l w) (file_s w) 
    (qemu_available w) (qemu_img_info w) (qemu_convert w) (cp_ok w) 
    (tmp_writable w) (mkdir_out w) (iterdir_out w) (copy2_ok w) x (out_dir 
    w) (resolve w) (fresh_uuid w) (encode_text w) (py_int w) (py_lower w).



(** A dangling link among the disks: [stat()] fails on it and it cannot
    be read. *)
Definition gone : entry := Entry (lit "gone.vmdk") None 0.

Definition stat_gone (e : entry) : option os_error :=
  if bool_decide (ename e = lit "gone.vmdk") then Some ENOENT else None.

Definition w_dangling : world :=
  set_stat_error stat_gone
    (Sample.mk_world [Sample.vmx; Sample.flat; gone] Sample.fd_ok
       Sample.fl_dos Sample.info_vmdk Sample.conv_any).


(** The same, with a [cp] that works and a script that cannot be
    written. *)
Definition w_tmp_read_only : world :=
  set_tmp_writable false Sample.w_unbootable_result.

(** The configuration file is a directory. *)
Definition vmx_directory : entry := Entry (lit "vm.vmx") None 4096.

Definition w_vmx_directory : world :=
  set_open_error (fun _ => EISDIR)
    (Sample.mk_world [vmx_directory; Sample.flat] Sample.fd_ok Sample.fl_dos
       Sample.info_vmdk Sample.conv_any).

(** INPUT_DIR does not exist; INPUT_DIR is a regular file; OUTPUT_DIR is
    not given; [--help]. *)
Definition w_missing_input : world := set_in_exists false Sample.w_flat.
Definition w_input_is_file : world := set_in_is_file true Sample.w_flat.
Definition w_no_output : world :=
  set_cmdline (Cl_arguments true false) Sample.w_flat.
Definition w_help : world := set_cmdline Cl_help Sample.w_flat.

(** The output directory cannot be created: its parent is a file. *)
Definition w_mkdir_fails : world :=
  set_mkdir_out (MkdirFails ENOTDIR) Sample.w_flat.

Definition info_failed (_ : entry) : info_result := InfoFailed.

Definition w_info_fails : world :=
  Sample.mk_world [Sample.vmx; Sample.flat] Sample.fd_ok Sample.fl_dos
    info_failed Sample.conv_any.

End Sample2.

Section Strings.

Lemma startswith_app p s : startswith p (p ++ s) = true.
Proof.
  induction p as [|a p IH]; simpl; [done|].
  by rewrite N.eqb_refl, IH.
Qed.

Lemma py_in_startswith n h : startswith n h = true -> py_in n h = true.
Proof. intros H. destruct h; simpl; by rewrite H. Qed.

Lemma py_in_app n pre post : py_in n (pre ++ n ++ post) = true.
Proof.
  induction pre as [|c pre IH]; simpl.
  - apply py_in_startswith, startswith_app.
  - rewrite IH. apply orb_true_r.
Qed.

Lemma startswith_inv p s : startswith p s = true -> exists t, s = p ++ t.
Proof.
  revert s. induction p as [|a p IH]; intros s H; simpl in *.
  - by exists s.
  - destruct s as [|b s]; [done|].
    apply andb_true_iff in H as [H1 H2]. apply N.eqb_eq in H1 as ->.
    destruct (IH _ H2) as [t ->]. by exists t.
Qed.

Lemma py_in_inv n h :
  py_in n h = true -> exists pre post, h = pre ++ n ++ post.
Proof.
  induction h as [|c h IH]; simpl; intros H.
  - rewrite orb_false_r in H. apply startswith_inv in H as [t ->].
    by exists [], t.
  - apply orb_true_iff in H as [H|H].
    + apply startswith_inv in H as [t ->]. by exists [], t.
    + destruct (IH H) as (pre & post & ->). by exists (c :: pre), post.
Qed.

Lemma utf8_run_app st a b :
  utf8_run st (a ++ b) =
  let '(c1, e1, s1) := utf8_run st a in
  let '(c2, e2, s2) := utf8_run s1 b in
  (c1 ++ c2, e1 || e2, s2).
Proof.
  revert st. induction a as [|x a IH]; intros st; simpl.
  - by destruct (utf8_run st b) as [[? ?] ?].
  - destruct (utf8_step st (Byte.to_N x)) as [[st1 out] e].
    rewrite IH. destruct (utf8_run st1 a) as [[c1 e1] s1].
    destruct (utf8_run s1 b) as [[c2 e2] s2].
    by rewrite app_assoc, orb_assoc.
Qed.

Lemma utf8_start_wf b : wf_dstate (utf8_start b).1.1.
Proof.
  unfold utf8_start.
  repeat (match goal with |- context [if ?c then _ else _] => destruct c end);
    simpl; lia.
Qed.

Lemma utf8_step_wf st b : wf_dstate (utf8_step st b).1.1.
Proof.
  destruct st as [|n acc lo hi]; simpl; [apply utf8_start_wf|].
  destruct (_ && _).
  - destruct n as [|[|n]]; simpl; lia.
  - pose proof (utf8_start_wf b).
    by destruct (utf8_start b) as [[? ?] ?].
Qed.

Lemma utf8_step_ascii st b :
  wf_dstate st -> b < 128 -> exists e, utf8_step st b = (Idle, [b], e).
Proof.
  intros Hwf Hb.
  assert (Hs : utf8_start b = (Idle, [b], false)).
  { unfold utf8_start. by destruct (N.ltb_spec b 0x80); [|lia]. }
  destruct st as [|n acc lo hi]; simpl in *; [by eexists|].
  destruct (N.leb_spec lo b); [lia|]. simpl. rewrite Hs. by eexists.
Qed.

Lemma utf8_run_ascii st tok :
  wf_dstate st -> ascii_bytes tok ->
  (utf8_run st tok).1.1 = map (fun b => Byte.to_N b) tok.
Proof.
  intros Hwf Hascii. revert st Hwf.
  induction Hascii as [|x tok Hx _ IH]; intros st Hwf; simpl; [done|].
  destruct (utf8_step_ascii st _ Hwf Hx) as [e ->].
  specialize (IH Idle I).
  destruct (utf8_run Idle tok) as [[rest e'] st2]. simpl in *. by rewrite IH.
Qed.

Lemma utf8_run_wf st bs : wf_dstate st -> wf_dstate (utf8_run st bs).2.
Proof.
  revert st. induction bs as [|x bs IH]; intros st Hwf; simpl; [done|].
  pose proof (utf8_step_wf st (Byte.to_N x)) as H1.
  destruct (utf8_step st (Byte.to_N x)) as [[st1 out] e].
  specialize (IH st1 H1).
  by destruct (utf8_run st1 bs) as [[rest e'] st2].
Qed.

(** Lenient decoding keeps every run of ASCII bytes. *)
Lemma decode_ignore_keeps_ascii tok hay :
  ascii_bytes tok -> contains_bytes tok hay ->
  py_in (map (fun b => Byte.to_N b) tok) (decode_ignore hay) = true.
Proof.
  intros Hascii (pre & post & ->). unfold decode_ignore.
  rewrite utf8_run_app.
  pose proof (utf8_run_wf Idle pre I) as Hwf.
  destruct (utf8_run Idle pre) as [[c1 e1] s1]. simpl in Hwf.
  rewrite utf8_run_app.
  pose proof (utf8_run_ascii s1 tok Hwf Hascii) as Htok.
  destruct (utf8_run s1 tok) as [[c2 e2] s2]. simpl in Htok. subst c2.
  destruct (utf8_run s2 post) as [[c3 e3] s3]. simpl.
  apply py_in_app.
Qed.

Lemma contains_bytes_take tok n hay :
  contains_bytes tok (take n hay) -> contains_bytes tok hay.
Proof.
  intros (pre & post & H). exists pre, (post ++ drop n hay).
  rewrite <- (take_drop n hay) at 1. rewrite H. by rewrite <- !app_assoc.
Qed.

Lemma universal_newlines_tok tok r :
  no_newline tok ->
  universal_newlines (tok ++ r) = tok ++ universal_newlines r.
Proof.
  induction 1 as [|c tok [Hc _] _ IH]; [done|].
  simpl. destruct (N.eqb_spec c 13); [done|]. by rewrite IH.
Qed.

Lemma universal_newlines_cons c t :
  universal_newlines (c :: t) =
  if c =? 13 then
    10 :: match t with
          | [] => []
          | d :: t' => if d =? 10 then universal_newlines t'
                       else universal_newlines t
          end
  else c :: universal_newlines t.
Proof. reflexivity. Qed.

Lemma universal_newlines_app n pre r :
  (length pre <= n)%nat ->
  match r with [] => True | d :: _ => d <> 10 end ->
  universal_newlines (pre ++ r) = universal_newlines pre ++ universal_newlines r.
Proof.
  revert pre. induction n as [|n IH]; intros pre Hlen Hr.
  - destruct pre; [reflexivity|simpl in Hlen; lia].
  - destruct pre as [|c pre]; [reflexivity|]. simpl in Hlen.
    change ((c :: pre) ++ r) with (c :: (pre ++ r)).
    rewrite (universal_newlines_cons c (pre ++ r)),
            (universal_newlines_cons c pre).
    destruct (c =? 13).
    + destruct pre as [|d pre].
      * change ([] ++ r) with r. destruct r as [|d r]; [reflexivity|].
        destruct (N.eqb_spec d 10); [contradiction|reflexivity].
      * change ((d :: pre) ++ r) with (d :: (pre ++ r)). cbv beta iota.
        simpl in Hlen. destruct (d =? 10).
        -- rewrite IH by (done || lia). reflexivity.
        -- change (d :: (pre ++ r)) with ((d :: pre) ++ r).
           rewrite IH by (done || (simpl; lia)). reflexivity.
    + rewrite IH by (done || lia). reflexivity.
Qed.

(** Newline translation keeps every substring free of CR and LF. *)
Lemma universal_newlines_keeps tok s :
  no_newline tok -> py_in tok s = true ->
  py_in tok (universal_newlines s) = true.
Proof.
  intros Htok Hin. destruct tok as [|c tok].
  { destruct (universal_newlines s); done. }
  apply py_in_inv in Hin as (pre & post & ->).
  rewrite (universal_newlines_app (length pre)); [|done|].
  - rewrite universal_newlines_tok by done. apply py_in_app.
  - simpl. by inversion Htok as [|? ? [_ ?]].
Qed.

End Strings.

(** ** The monad *)

Section Monad.
Context {A B : Type}.
Implicit Types (m : M A) (k : A -> M B).

Lemma bind_ok m k s a s1 : m s = (Ok a, s1) -> bind m k s = k a s1.
Proof. intros H. unfold bind. by rewrite H. Qed.

Lemma bind_raise m k s e s1 :
  m s = (Raise e, s1) -> bind m k s = (Raise e, s1).
Proof. intros H. unfold bind. by rewrite H. Qed.

Lemma bind_inv_ok m k s b s' :
  bind m k s = (Ok b, s') ->
  exists a s1, m s = (Ok a, s1) /\ k a s1 = (Ok b, s').
Proof.
  unfold bind. destruct (m s) as [[a|e] s1]; intros H; [|done].
  exists a, s1. split; [reflexivity|exact H].
Qed.

Lemma bind_inv_raise m k s e s' :
  bind m k s = (Raise e, s') ->
  m s = (Raise e, s') \/ exists a s1, m s = (Ok a, s1) /\ k a s1 = (Raise e, s').
Proof.
  unfold bind. destruct (m s) as [[a|e1] s1]; intros H.
  - right. exists a, s1. split; [reflexivity|exact H].
  - left. by inversion H.
Qed.

End Monad.

Lemma with_log_nil s : with_log [] s = s.
Proof. destruct s. unfold with_log. simpl. by rewrite app_nil_r. Qed.

Lemma with_log_app l1 l2 s : with_log l2 (with_log l1 s) = with_log (l1 ++ l2) s.
Proof. unfold with_log. simpl. by rewrite app_assoc. Qed.

Lemma echo_with_log m s : echo m s = (Ok tt, with_log [m] s).
Proof. reflexivity. Qed.

Lemma only_trace_refl s : only_trace s s.
Proof. by repeat split. Qed.

Lemma only_trace_trans s1 s2 s3 :
  only_trace s1 s2 -> only_trace s2 s3 -> only_trace s1 s3.
Proof.
  unfold only_trace. intros (?&?&?&?&?) (?&?&?&?&?).
  repeat split; congruence.
Qed.

Lemma trace_grew_refl p s : trace_grew p s s.
Proof. exists []. by rewrite app_nil_r. Qed.

Lemma trace_grew_trans p s1 s2 s3 :
  trace_grew p s1 s2 -> trace_grew p s2 s3 -> trace_grew p s1 s3.
Proof.
  intros (x & H1 & Hx) (y & H2 & Hy). exists (x ++ y).
  rewrite H2, H1, app_assoc, forallb_app, Hx, Hy. done.
Qed.

Lemma trace_grew_weaken (p q : cmd -> bool) s s' :
  (forall c, p c = true -> q c = true) ->
  trace_grew p s s' -> trace_grew q s s'.
Proof.
  intros Hpq (x & H & Hx). exists x. split; [done|].
  apply forallb_forall. intros c Hc. apply Hpq.
  by eapply forallb_forall in Hx.
Qed.

(** ** Discovery and selection *)

Lemma classify_fold l d f :
  fold_left classify_step l (d, f) =
  (d ++ List.filter is_descriptor l,
   f ++ List.filter (fun e => negb (is_descriptor e)) l).
Proof.
  revert d f. induction l as [|e l IH]; intros d f; simpl.
  - by rewrite !app_nil_r.
  - unfold classify_step at 2. destruct (is_descriptor e); simpl;
      rewrite IH, <- ?app_assoc; done.
Qed.

Lemma descriptor_files_filter w :
  descriptor_files w = List.filter is_descriptor (vmdk_files w).
Proof. unfold descriptor_files. by rewrite classify_fold. Qed.

Lemma data_files_filter w :
  data_files w = List.filter (fun e => negb (is_descriptor e)) (vmdk_files w).
Proof. unfold data_files. by rewrite classify_fold. Qed.

Lemma identify_disk_structure_spec w s :
  identify_disk_structure w s =
  match vmdk_files w with
  | [] => (Raise (FileNotFoundError No_vmdk_found), s)
  | _ :: _ => (Ok (descriptor_files w, data_files w), s)
  end.
Proof.
  unfold identify_disk_structure, descriptor_files, data_files, vmdk_files.
  destruct (glob_ext _ _) as [|e l]; [done|].
  unfold ret. by destruct (fold_left _ _ _).
Qed.

Lemma select_descriptors_spec descs targets s :
  select_descriptors descs targets s =
  (Ok (targets ++ List.filter is_selected descs),
   with_log (map select_msg descs) s).
Proof.
  revert targets s. induction descs as [|d descs IH]; intros targets s.
  - simpl. unfold ret. by rewrite app_nil_r, with_log_nil.
  - simpl. unfold is_selected, select_msg.
    destruct (edata d) as [b|].
    + destruct (negb _); unfold bind; rewrite echo_with_log, IH, with_log_app;
        simpl; by rewrite <- ?app_assoc.
    + unfold bind. by rewrite echo_with_log, IH, with_log_app.
Qed.

(** What [get_disk_conversion_targets] returns, by cases on the two
    lists. *)
Lemma get_targets_spec w s :
  get_disk_conversion_targets w s =
  match vmdk_files w with
  | [] => (Raise (FileNotFoundError No_vmdk_found), s)
  | _ :: _ =>
      match descriptor_files w with
      | [] => (Ok (data_files w),
               with_log [E_monolithic (length (data_files w))] s)
      | _ :: _ =>
          (match List.filter is_selected (descriptor_files w) with
           | [] => Raise (FileNotFoundError No_valid_vmdk)
           | t => Ok t
           end,
           with_log (map select_msg (descriptor_files w)) s)
      end
  end.
Proof.
  unfold get_disk_conversion_targets, bind.
  rewrite identify_disk_structure_spec.
  destruct (vmdk_files w) as [|v vs] eqn:Hv; [done|].
  destruct (descriptor_files w) as [|d ds] eqn:Hd.
  - rewrite echo_with_log. unfold ret.
    destruct (data_files w) as [|x xs] eqn:Hf; [|done].
    exfalso. rewrite descriptor_files_filter in Hd.
    rewrite data_files_filter in Hf. rewrite Hv in Hd, Hf.
    cbn [List.filter] in Hd, Hf.
    destruct (is_descriptor v); simpl in *; discriminate.
  - rewrite select_descriptors_spec. cbn [app].
    by destruct (List.filter is_selected (d :: ds)).
Qed.

(** ** Pre-conversion validation *)

Lemma trace_grew_one (p : cmd -> bool) s c :
  p c = true ->
  trace_grew p s (State (vm_name s) (disk_files s) (out_exists s) (out_fs s)
                        (tmp_script s) (cmds s ++ [c]) (log s)).
Proof. intros H. exists [c]. simpl. by rewrite H. Qed.

Lemma trace_grew_log p s s' l :
  trace_grew p s s' -> trace_grew p s (with_log l s').
Proof. intros (x & H & Hx). by exists x. Qed.

Lemma only_trace_log s s' l : only_trace s s' -> only_trace s (with_log l s').
Proof. intros (?&?&?&?&?). by repeat split. Qed.

Lemma trace_grew_cmds p s s' extra :
  cmds s' = cmds s ++ extra -> forallb p extra = true -> trace_grew p s s'.
Proof. intros H Hp. by exists extra. Qed.

Lemma check_partition_table_spec w a vmdk s :
  exists a' s',
    check_partition_table w a vmdk s = (Ok a', s') /\
    validation_errors a' =
      validation_errors a ++ (if unexcused w vmdk then [ename vmdk] else []) /\
    only_trace s s' /\
    cmds s' = cmds s ++ [Fdisk_l (InDir (ename vmdk))].
Proof.
  unfold check_partition_table, unexcused, bind, echo, run_cmd, ret. simpl.
  destruct (fdisk_l w _ _) as [|stdout]; simpl.
  - eexists _, _. split; [reflexivity|]. rewrite app_nil_r.
    by repeat split.
  - destruct (has_partition_table stdout); simpl.
    + eexists _, _. split; [reflexivity|]. rewrite app_nil_r.
      by repeat split.
    + destruct (looks_like_descriptor vmdk); simpl.
      * eexists _, _. split; [reflexivity|]. rewrite app_nil_r.
        by repeat split.
      * eexists _, _. split; [reflexivity|]. by repeat split.
Qed.

Lemma partition_loop_spec w l a s :
  exists a' s',
    for_each (check_partition_table w) l a s = (Ok a', s') /\
    validation_errors a' =
      validation_errors a ++ map ename (List.filter (unexcused w) l) /\
    only_trace s s' /\
    cmds s' = cmds s ++ map (fun e => Fdisk_l (InDir (ename e))) l.
Proof.
  revert a s. induction l as [|vmdk l IH]; intros a s.
  - exists a, s. simpl. rewrite !app_nil_r. by repeat split.
  - destruct (check_partition_table_spec w a vmdk s)
      as (a1 & s1 & H1 & He1 & Ho1 & Hc1).
    destruct (IH a1 s1) as (a2 & s2 & H2 & He2 & Ho2 & Hc2).
    exists a2, s2. simpl. rewrite (bind_ok _ _ _ _ _ H1), H2.
    split; [done|]. split.
    + rewrite He2, He1, <- app_assoc. f_equal.
      by destruct (unexcused w vmdk).
    + split; [by eapply only_trace_trans|].
      by rewrite Hc2, Hc1, <- app_assoc.
Qed.

(** One step of the second loop: the error of [stat()] ends it; otherwise
    a disk of at least 1024 bytes is sniffed and no error is recorded. *)
Lemma check_boot_signature_spec w a vmdk s :
  match stat_error w vmdk with
  | Some k => check_boot_signature w a vmdk s = (Raise (os_exn k), s)
  | None =>
      exists a' s',
        check_boot_signature w a vmdk s = (Ok a', s') /\
        validation_errors a' = validation_errors a /\
        only_trace s s' /\
        cmds s' = cmds s ++ (if esize vmdk <? 1024 then []
                             else [File_s (InDir (ename vmdk))])
  end.
Proof.
  unfold check_boot_signature, stat, bind at 1.
  destruct (stat_error w vmdk) as [k|]; [reflexivity|].
  unfold ret at 1. unfold bind, echo, run_cmd, ret.
  destruct (esize vmdk <? 1024).
  { exists a, s. rewrite app_nil_r. by repeat split. }
  simpl. destruct (file_s w _ _) as [|stdout]; simpl.
  - eexists _, _. split; [reflexivity|]. by repeat split.
  - destruct (_ || _); simpl.
    + eexists _, _. split; [reflexivity|]. by repeat split.
    + destruct (_ !! _) as [kind|]; [destruct (bool_decide _)|];
        (eexists _, _; split; [reflexivity|]; by repeat split).
Qed.

Lemma signature_loop_spec w l a s :
  exists r s',
    for_each (check_boot_signature w) l a s = (r, s') /\
    only_trace s s' /\
    cmds s' = cmds s ++
      map (fun e => File_s (InDir (ename e)))
          (List.filter (fun e => negb (esize e <? 1024))
             (before_stat_error w l)) /\
    match first_stat_error w l with
    | Some k => r = Raise (os_exn k)
    | None => exists a', r = Ok a' /\ validation_errors a' = validation_errors a
    end.
Proof.
  revert a s. induction l as [|vmdk l IH]; intros a s.
  - exists (Ok a), s. simpl. rewrite app_nil_r. repeat split; by eauto.
  - pose proof (check_boot_signature_spec w a vmdk s) as H1.
    cbn [for_each first_stat_error before_stat_error].
    destruct (stat_error w vmdk) as [k|].
    + exists (Raise (os_exn k)), s. rewrite (bind_raise _ _ _ _ _ H1).
      simpl. rewrite app_nil_r. by repeat split.
    + destruct H1 as (a1 & s1 & H1 & He1 & Ho1 & Hc1).
      destruct (IH a1 s1) as (r & s2 & H2 & Ho2 & Hc2 & Hr).
      exists r, s2. rewrite (bind_ok _ _ _ _ _ H1), H2.
      split; [done|]. split; [by eapply only_trace_trans|]. split.
      * rewrite Hc2, Hc1, <- app_assoc. cbn [List.filter].
        by destruct (esize vmdk <? 1024).
      * destruct (first_stat_error w l); [done|].
        destruct Hr as (a' & -> & He). exists a'. split; [done|]. congruence.
Qed.

Lemma validate_scan_spec w s :
  exists r s',
    validate_scan w s = (r, s') /\
    only_trace s s' /\
    cmds s' = cmds s ++ validation_trace w /\
    match first_stat_error w (vmdk_files w) with
    | Some k => r = Raise (os_exn k)
    | None =>
        exists a, r = Ok a /\
          validation_errors a
            = map ename (List.filter (unexcused w) (vmdk_files w))
    end.
Proof.
  unfold validate_scan. fold (vmdk_files w).
  destruct (partition_loop_spec w (vmdk_files w)
              (VAcc [] (state_warnings w) 0) s)
    as (a1 & s1 & H1 & He1 & Ho1 & Hc1).
  destruct (signature_loop_spec w (vmdk_files w) a1 s1)
    as (r & s2 & H2 & Ho2 & Hc2 & Hr).
  exists r, s2. rewrite (bind_ok _ _ _ _ _ H1), H2.
  split; [done|]. split; [by eapply only_trace_trans|]. split.
  - rewrite Hc2, Hc1. unfold validation_trace. by rewrite <- app_assoc.
  - destruct (first_stat_error w (vmdk_files w)); [done|].
    destruct Hr as (a' & -> & He). exists a'. split; [done|].
    by rewrite He, He1.
Qed.

Lemma validation_trace_probes w : forallb is_probe (validation_trace w) = true.
Proof.
  unfold validation_trace. rewrite forallb_app. apply andb_true_iff.
  split; apply forallb_forall; intros c [e [<- _]]%in_map_iff; done.
Qed.

(** [validate_vmware_vm] raises the error of the first [stat()] that
    fails; when none fails it returns, and returns [False] exactly when the
    first loop recorded an error.  Either way it runs its probes and
    changes nothing but the trace and the log. *)
Lemma validate_vmware_vm_total w s :
  exists s',
    validate_vmware_vm w s =
      (match first_stat_error w (vmdk_files w) with
       | Some k => Raise (os_exn k)
       | None => Ok (forallb (fun e => negb (unexcused w e)) (vmdk_files w))
       end, s') /\
    only_trace s s' /\ cmds s' = cmds s ++ validation_trace w.
Proof.
  unfold validate_vmware_vm.
  destruct (validate_scan_spec w (with_log [E_validating] s))
    as (r & s1 & H1 & Ho & Hc & Hr).
  unfold bind at 1. rewrite echo_with_log.
  assert (Ho' : only_trace s s1).
  { eapply only_trace_trans; [|exact Ho]. by apply only_trace_log. }
  cbn [cmds with_log] in Hc.
  destruct (first_stat_error w (vmdk_files w)) as [k|].
  { subst r. rewrite (bind_raise _ _ _ _ _ H1). by exists s1. }
  destruct Hr as (a & -> & He).
  rewrite (bind_ok _ _ _ _ _ H1).
  assert (Hb : forallb (fun e => negb (unexcused w e)) (vmdk_files w) =
               match validation_errors a with [] => true | _ => false end).
  { rewrite He. clear. induction (vmdk_files w) as [|e l IH]; [done|].
    simpl. destruct (unexcused w e); simpl; [done|]. exact IH. }
  rewrite Hb.
  unfold bind, ret.
  destruct (warnings a) as [|x ws]; [|rewrite echo_with_log];
    (destruct (validation_errors a) as [|err errs];
     [destruct (_ && _); rewrite ?echo_with_log|rewrite ?echo_with_log]);
    eexists; (split; [reflexivity|]);
    (split; [repeat apply only_trace_log|]); done.
Qed.

Lemma validate_vmware_vm_spec w s :
  first_stat_error w (vmdk_files w) = None ->
  exists s',
    validate_vmware_vm w s =
      (Ok (forallb (fun e => negb (unexcused w e)) (vmdk_files w)), s') /\
    only_trace s s' /\ trace_grew is_probe s s'.
Proof.
  intros Hst. destruct (validate_vmware_vm_total w s) as (s' & H & Ho & Hc).
  rewrite Hst in H. exists s'. split; [done|]. split; [done|].
  eapply trace_grew_cmds; [exact Hc|apply validation_trace_probes].
Qed.

(** Whatever it returns or raises, validation only probes. *)
Lemma validate_vmware_vm_frame w s :
  only_trace s (snd (validate_vmware_vm w s)) /\
  trace_grew is_probe s (snd (validate_vmware_vm w s)).
Proof.
  destruct (validate_vmware_vm_total w s) as (s' & -> & Ho & Hc).
  split; [done|].
  eapply trace_grew_cmds; [exact Hc|apply validation_trace_probes].
Qed.

Lemma first_stat_error_none w l :
  first_stat_error w l = None <-> Forall (fun e => stat_error w e = None) l.
Proof.
  induction l as [|e l IH]; simpl; [by split; [constructor|]|].
  destruct (stat_error w e) eqn:He.
  - split; [done|]. intros H. inversion H; congruence.
  - rewrite IH. split; [by constructor|]. intros H. by inversion H.
Qed.

(** ** Verification of a converted image *)

Lemma backup_name_fresh (name : pystr) : name ++ lit ".backup" <> name.
Proof.
  intros H. apply (f_equal length) in H. rewrite length_app in H.
  simpl in H. lia.
Qed.

Lemma attempt_boot_sector_fix_spec w name s :
  exists s',
    attempt_boot_sector_fix w name s = (Ok false, s') /\
    backup_frame name s s' /\ trace_grew reads_or_copies s s'.
Proof.
  unfold attempt_boot_sector_fix, bind, echo, run_cmd, get, ret, write_out,
    write_tmp_script, backup_frame, trace_grew.
  simpl. destruct (file_s w _ _) as [|stdout]; simpl.
  { eexists. split; [reflexivity|]. simpl.
    split; [by auto|]. by exists [File_s (OutDir name)]. }
  destruct (_ || _); simpl.
  2:{ eexists. split; [reflexivity|]. simpl.
      split; [by auto|]. by exists [File_s (OutDir name)]. }
  destruct (out_fs s !! name) as [image|] eqn:Himg; simpl.
  2:{ eexists. split; [reflexivity|]. simpl. split; [by auto|].
      eexists [_; _]. by rewrite <- app_assoc. }
  destruct (cp_ok w name); simpl.
  2:{ eexists. split; [reflexivity|]. simpl. split; [by auto|].
      eexists [_; _]. by rewrite <- app_assoc. }
  destruct (tmp_writable w); simpl.
  - eexists. split; [reflexivity|]. simpl. split.
    + repeat split. right. by exists image.
    + eexists [_; _]. by rewrite <- app_assoc.
  - eexists. split; [reflexivity|]. simpl. split.
    + repeat split. right. by exists image.
    + eexists [_; _]. by rewrite <- app_assoc.
Qed.

(** [verify_converted_disk] always returns. *)
Lemma verify_converted_disk_spec w name s :
  exists b s',
    verify_converted_disk w name s = (Ok b, s') /\
    backup_frame name s s' /\ trace_grew reads_or_copies s s'.
Proof.
  unfold verify_converted_disk.
  unfold bind at 1. unfold run_cmd at 1. unfold bind at 1. unfold get at 1.
  cbn [out_fs].
  destruct (fdisk_l w _ _) as [|stdout].
  { unfold bind, echo, ret. simpl. eexists _, _. split; [reflexivity|].
    split; [by repeat split; auto|]. by exists [Fdisk_l (OutDir name)]. }
  destruct (has_partition_table stdout).
  { unfold bind, echo, ret. simpl. eexists _, _. split; [reflexivity|].
    split; [by repeat split; auto|]. by exists [Fdisk_l (OutDir name)]. }
  unfold bind at 1. rewrite echo_with_log.
  match goal with |- context [attempt_boot_sector_fix w name ?s0] =>
    destruct (attempt_boot_sector_fix_spec w name s0) as (s' & H & Hf & Ht)
  end.
  exists false, s'. split; [exact H|]. split.
  - destruct Hf as (?&?&?&Hfs). repeat split; try done.
  - eapply trace_grew_trans; [|exact Ht].
    apply trace_grew_log. by exists [Fdisk_l (OutDir name)].
Qed.

Lemma backup_frame_lookup name s s' :
  backup_frame name s s' -> out_fs s' !! name = out_fs s !! name.
Proof.
  intros (_ & _ & _ & [->|(image & _ & ->)]); [done|].
  apply lookup_insert_ne, backup_name_fresh.
Qed.

Lemma conversion_attempts_app a b :
  conversion_attempts (a ++ b) = conversion_attempts a ++ conversion_attempts b.
Proof. apply omap_app. Qed.

Lemma conversion_attempts_grew s s' :
  trace_grew reads_or_copies s s' ->
  conversion_attempts (cmds s') = conversion_attempts (cmds s).
Proof.
  intros (x & -> & Hx). rewrite conversion_attempts_app.
  assert (conversion_attempts x = []) as ->; [|by rewrite app_nil_r].
  clear s s'. induction x as [|c x IH]; [done|]. simpl in Hx.
  apply andb_true_iff in Hx as [Hc Hx].
  destruct c; try discriminate Hc; exact (IH Hx).
Qed.

(** ** Snapshot descriptors *)

Lemma parent_hint_ascii : ascii_bytes (blit "parentFileNameHint").
Proof.
  unfold ascii_bytes.
  let l := eval vm_compute in (blit "parentFileNameHint") in
  change (blit "parentFileNameHint") with l.
  repeat (constructor; [reflexivity|]). constructor.
Qed.

Lemma parent_hint_no_newline : no_newline PARENT_HINT.
Proof.
  unfold no_newline.
  let l := eval vm_compute in PARENT_HINT in change PARENT_HINT with l.
  repeat (constructor; [by split|]). constructor.
Qed.

(** A parent hint among the bytes of a file shows in the text the selector
    reads. *)
Lemma parent_hint_in_text b :
  contains_bytes (blit "parentFileNameHint") b ->
  py_in PARENT_HINT (read_text_ignore b) = true.
Proof.
  intros H. unfold read_text_ignore.
  apply universal_newlines_keeps; [apply parent_hint_no_newline|].
  exact (decode_ignore_keeps_ascii _ _ parent_hint_ascii H).
Qed.

Lemma parent_hint_in_header b :
  contains_bytes (blit "parentFileNameHint") (take 512 b) ->
  py_in PARENT_HINT (decode_ignore (take 512 b)) = true.
Proof. exact (decode_ignore_keeps_ascii _ _ parent_hint_ascii). Qed.

(** A descriptor whose text has a parent hint is reported as a snapshot and
    is not among the targets. *)
Lemma snapshot_excluded w vmdk b s :
  In vmdk (vmdk_files w) ->
  edata vmdk = Some b ->
  is_descriptor vmdk = true ->
  py_in PARENT_HINT (read_text_ignore b) = true ->
  In vmdk (descriptor_files w) /\
  ~ In vmdk (data_files w) /\
  select_msg vmdk = E_skipping_snapshot (ename vmdk) /\
  In (E_skipping_snapshot (ename vmdk))
     (log (snd (get_disk_conversion_targets w s))) /\
  match fst (get_disk_conversion_targets w s) with
  | Ok targets => ~ In vmdk targets
  | Raise _ => True
  end.
Proof.
  intros Hin Hdata Hdesc Htext.
  assert (Hd : In vmdk (descriptor_files w)).
  { rewrite descriptor_files_filter. by apply filter_In. }
  assert (Hmsg : select_msg vmdk = E_skipping_snapshot (ename vmdk)).
  { unfold select_msg. by rewrite Hdata, Htext. }
  assert (Hsel : is_selected vmdk = false).
  { unfold is_selected. by rewrite Hdata, Htext. }
  split; [done|]. split.
  { rewrite data_files_filter. intros [_ H]%filter_In.
    by rewrite Hdesc in H. }
  split; [done|].
  rewrite get_targets_spec.
  destruct (vmdk_files w) as [|v vs]; [done|].
  destruct (descriptor_files w) as [|d ds] eqn:Hds; [done|].
  cbn [fst snd]. split.
  - unfold with_log. cbn [log]. apply in_or_app. right.
    rewrite <- Hmsg. by apply in_map.
  - destruct (List.filter is_selected (d :: ds)) as [|t ts] eqn:Hf; [done|].
    rewrite <- Hf. intros [_ H]%filter_In. by rewrite Hsel in H.
Qed.

(** ** Claims on discovery and selection *)

(** C1, as stated, fails: with a snapshot descriptor and a flat file in the
    directory there is no non-snapshot descriptor, yet the selector does not
    return the flat files; it raises. *)
Lemma C1_counterexample :
  List.filter is_selected (descriptor_files Sample.w_snapshot_only) = [] /\
  data_files Sample.w_snapshot_only = [Sample.flat] /\
  fst (get_disk_conversion_targets Sample.w_snapshot_only
         (init_state Sample.w_snapshot_only))
    = Raise (FileNotFoundError No_valid_vmdk) /\
  ~ (List.filter is_selected (descriptor_files Sample.w_snapshot_only) = [] ->
     fst (get_disk_conversion_targets Sample.w_snapshot_only
            (init_state Sample.w_snapshot_only))
       = Ok (data_files Sample.w_snapshot_only)).
Proof.
  assert (H1 : List.filter is_selected
                 (descriptor_files Sample.w_snapshot_only) = [])
    by (vm_compute; reflexivity).
  assert (H3 : fst (get_disk_conversion_targets Sample.w_snapshot_only
                      (init_state Sample.w_snapshot_only))
               = Raise (FileNotFoundError No_valid_vmdk))
    by (vm_compute; reflexivity).
  split; [exact H1|]. split; [vm_compute; reflexivity|].
  split; [exact H3|].
  intros H. specialize (H H1). rewrite H3 in H. discriminate H.
Qed.

(** C1 (amended): when no non-snapshot descriptor is selected, the targets
    are all flat files if no file at all was classified as a descriptor;
    if there are descriptors (all of them snapshots) the selector raises
    "No valid VMDK files found for conversion". *)
Theorem C1_selector_fallback (w : world) (s : state) :
  vmdk_files w <> [] ->
  List.filter is_selected (descriptor_files w) = [] ->
  fst (get_disk_conversion_targets w s) =
    match descriptor_files w with
    | [] => Ok (data_files w)
    | _ :: _ => Raise (FileNotFoundError No_valid_vmdk)
    end /\
  (descriptor_files w = [] -> data_files w = vmdk_files w).
Proof.
  intros Hv Hsel. split.
  - rewrite get_targets_spec.
    destruct (vmdk_files w) as [|v vs]; [done|].
    destruct (descriptor_files w) as [|d ds]; [done|].
    by rewrite Hsel.
  - intros Hd. rewrite descriptor_files_filter in Hd.
    rewrite data_files_filter. clear Hv Hsel.
    induction (vmdk_files w) as [|v vs IH]; [done|].
    cbn [List.filter] in *. destruct (is_descriptor v); [done|].
    simpl. f_equal. by apply IH.
Qed.

Lemma C1_selector_fallback_witness :
  fst (get_disk_conversion_targets Sample.w_flat (init_state Sample.w_flat))
    = Ok [Sample.flat] /\
  fst (get_disk_conversion_targets Sample.w_snapshot_only
         (init_state Sample.w_snapshot_only))
    = Raise (FileNotFoundError No_valid_vmdk).
Proof.
  split.
  - apply (C1_selector_fallback Sample.w_flat (init_state Sample.w_flat));
      [vm_compute; discriminate|vm_compute; reflexivity].
  - apply (C1_selector_fallback Sample.w_snapshot_only
             (init_state Sample.w_snapshot_only));
      [vm_compute; discriminate|vm_compute; reflexivity].
Defined.

(** C6: a [.vmdk] file whose first 512 bytes contain [parentFileNameHint]
    is put with the descriptors, is reported by the selector as a snapshot
    descriptor, and is never among the conversion targets. *)
Theorem C6_parent_hint_excluded (w : world) (vmdk : entry) (b : list byte)
    (s : state) :
  In vmdk (vmdk_files w) ->
  edata vmdk = Some b ->
  contains_bytes (blit "parentFileNameHint") (take 512 b) ->
  In vmdk (descriptor_files w) /\
  ~ In vmdk (data_files w) /\
  select_msg vmdk = E_skipping_snapshot (ename vmdk) /\
  In (E_skipping_snapshot (ename vmdk))
     (log (snd (get_disk_conversion_targets w s))) /\
  match fst (get_disk_conversion_targets w s) with
  | Ok targets => ~ In vmdk targets
  | Raise _ => True
  end.
Proof.
  intros Hin Hdata Hhint.
  apply (snapshot_excluded w vmdk b s Hin Hdata).
  - unfold is_descriptor. rewrite Hdata.
    rewrite (parent_hint_in_header b Hhint). apply orb_true_r.
  - apply parent_hint_in_text. by eapply contains_bytes_take.
Qed.

Lemma C6_parent_hint_excluded_witness :
  In Sample.snapshot (descriptor_files Sample.w_snapshot_only) /\
  ~ In Sample.snapshot (data_files Sample.w_snapshot_only) /\
  select_msg Sample.snapshot = E_skipping_snapshot (ename Sample.snapshot) /\
  In (E_skipping_snapshot (ename Sample.snapshot))
     (log (snd (get_disk_conversion_targets Sample.w_snapshot_only
                  (init_state Sample.w_snapshot_only)))) /\
  match fst (get_disk_conversion_targets Sample.w_snapshot_only
               (init_state Sample.w_snapshot_only)) with
  | Ok targets => ~ In Sample.snapshot targets
  | Raise _ => True
  end.
Proof.
  apply (C6_parent_hint_excluded Sample.w_snapshot_only Sample.snapshot
           Sample.snapshot_bytes (init_state Sample.w_snapshot_only)).
  - vm_compute. left. reflexivity.
  - reflexivity.
  - exists (blit "# Disk DescriptorFile" ++ [x0a] ++
            Sample.bq "createType='twoGbMaxExtentSparse'" ++ [x0a]),
           (Sample.bq "='disk.vmdk'" ++ [x0a]).
    vm_compute. reflexivity.
Defined.

(** C9: a file classified as a descriptor on its first 512 bytes (creation
    type present, no parent hint there) is still excluded from the targets
    when the parent hint occurs anywhere in the file: the selector decides
    on the whole text. *)
Theorem C9_late_parent_hint_excluded (w : world) (vmdk : entry)
    (b : list byte) (s : state) :
  In vmdk (vmdk_files w) ->
  edata vmdk = Some b ->
  py_in CREATE_TYPE (decode_ignore (take 512 b)) = true ->
  py_in PARENT_HINT (decode_ignore (take 512 b)) = false ->
  contains_bytes (blit "parentFileNameHint") b ->
  In vmdk (descriptor_files w) /\
  is_selected vmdk = false /\
  select_msg vmdk = E_skipping_snapshot (ename vmdk) /\
  In (E_skipping_snapshot (ename vmdk))
     (log (snd (get_disk_conversion_targets w s))) /\
  match fst (get_disk_conversion_targets w s) with
  | Ok targets => ~ In vmdk targets
  | Raise _ => True
  end.
Proof.
  intros Hin Hdata Hcreate Hnohint Hlate.
  pose proof (parent_hint_in_text b Hlate) as Htext.
  assert (Hdesc : is_descriptor vmdk = true).
  { unfold is_descriptor. by rewrite Hdata, Hcreate. }
  destruct (snapshot_excluded w vmdk b s Hin Hdata Hdesc Htext)
    as (H1 & _ & H3 & H4 & H5).
  repeat split; try done.
  unfold is_selected. by rewrite Hdata, Htext.
Qed.

Lemma C9_late_parent_hint_excluded_witness :
  In Sample.late_snapshot (descriptor_files Sample.w_late_snapshot) /\
  is_selected Sample.late_snapshot = false /\
  select_msg Sample.late_snapshot
    = E_skipping_snapshot (ename Sample.late_snapshot) /\
  In (E_skipping_snapshot (ename Sample.late_snapshot))
     (log (snd (get_disk_conversion_targets Sample.w_late_snapshot
                  (init_state Sample.w_late_snapshot)))) /\
  match fst (get_disk_conversion_targets Sample.w_late_snapshot
               (init_state Sample.w_late_snapshot)) with
  | Ok targets => ~ In Sample.late_snapshot targets
  | Raise _ => True
  end.
Proof.
  apply (C9_late_parent_hint_excluded Sample.w_late_snapshot
           Sample.late_snapshot
           Sample.late_snapshot_bytes (init_state Sample.w_late_snapshot)).
  - vm_compute. left. reflexivity.
  - reflexivity.
  - vm_compute. reflexivity.
  - vm_compute. reflexivity.
  - exists (Sample.bq "createType='twoGbMaxExtentSparse'" ++ [x0a] ++
            repeat x23 600 ++ [x0a]),
           (Sample.bq "='disk.vmdk'" ++ [x0a]).
    vm_compute. reflexivity.
Defined.

(** ** The start of a run *)

(** The state in which [validate_vmware_vm] starts when [validate_input]
    passed on the first [.vmx] file [vmx]. *)
Lemma validate_input_ok w s vmx rest :
  in_exists w = true -> in_is_dir w = true ->
  glob_ext (lit ".vmx") (in_files w) = vmx :: rest ->
  exists s1,
    validate_input w s = (Ok tt, s1) /\
    vm_name s1 = Some (path_stem (ename vmx)) /\
    disk_files s1 = disk_files s /\ out_exists s1 = out_exists s /\
    out_fs s1 = out_fs s /\ tmp_script s1 = tmp_script s /\
    cmds s1 = cmds s.
Proof.
  intros He Hd Hg. unfold validate_input. rewrite He, Hd, Hg. simpl.
  eexists. split; [reflexivity|]. by repeat split.
Qed.

Lemma copy_additional_spec w files acc s :
  exists l s',
    copy_additional w files acc s = (Ok l, s') /\
    vm_name s' = vm_name s /\ disk_files s' = disk_files s /\
    out_exists s' = out_exists s /\ cmds s' = cmds s /\
    exists l', log s' = log s ++ l'.
Proof.
  revert acc s. induction files as [|f files IH]; intros acc s.
  - exists acc, s. repeat split. exists []. by rewrite app_nil_r.
  - simpl. destruct (not_copied _); [apply IH|].
    assert (Hwarn : exists l s',
              (echo (E_copy_warning (ename f)) ;;;
               copy_additional w files acc) s = (Ok l, s') /\
              vm_name s' = vm_name s /\ disk_files s' = disk_files s /\
              out_exists s' = out_exists s /\ cmds s' = cmds s /\
              exists l', log s' = log s ++ l').
    { unfold bind. rewrite echo_with_log.
      match goal with |- context [copy_additional w files ?a ?s0] =>
        destruct (IH a s0) as (l & s' & H & ? & ? & ? & ? & l' & Hl) end.
      exists l, s'. rewrite H. repeat split; try done.
      eexists. rewrite Hl. simpl. by rewrite <- app_assoc. }
    destruct (edata f) as [b|]; [|exact Hwarn].
    destruct (copy2_ok w f); [|exact Hwarn].
    unfold bind, write_out.
    match goal with |- context [copy_additional w files ?a ?s0] =>
      destruct (IH a s0) as (l & s' & H & ? & ? & ? & ? & l' & ?) end.
    exists l, s'. rewrite H. repeat split; try done. by exists l'.
Qed.

(** [create_output_structure] runs no command; it either completes, with
    the output directory present, or raises [click.Abort] or the error of
    the operating system, changing nothing. *)
Lemma create_output_structure_spec w s :
  exists r s',
    create_output_structure w s = (r, s') /\
    vm_name s' = vm_name s /\ disk_files s' = disk_files s /\
    cmds s' = cmds s /\
    match r with
    | Ok _ => out_exists s' = true
    | Raise e => (e = Abort \/ exists k, e = os_exn k) /\ s' = s
    end.
Proof.
  assert (Hcopy : forall s0,
            exists s',
              (additional_files <-
                 copy_additional w (glob_dotted (in_files w)) [] ;;
               match additional_files with
               | [] => ret tt
               | _ :: _ => echo (E_copied additional_files)
               end) s0 = (Ok tt, s') /\
              vm_name s' = vm_name s0 /\ disk_files s' = disk_files s0 /\
              cmds s' = cmds s0 /\ out_exists s' = out_exists s0).
  { intros s0.
    destruct (copy_additional_spec w (glob_dotted (in_files w)) [] s0)
      as (l & s' & H & ? & ? & ? & ? & _).
    rewrite (bind_ok _ _ _ _ _ H).
    destruct l; [unfold ret|rewrite echo_with_log]; eexists;
      (split; [reflexivity|]); by repeat split. }
  unfold create_output_structure. unfold bind at 1. unfold get at 1.
  destruct (out_exists s) eqn:Hout; cbn [negb].
  - destruct (iterdir_out w) as [k|].
    { exists (Raise (os_exn k)), s. repeat split; eauto. }
    destruct (negb (bool_decide (out_fs s = ∅))).
    + destruct (confirm w).
      * unfold bind at 1. unfold ret at 1.
        destruct (Hcopy s) as (s' & H & ? & ? & ? & ?). rewrite H.
        exists (Ok tt), s'. repeat split; try done. congruence.
      * exists (Raise Abort), s. repeat split; auto.
    + unfold bind at 1. unfold ret at 1.
      destruct (Hcopy s) as (s' & H & ? & ? & ? & ?). rewrite H.
      exists (Ok tt), s'. repeat split; try done. congruence.
  - destruct (mkdir_out w) as [|k].
    + unfold bind at 1. unfold bind at 1. unfold set_out_exists at 1.
      rewrite echo_with_log.
      match goal with |- context [bind (copy_additional w _ _) _ ?s0] =>
        destruct (Hcopy s0) as (s' & H & ? & ? & ? & ?) end.
      rewrite H. exists (Ok tt), s'. by repeat split.
    + exists (Raise (os_exn k)), s. repeat split; eauto.
Qed.

(** With the output directory absent and creatable, it is created. *)
Lemma create_output_structure_creates w s :
  out_exists s = false -> mkdir_out w = MkdirOk ->
  exists s',
    create_output_structure w s = (Ok tt, s') /\
    vm_name s' = vm_name s /\ disk_files s' = disk_files s /\
    cmds s' = cmds s /\ out_exists s' = true /\
    In E_created_output_dir (log s').
Proof.
  intros Hout Hmk.
  unfold create_output_structure. unfold bind at 1. unfold get at 1.
  rewrite Hout, Hmk. cbn [negb].
  unfold bind at 1. unfold bind at 1. unfold set_out_exists at 1.
  rewrite echo_with_log.
  match goal with |- context [bind (copy_additional w ?f ?a) _ ?s0] =>
    destruct (copy_additional_spec w f a s0)
      as (l & s' & H & ? & ? & Ho & ? & l' & Hl) end.
  rewrite (bind_ok _ _ _ _ _ H).
  assert (In E_created_output_dir (log s')).
  { rewrite Hl. simpl. apply in_or_app. left. apply in_or_app. right.
    by left. }
  destruct l; [unfold ret|rewrite echo_with_log];
    eexists; (split; [reflexivity|]); repeat split; try done.
  simpl. apply in_or_app. by left.
Qed.

(** Without [.vmdk] files the validation has nothing to check. *)
Lemma validate_no_vmdk w s :
  vmdk_files w = [] ->
  exists l, validate_vmware_vm w s = (Ok true, with_log l s).
Proof.
  intros Hv. unfold validate_vmware_vm, validate_scan.
  fold (vmdk_files w). rewrite Hv. unfold bind, ret. simpl.
  destruct (state_warnings w); simpl; eexists; unfold with_log; simpl;
    rewrite <- ?app_assoc; reflexivity.
Qed.

Lemma convert_no_vmdk w s :
  vmdk_files w = [] -> qemu_available w = true ->
  convert_disk_images w s =
    (Raise (FileNotFoundError No_vmdk_found),
     State (vm_name s) (disk_files s) (out_exists s) (out_fs s)
           (tmp_script s) (cmds s ++ [Qemu_version])
           (log s ++ [E_converting_images])).
Proof.
  intros Hv Hq. unfold convert_disk_images. rewrite Hq. cbn [negb].
  unfold bind at 1. rewrite echo_with_log.
  unfold bind at 1. unfold run_cmd at 1.
  unfold bind at 1. rewrite get_targets_spec, Hv. reflexivity.
Qed.

(** ** Claims on discovery failure and validation *)

(** C2, as stated, fails: in a directory with a [.vmx] file and no [.vmdk]
    file the run does end with the discovery failure, but the output
    directory, absent before, exists afterwards. *)
Lemma C2_counterexample :
  vmdk_files Sample.w_no_vmdk = [] /\
  out_exists0 Sample.w_no_vmdk = false /\
  last (log (snd (main Sample.w_no_vmdk)))
    = Some (E_error (FileNotFoundError No_vmdk_found)) /\
  out_exists (snd (main Sample.w_no_vmdk)) = true /\
  ~ (out_exists (snd (main Sample.w_no_vmdk))
       = out_exists0 Sample.w_no_vmdk).
Proof.
  repeat split; try (vm_compute; reflexivity).
  vm_compute. discriminate.
Qed.

(** C2 (amended): in a directory without [.vmdk] files the run ends with
    status 1.  Without a [.vmx] file either, it ends in [validate_input],
    before anything is touched.  With a [.vmx] file (and the output
    directory absent and creatable, [qemu-img] installed) it ends on the
    discovery failure raised by [identify_disk_structure]; by then
    [create_output_structure] has created the output directory; the only
    command run is [qemu-img --version], and no disk was converted. *)
Theorem C2_discovery_failure_after_output_created (w : world) :
  vmdk_files w = [] ->
  in_exists w = true -> in_is_dir w = true ->
  (glob_ext (lit ".vmx") (in_files w) = [] ->
   main w = (1%Z, log_final (E_error (FileNotFoundError No_vmx_found))
                    (with_log [E_starting] (init_state w)))) /\
  (forall vmx rest,
     glob_ext (lit ".vmx") (in_files w) = vmx :: rest ->
     out_exists0 w = false -> mkdir_out w = MkdirOk ->
     qemu_available w = true ->
     fst (main w) = 1%Z /\
     last (log (snd (main w)))
       = Some (E_error (FileNotFoundError No_vmdk_found)) /\
     out_exists (snd (main w)) = true /\
     In E_created_output_dir (log (snd (main w))) /\
     cmds (snd (main w)) = [Qemu_version] /\
     disk_files (snd (main w)) = []).
Proof.
  intros Hv Hex Hdir. split.
  { intros Hvmx. unfold main, main_body.
    unfold bind at 1. rewrite echo_with_log.
    unfold bind at 1. unfold validate_input. rewrite Hex, Hdir, Hvmx.
    reflexivity. }
  intros vmx rest Hvmx Hout Hmk Hq.
  destruct (main w) as [code sf] eqn:Hm.
  unfold main, main_body in Hm.
  unfold bind at 1 in Hm. rewrite echo_with_log in Hm.
  destruct (validate_input_ok w (with_log [E_starting] (init_state w))
              vmx rest Hex Hdir Hvmx)
    as (s1 & H1 & _ & Hd1 & Ho1 & _ & _ & Hc1).
  rewrite (bind_ok _ _ _ _ _ H1) in Hm.
  destruct (validate_no_vmdk w s1 Hv) as (l & H2).
  rewrite (bind_ok _ _ _ _ _ H2) in Hm.
  unfold bind at 1 in Hm. unfold ret at 1 in Hm.
  destruct (create_output_structure_creates w (with_log l s1))
    as (s3 & H3 & _ & Hd3 & Hc3 & Ho3 & Hl3); [by rewrite <- Hout|done|].
  rewrite (bind_ok _ _ _ _ _ H3) in Hm.
  rewrite (bind_raise _ _ _ _ _ (convert_no_vmdk w s3 Hv Hq)) in Hm.
  injection Hm as <- <-.
  cbn [fst snd log_final log out_exists cmds disk_files].
  split; [done|]. split; [apply last_snoc|]. split; [done|].
  split; [apply in_or_app; left; apply in_or_app; by left|].
  split; [by rewrite Hc3; cbn; rewrite Hc1|].
  by rewrite Hd3; cbn; rewrite Hd1.
Qed.

Lemma C2_discovery_failure_after_output_created_witness :
  main Sample.w_empty
    = (1%Z, log_final (E_error (FileNotFoundError No_vmx_found))
              (with_log [E_starting] (init_state Sample.w_empty))) /\
  (fst (main Sample.w_no_vmdk) = 1%Z /\
   last (log (snd (main Sample.w_no_vmdk)))
     = Some (E_error (FileNotFoundError No_vmdk_found)) /\
   out_exists (snd (main Sample.w_no_vmdk)) = true /\
   In E_created_output_dir (log (snd (main Sample.w_no_vmdk))) /\
   cmds (snd (main Sample.w_no_vmdk)) = [Qemu_version] /\
   disk_files (snd (main Sample.w_no_vmdk)) = []).
Proof.
  split.
  - apply (proj1 (C2_discovery_failure_after_output_created Sample.w_empty
                    eq_refl eq_refl eq_refl)).
    reflexivity.
  - apply (proj2 (C2_discovery_failure_after_output_created Sample.w_no_vmdk
                    eq_refl eq_refl eq_refl) Sample.vmx []); reflexivity.
Defined.

(** C3, as stated, fails in both directions.  With a memory dump next to a
    flat disk without partition table the warning signal is there, yet the
    run is aborted.  With a lone descriptor, no disk shows a partition table
    and there is no warning signal, yet validation passes and the run
    completes. *)
Lemma C3_counterexample :
  (state_warnings Sample.w_suspended = [W_vmem 1] /\
   fst (validate_vmware_vm Sample.w_suspended
          (init_state Sample.w_suspended)) = Ok false /\
   fst (main Sample.w_suspended) = 1%Z /\
   last (log (snd (main Sample.w_suspended))) = Some E_aborted_validation) /\
  (existsb (shows_partition_table Sample.w_descriptor_no_table)
     (vmdk_files Sample.w_descriptor_no_table) = false /\
   state_warnings Sample.w_descriptor_no_table = [] /\
   fst (validate_vmware_vm Sample.w_descriptor_no_table
          (init_state Sample.w_descriptor_no_table)) = Ok true /\
   fst (main Sample.w_descriptor_no_table) = 0%Z).
Proof. repeat split; vm_compute; reflexivity. Qed.

(** C3 (amended): when [stat()] succeeds on every [.vmdk] entry,
    validation returns [False] exactly when some [.vmdk] file was probed,
    showed no partition table, and does not look like a descriptor (its
    first 1024 characters, decoded strictly as UTF-8, hold both
    [createType] and [VMDK]); warnings play no part in it.  When [stat()]
    fails on an entry, validation raises that error.  Either way it
    touches nothing but the trace and the log, and runs only probes.
    After [validate_input] passed, the run then ends with status 1, with
    the message of the failed validation in the first case and the report
    of the error in the second, before the output directory is touched and
    before any conversion. *)
Theorem C3_validation_abort (w : world) (s : state) :
  (Forall (fun e => stat_error w e = None) (vmdk_files w) ->
   (fst (validate_vmware_vm w s) = Ok false <->
    existsb (unexcused w) (vmdk_files w) = true) /\
   (fst (validate_vmware_vm w s) = Ok true <->
    existsb (unexcused w) (vmdk_files w) = false)) /\
  (forall k,
     first_stat_error w (vmdk_files w) = Some k ->
     fst (validate_vmware_vm w s) = Raise (os_exn k)) /\
  only_trace s (snd (validate_vmware_vm w s)) /\
  trace_grew is_probe s (snd (validate_vmware_vm w s)) /\
  (in_exists w = true -> in_is_dir w = true ->
   glob_ext (lit ".vmx") (in_files w) <> [] ->
   (Forall (fun e => stat_error w e = None) (vmdk_files w) ->
    existsb (unexcused w) (vmdk_files w) = true ->
    fst (main w) = 1%Z /\
    last (log (snd (main w))) = Some E_aborted_validation) /\
   (forall k,
      first_stat_error w (vmdk_files w) = Some k ->
      fst (main w) = 1%Z /\
      last (log (snd (main w))) = Some (final_message (os_exn k))) /\
   (existsb (unexcused w) (vmdk_files w) = true \/
    first_stat_error w (vmdk_files w) <> None ->
    out_exists (snd (main w)) = out_exists0 w /\
    out_fs (snd (main w)) = out_fs0 w /\
    disk_files (snd (main w)) = [] /\
    forallb is_probe (cmds (snd (main w))) = true)).
Proof.
  assert (Hneg : forall l,
            forallb (fun e => negb (unexcused w e)) l
            = negb (existsb (unexcused w) l)).
  { induction l as [|e l IH]; [done|]. simpl. rewrite IH.
    by destruct (unexcused w e). }
  split.
  { intros Hst%first_stat_error_none.
    destruct (validate_vmware_vm_spec w s Hst) as (s' & H & _).
    rewrite H, Hneg. cbn [fst].
    destruct (existsb _ _); simpl; split; split; intros; congruence. }
  split.
  { intros k Hk. destruct (validate_vmware_vm_total w s) as (s' & H & _).
    by rewrite H, Hk. }
  split; [apply validate_vmware_vm_frame|].
  split; [apply validate_vmware_vm_frame|].
  intros Hex Hdir Hvmx.
  destruct (glob_ext (lit ".vmx") (in_files w)) as [|vmx rest] eqn:Hg; [done|].
  destruct (validate_input_ok w (with_log [E_starting] (init_state w))
              vmx rest Hex Hdir Hg)
    as (s1 & H1 & _ & Hd1 & Ho1 & Hf1 & _ & Hc1).
  destruct (validate_vmware_vm_total w s1) as (s2 & H2 & Ho2 & Hc2).
  destruct Ho2 as (_ & Hd2 & Hoe2 & Hfs2 & _).
  assert (Hprobes : forallb is_probe (cmds s2) = true).
  { rewrite Hc2, Hc1. apply validation_trace_probes. }
  assert (Hmain : main w =
            match first_stat_error w (vmdk_files w) with
            | Some k => (1%Z, log_final (final_message (os_exn k)) s2)
            | None =>
                if existsb (unexcused w) (vmdk_files w)
                then (1%Z, with_log [E_aborted_validation] s2)
                else main w
            end).
  { destruct (first_stat_error w (vmdk_files w)) as [k|] eqn:Hk.
    - unfold main, main_body.
      unfold bind at 1. rewrite echo_with_log.
      rewrite (bind_ok _ _ _ _ _ H1), (bind_raise _ _ _ _ _ H2).
      by destruct k.
    - destruct (existsb (unexcused w) (vmdk_files w)) eqn:Hbad; [|done].
      unfold main, main_body.
      unfold bind at 1. rewrite echo_with_log.
      rewrite Hneg, Hbad in H2. cbn [negb] in H2.
      rewrite (bind_ok _ _ _ _ _ H1), (bind_ok _ _ _ _ _ H2).
      unfold bind at 1. unfold bind at 1. unfold bind at 1.
      rewrite echo_with_log. reflexivity. }
  split; [|split].
  - intros Hst%first_stat_error_none Hbad. rewrite Hmain, Hst, Hbad.
    cbn [fst snd with_log log]. split; [done|apply last_snoc].
  - intros k Hk. rewrite Hmain, Hk.
    cbn [fst snd log_final log]. split; [done|apply last_snoc].
  - intros Hcase. rewrite Hmain.
    destruct (first_stat_error w (vmdk_files w)) as [k|].
    + cbn [snd log_final out_exists out_fs disk_files cmds].
      rewrite Hoe2, Ho1, Hfs2, Hf1, Hd2, Hd1. by repeat split.
    + destruct Hcase as [Hbad|Hno]; [|done]. rewrite Hbad.
      cbn [snd with_log out_exists out_fs disk_files cmds].
      rewrite Hoe2, Ho1, Hfs2, Hf1, Hd2, Hd1. by repeat split.
Qed.

(** The run on a flat disk without partition table next to a memory dump,
    and the run on a directory with a dangling link among the disks. *)
Lemma C3_validation_abort_witness :
  (fst (main Sample.w_suspended) = 1%Z /\
   last (log (snd (main Sample.w_suspended))) = Some E_aborted_validation) /\
  (fst (main Sample2.w_dangling) = 1%Z /\
   last (log (snd (main Sample2.w_dangling)))
     = Some (E_error (FileNotFoundError No_such_file))) /\
  (out_exists (snd (main Sample2.w_dangling)) = false /\
   out_fs (snd (main Sample2.w_dangling)) = ∅ /\
   disk_files (snd (main Sample2.w_dangling)) = [] /\
   forallb is_probe (cmds (snd (main Sample2.w_dangling))) = true).
Proof.
  pose proof (C3_validation_abort Sample.w_suspended
                (init_state Sample.w_suspended))
    as (_ & _ & _ & _ & Hs).
  pose proof (C3_validation_abort Sample2.w_dangling
                (init_state Sample2.w_dangling))
    as (_ & _ & _ & _ & Hd).
  specialize (Hs eq_refl eq_refl ltac:(vm_compute; discriminate)).
  specialize (Hd eq_refl eq_refl ltac:(vm_compute; discriminate)).
  destruct Hs as (Hs & _ & _). destruct Hd as (_ & Hd1 & Hd2).
  split; [|split].
  - apply Hs; [|vm_compute; reflexivity].
    vm_compute. repeat constructor.
  - apply (Hd1 ENOENT). vm_compute. reflexivity.
  - apply Hd2. right. vm_compute. discriminate.
Defined.

(** ** Converting one disk *)

Ltac run_monad :=
  unfold bind, try_except, echo, run_cmd, ret, raise, qemu_img_convert,
    write_out, append_disk_file, stat;
  cbn [fst snd vm_name disk_files out_exists out_fs tmp_script cmds log
       is_called_process_error default from_option].

(** Run [verify_converted_disk] where it stands in the goal, keeping what
    it leaves unchanged. *)
Ltac run_verify b s' Hf Ht :=
  match goal with
  | |- context [verify_converted_disk ?w ?name ?s0] =>
      let Hv := fresh "Hv" in
      destruct (verify_converted_disk_spec w name s0)
        as (b & s' & Hv & Hf & Ht);
      rewrite Hv
  end.

Ltac attempts_done :=
  rewrite ?conversion_attempts_app; unfold conversion_attempts;
  cbn [omap list_omap]; rewrite ?app_nil_r, <- ?app_assoc; reflexivity.

(** A file [qemu-img] could inspect can be examined with [stat()]. *)
Lemma qemu_info_stat w vmdk :
  qemu_info w vmdk <> InfoFailed -> stat_error w vmdk = None.
Proof. unfold qemu_info. by destruct (stat_error w vmdk). Qed.

Lemma convert_one_direct w i n vmdk s f :
  qemu_info w vmdk = InfoFormat f ->
  default (lit "vmdk") f <> lit "raw" ->
  let r := convert_one w i n vmdk s in
  conversion_attempts (cmds (snd r))
    = conversion_attempts (cmds s) ++ [default (lit "vmdk") f] /\
  match qemu_convert w (default (lit "vmdk") f) vmdk with
  | Some image =>
      fst r = Ok tt /\
      disk_files (snd r) = disk_files s ++ [output_name vmdk] /\
      out_fs (snd r) !! output_name vmdk = Some image
  | None =>
      fst r = Raise (RuntimeError (Failed_to_convert (ename vmdk))) /\
      disk_files (snd r) = disk_files s
  end.
Proof.
  intros Hinfo Hfmt. unfold convert_one. fold (output_name vmdk).
  rewrite Hinfo. run_monad.
  rewrite bool_decide_eq_false_2 by done.
  destruct (qemu_convert w _ vmdk) as [image|]; run_monad.
  - run_verify b s' Hf Ht. run_monad.
    rewrite (conversion_attempts_grew _ _ Ht),
      (backup_frame_lookup _ _ _ Hf).
    destruct Hf as (_ & -> & _). cbn [cmds disk_files out_fs].
    rewrite lookup_insert_eq. split; [attempts_done|done].
  - split; [attempts_done|done].
Qed.

Lemma convert_one_raw w i n vmdk s :
  qemu_info w vmdk = InfoFormat (Some (lit "raw")) ->
  let r := convert_one w i n vmdk s in
  match qemu_convert w (lit "vmdk") vmdk, qemu_convert w (lit "raw") vmdk with
  | Some image, _ =>
      fst r = Ok tt /\
      conversion_attempts (cmds (snd r))
        = conversion_attempts (cmds s) ++ [lit "vmdk"] /\
      disk_files (snd r) = disk_files s ++ [output_name vmdk] /\
      out_fs (snd r) !! output_name vmdk = Some image
  | None, Some image =>
      fst r = Ok tt /\
      conversion_attempts (cmds (snd r))
        = conversion_attempts (cmds s) ++ [lit "vmdk"; lit "raw"] /\
      disk_files (snd r) = disk_files s ++ [output_name vmdk] /\
      out_fs (snd r) !! output_name vmdk = Some image
  | None, None =>
      fst r = Raise (RuntimeError (Failed_to_convert (ename vmdk))) /\
      conversion_attempts (cmds (snd r))
        = conversion_attempts (cmds s) ++ [lit "vmdk"; lit "raw"] /\
      disk_files (snd r) = disk_files s
  end.
Proof.
  intros Hinfo.
  assert (Hst : stat_error w vmdk = None)
    by (apply qemu_info_stat; by rewrite Hinfo).
  unfold convert_one. fold (output_name vmdk).
  rewrite Hinfo. run_monad.
  rewrite bool_decide_eq_true_2 by done.
  destruct (qemu_convert w (lit "vmdk") vmdk) as [image|]; run_monad;
    rewrite ?Hst; run_monad.
  - run_verify b s' Hf Ht. run_monad.
    rewrite (conversion_attempts_grew _ _ Ht),
      (backup_frame_lookup _ _ _ Hf).
    destruct Hf as (_ & -> & _). cbn [cmds disk_files out_fs].
    rewrite lookup_insert_eq. repeat split; attempts_done.
  - destruct (qemu_convert w (lit "raw") vmdk) as [image|]; run_monad.
    + run_verify b s' Hf Ht. run_monad.
      rewrite (conversion_attempts_grew _ _ Ht),
        (backup_frame_lookup _ _ _ Hf).
      destruct Hf as (_ & -> & _). cbn [cmds disk_files out_fs].
      rewrite lookup_insert_eq. repeat split; attempts_done.
    + repeat split; attempts_done.
Qed.

Lemma convert_loop_raise w i n vmdk rest s e s' :
  convert_one w i n vmdk s = (Raise e, s') ->
  convert_loop w i n (vmdk :: rest) s = (Raise e, s').
Proof. intros H. simpl. by apply bind_raise. Qed.

(** ** The claim on the repair advisor *)




(** ** Which exceptions the methods raise *)

Section RaisesOnly.
Context (P : exn -> Prop).

Lemma ro_ret {A} (a : A) : raises_only P (ret a).
Proof. intros s e s' H. discriminate H. Qed.

Lemma ro_raise {A} e : P e -> raises_only P (@raise A e).
Proof. intros He s e' s' H. by injection H as <- _. Qed.

Lemma ro_echo m : raises_only P (echo m).
Proof. intros s e s' H. discriminate H. Qed.

Lemma ro_run_cmd c : raises_only P (run_cmd c).
Proof. intros s e s' H. discriminate H. Qed.

Lemma ro_get : raises_only P get.
Proof. intros s e s' H. discriminate H. Qed.

Lemma ro_write_out n b : raises_only P (write_out n b).
Proof. intros s e s' H. discriminate H. Qed.

Lemma ro_set_vm_name n : raises_only P (set_vm_name n).
Proof. intros s e s' H. discriminate H. Qed.

Lemma ro_append_disk_file n : raises_only P (append_disk_file n).
Proof. intros s e s' H. discriminate H. Qed.

Lemma ro_bind {A B} (m : M A) (k : A -> M B) :
  raises_only P m -> (forall a, raises_only P (k a)) ->
  raises_only P (bind m k).
Proof.
  intros Hm Hk s e s' H.
  apply bind_inv_raise in H as [H|(a & s1 & _ & H)].
  - exact (Hm _ _ _ H).
  - exact (Hk _ _ _ _ H).
Qed.

Lemma ro_try_except {A} (m : M A) hd h :
  raises_only P m -> (forall e, raises_only P (h e)) ->
  raises_only P (try_except m hd h).
Proof.
  intros Hm Hh s e s'. unfold try_except.
  destruct (m s) as [[a|e1] s1] eqn:Hms; [done|].
  destruct (hd e1); [by apply Hh|].
  intros H. injection H as <- _. exact (Hm _ _ _ Hms).
Qed.

(** A computation that always returns raises nothing. *)
Lemma ro_total {A} (m : M A) :
  (forall s, exists a s', m s = (Ok a, s')) -> raises_only P m.
Proof. intros Hm s e s' H. destruct (Hm s) as (a & s1 & H1). congruence. Qed.

End RaisesOnly.

Ltac ro_step :=
  first
    [ apply ro_ret | apply ro_echo | apply ro_run_cmd | apply ro_get
    | apply ro_write_out | apply ro_set_vm_name | apply ro_append_disk_file
    | apply ro_raise; reflexivity
    | apply ro_bind; [|intros ?]
    | apply ro_try_except; [|intros ?]
    | match goal with
      | |- raises_only _ (match ?x with _ => _ end) => destruct x
      | |- raises_only _ (if ?b then _ else _) => destruct b
      end ].

Lemma validate_input_not_exit w : raises_only not_exit (validate_input w).
Proof. unfold validate_input. repeat ro_step. Qed.

Lemma os_exn_not_exit k : not_exit (os_exn k).
Proof. by destruct k. Qed.

Lemma stat_not_exit w vmdk : raises_only not_exit (stat w vmdk).
Proof.
  unfold stat. destruct (stat_error w vmdk); [|apply ro_ret].
  apply ro_raise, os_exn_not_exit.
Qed.

Lemma validate_vmware_vm_not_exit w :
  raises_only not_exit (validate_vmware_vm w).
Proof.
  intros s e s' H.
  destruct (validate_vmware_vm_total w s) as (s1 & H1 & _).
  rewrite H in H1. destruct (first_stat_error w (vmdk_files w)); [|done].
  injection H1 as -> _. apply os_exn_not_exit.
Qed.

Lemma create_output_structure_not_exit w :
  raises_only not_exit (create_output_structure w).
Proof.
  intros s e s' H.
  destruct (create_output_structure_spec w s) as (r & s1 & H1 & _ & _ & _ & Hr).
  rewrite H in H1. injection H1 as <- <-.
  destruct Hr as [[-> | [k ->]] _]; [done|apply os_exn_not_exit].
Qed.

Lemma get_targets_not_exit w :
  raises_only not_exit (get_disk_conversion_targets w).
Proof.
  intros s e s'. rewrite get_targets_spec.
  destruct (vmdk_files w); [by intros [= <- _]|].
  destruct (descriptor_files w) eqn:Hd; [done|]. rewrite <- Hd.
  destruct (List.filter _ _); [by intros [= <- _]|done].
Qed.

Lemma verify_not_exit w name :
  raises_only not_exit (verify_converted_disk w name).
Proof.
  apply ro_total. intros s.
  destruct (verify_converted_disk_spec w name s) as (b & s' & H & _). eauto.
Qed.

Lemma convert_one_not_exit w i n vmdk :
  raises_only not_exit (convert_one w i n vmdk).
Proof.
  unfold convert_one, qemu_img_convert.
  repeat first [apply verify_not_exit | apply stat_not_exit | ro_step].
Qed.

Lemma convert_loop_not_exit w i n targets :
  raises_only not_exit (convert_loop w i n targets).
Proof.
  revert i. induction targets as [|vmdk rest IH]; intros i; simpl.
  - apply ro_ret.
  - apply ro_bind; [apply convert_one_not_exit|intros _; apply IH].
Qed.

Lemma convert_disk_images_not_exit w :
  raises_only not_exit (convert_disk_images w).
Proof.
  unfold convert_disk_images.
  repeat first [apply get_targets_not_exit | apply convert_loop_not_exit
               | ro_step].
Qed.

Lemma parse_vmx_config_not_exit w vmx :
  raises_only not_exit (parse_vmx_config w vmx).
Proof.
  unfold parse_vmx_config. destruct (edata vmx); [apply ro_ret|].
  apply ro_raise, os_exn_not_exit.
Qed.

Lemma disk_xml_loop_not_exit w i files parts :
  raises_only not_exit (disk_xml_loop w i files parts).
Proof.
  revert i parts. induction files as [|f files IH]; intros i parts; simpl.
  - apply ro_ret.
  - apply ro_bind; [apply ro_get|intros s].
    repeat first [apply IH | ro_step].
Qed.

Lemma generate_libvirt_xml_not_exit w cfg :
  raises_only not_exit (generate_libvirt_xml w cfg).
Proof.
  unfold generate_libvirt_xml.
  repeat first [apply disk_xml_loop_not_exit | ro_step].
Qed.

(** The only [SystemExit] of a run is the one of [main] itself, after a
    failed validation, with status 1. *)
Lemma main_body_exit_status w :
  raises_only (fun e => forall c, e = SystemExit c -> c = 1%Z) (main_body w).
Proof.
  assert (Hweak : forall A (m : M A),
             raises_only not_exit m ->
             raises_only (fun e => forall c, e = SystemExit c -> c = 1%Z) m).
  { intros A m Hm s e s' H c ->. by apply Hm in H. }
  unfold main_body.
  repeat first
    [ apply Hweak;
      first [ apply validate_input_not_exit | apply validate_vmware_vm_not_exit
            | apply create_output_structure_not_exit
            | apply convert_disk_images_not_exit
            | apply parse_vmx_config_not_exit
            | apply generate_libvirt_xml_not_exit ]
    | apply ro_raise; by (intros c [= <-] || intros c [=])
    | ro_step ].
Qed.

(** A run ends with status 0 when the [try] block of [main] completes and
    with status 1 otherwise. *)
Lemma main_status w :
  match main_body w (init_state w) with
  | (Ok _, s) => main w = (0%Z, s)
  | (Raise _, _) => fst (main w) = 1%Z
  end.
Proof.
  unfold main.
  destruct (main_body w (init_state w)) as [[[]|e] s] eqn:H; [done|].
  pose proof (main_body_exit_status w _ _ _ H) as He.
  destruct e; try done. simpl. by apply He.
Qed.

(** ** The domain descriptor *)

Lemma py_chr_ok n : n <= 0x10FFFF -> py_chr n = Some n.
Proof. intros H. unfold py_chr. by destruct (N.leb_spec n 0x10FFFF); [|lia]. Qed.

Lemma disk_xml_loop_ok w files i parts s :
  Forall (fun f => is_Some (out_fs s !! f)) files ->
  N.of_nat (i + length files) <= max_disks ->
  disk_xml_loop w i files parts s =
  (Ok (parts ++ imap (fun k f => disk_xml (resolve w f)
                                   (97 + N.of_nat (i + k))) files), s).
Proof.
  intros Hall. revert i parts.
  induction Hall as [|f files [b Hf] _ IH]; intros i parts Hb.
  - simpl. unfold ret. by rewrite app_nil_r.
  - simpl. unfold bind at 1. unfold get at 1. rewrite Hf.
    simpl in Hb. unfold max_disks in Hb.
    rewrite py_chr_ok by lia.
    rewrite IH by (unfold max_disks; lia).
    rewrite <- app_assoc. simpl. rewrite Nat.add_0_r.
    do 4 f_equal. apply imap_ext. intros k x _. simpl.
    by rewrite Nat.add_succ_r.
Qed.

Lemma disk_xml_loop_missing w pre f post i parts s :
  Forall (fun f => is_Some (out_fs s !! f)) pre ->
  out_fs s !! f = None ->
  N.of_nat (i + length pre) <= max_disks ->
  disk_xml_loop w i (pre ++ f :: post) parts s =
  (Raise (FileNotFoundError (Disk_file_missing (resolve w f))), s).
Proof.
  intros Hall Hf. revert i parts.
  induction Hall as [|g pre [b Hg] _ IH]; intros i parts Hb.
  - simpl. unfold bind, get. by rewrite Hf.
  - simpl. unfold bind at 1. unfold get at 1. rewrite Hg.
    simpl in Hb. unfold max_disks in Hb.
    rewrite py_chr_ok by lia.
    apply IH. unfold max_disks. lia.
Qed.

Lemma target_line_in_entry p letter :
  py_in (target_line letter) (disk_xml p letter) = true.
Proof.
  unfold disk_xml, target_line, join.
  match goal with |- py_in ?n (?a ++ ?b ++ ?c ++ ?d ++ ?e ++ ?f ++ ?g) = _ =>
    replace (a ++ b ++ c ++ d ++ e ++ f ++ g)
      with ((a ++ b ++ c ++ d ++ e ++ f) ++ n ++ [10] ++ dq "    </disk>")
  end.
  - apply py_in_app.
  - rewrite <- !app_assoc. reflexivity.
Qed.

Lemma source_line_in_entry p letter :
  py_in (source_line p) (disk_xml p letter) = true.
Proof.
  unfold disk_xml, source_line, join.
  match goal with |- py_in ?n (?a ++ ?b ++ ?c ++ ?d ++ ?e ++ ?f) = _ =>
    replace (a ++ b ++ c ++ d ++ e ++ f)
      with ((a ++ b ++ c ++ d) ++ n ++ f)
  end.
  - apply py_in_app.
  - rewrite <- !app_assoc. reflexivity.
Qed.

Lemma disk_xml_loop_cases w files i parts s :
  exists r,
    disk_xml_loop w i files parts s = (r, s) /\
    match r with
    | Ok _ => True
    | Raise e =>
        e = ValueError \/ exists p, e = FileNotFoundError (Disk_file_missing p)
    end.
Proof.
  revert i parts. induction files as [|f files IH]; intros i parts; simpl.
  - by eexists (Ok _).
  - unfold bind at 1. unfold get at 1.
    destruct (out_fs s !! f); [|eexists (Raise _); split; eauto].
    destruct (py_chr _); [apply IH|eexists (Raise _); split; eauto].
Qed.

(** With every recorded disk present and a memory size [int] accepts, the
    descriptor is the template filled with one entry per disk. *)
Lemma generate_libvirt_xml_ok w cfg s memory_mb :
  N.of_nat (length (disk_files s)) <= max_disks ->
  Forall (fun f => is_Some (out_fs s !! f)) (disk_files s) ->
  py_int w (default (lit "1024") (cfg !! lit "memsize")) = Some memory_mb ->
  generate_libvirt_xml w cfg s
    = (Ok (xml_template (vm_name_str s) (fresh_uuid w)
             (str_of_Z (memory_mb * 1024))
             (default (lit "1") (cfg !! lit "numvcpus"))
             (join [10] (disk_entries w (disk_files s)))), s).
Proof.
  intros Hbound Hall Hint. unfold generate_libvirt_xml.
  unfold bind at 1. unfold get at 1.
  rewrite (bind_ok _ _ _ (disk_entries w (disk_files s)) s), Hint.
  - reflexivity.
  - rewrite disk_xml_loop_ok by done. reflexivity.
Qed.

(** What a completed [try] block of [main] went through. *)
Lemma main_body_ok_inv w s :
  main_body w (init_state w) = (Ok tt, s) ->
  exists vmx rest s1 xml s2 xml_file,
    glob_ext (lit ".vmx") (in_files w) = vmx :: rest /\
    generate_libvirt_xml w (vmx_config_of vmx) s1 = (Ok xml, s2) /\
    last (log s) = Some (E_completed_successfully xml_file).
Proof.
  unfold main_body. intros H.
  do 6 (apply bind_inv_ok in H as (? & ? & _ & H); cbv beta in H).
  apply bind_inv_ok in H as (vmx_file & sg & Hg & H); cbv beta in H.
  apply bind_inv_ok in H as (? & ? & _ & H); cbv beta in H.
  apply bind_inv_ok in H as (cfg & sp & Hp & H); cbv beta in H.
  apply bind_inv_ok in H as (xml & s2 & Hgen & H); cbv beta in H.
  apply bind_inv_ok in H as (sx & ? & _ & H); cbv beta in H.
  apply bind_inv_ok in H as (? & s3 & _ & H); cbv beta in H.
  destruct (glob_ext (lit ".vmx") (in_files w)) as [|vmx rest]; [done|].
  injection Hg as -> _.
  assert (cfg = vmx_config_of vmx_file) as ->.
  { unfold parse_vmx_config, vmx_config_of in *.
    destruct (edata vmx_file); [by injection Hp as <- _|done]. }
  injection H as <-.
  eexists _, _, _, _, _, _. split; [reflexivity|]. split; [exact Hgen|].
  apply last_snoc.
Qed.

(** ** Claims on verification, the descriptor and the configuration *)

(** C4, as stated, fails in its second half: in this run the verification
    of the converted image fails, yet the run ends with status 0 and the
    message "Conversion completed successfully", the same as the run in
    which the verification passes; no warning summary is printed. *)
Lemma C4_counterexample :
  In E_no_partition_attempting_fix
     (log (snd (main Sample.w_unbootable_result))) /\
  fst (main Sample.w_unbootable_result) = 0%Z /\
  last (log (snd (main Sample.w_unbootable_result)))
    = Some (E_completed_successfully (lit "/out/vm.xml")) /\
  fst (main Sample.w_flat) = 0%Z /\
  In E_partition_detected (log (snd (main Sample.w_flat))) /\
  last (log (snd (main Sample.w_flat)))
    = last (log (snd (main Sample.w_unbootable_result))) /\
  forall ws, ~ In (E_warnings ws) (log (snd (main Sample.w_unbootable_result))).
Proof.
  split; [vm_compute; tauto|].
  split; [vm_compute; reflexivity|].
  split; [vm_compute; reflexivity|].
  split; [vm_compute; reflexivity|].
  split; [vm_compute; tauto|].
  split; [vm_compute; reflexivity|].
  intros ws. vm_compute. intros H.
  repeat (destruct H as [H|H]; [discriminate H|]). exact H.
Qed.

(** C4 (amended): verification of a converted image always returns and
    leaves the converter object alone; a disk whose conversion succeeded is
    recorded whatever the verification found; and every run that ends with
    status 0 ends with the one message "Conversion completed
    successfully": there is no other terminal status of a completed run. *)
Theorem C4_verification_never_fatal (w : world) :
  (forall name s,
     exists b s', verify_converted_disk w name s = (Ok b, s') /\
                  backup_frame name s s') /\
  (forall i n vmdk s f image,
     qemu_info w vmdk = InfoFormat f ->
     default (lit "vmdk") f <> lit "raw" ->
     qemu_convert w (default (lit "vmdk") f) vmdk = Some image ->
     fst (convert_one w i n vmdk s) = Ok tt /\
     disk_files (snd (convert_one w i n vmdk s))
       = disk_files s ++ [output_name vmdk]) /\
  (fst (main w) = 0%Z ->
   exists xml_file,
     last (log (snd (main w))) = Some (E_completed_successfully xml_file)).
Proof.
  split.
  { intros name s.
    destruct (verify_converted_disk_spec w name s) as (b & s' & H & Hf & _).
    eauto. }
  split.
  { intros i n vmdk s f image Hinfo Hfmt Hconv.
    pose proof (convert_one_direct w i n vmdk s f Hinfo Hfmt) as [_ H].
    rewrite Hconv in H. tauto. }
  intros Hstatus. pose proof (main_status w) as Hm.
  destruct (main_body w (init_state w)) as [[[]|e] s] eqn:Hb.
  - destruct (main_body_ok_inv w s Hb) as (_ & _ & _ & _ & _ & x & _ & _ & Hl).
    exists x. by rewrite Hm.
  - rewrite Hm in Hstatus. discriminate Hstatus.
Qed.

Lemma C4_verification_never_fatal_witness :
  (fst (convert_one Sample.w_unbootable_result 1 1 Sample.flat
          (init_state Sample.w_unbootable_result)) = Ok tt /\
   disk_files (snd (convert_one Sample.w_unbootable_result 1 1 Sample.flat
                      (init_state Sample.w_unbootable_result)))
     = [] ++ [output_name Sample.flat]) /\
  exists xml_file,
    last (log (snd (main Sample.w_unbootable_result)))
      = Some (E_completed_successfully xml_file).
Proof.
  split.
  - apply (proj1 (proj2 (C4_verification_never_fatal
                           Sample.w_unbootable_result))
             1%nat 1%nat Sample.flat (init_state Sample.w_unbootable_result)
             (Some (lit "vmdk")) Sample.image_vmdk);
      [reflexivity|vm_compute; discriminate|reflexivity].
  - apply (proj2 (proj2 (C4_verification_never_fatal
                           Sample.w_unbootable_result))).
    vm_compute. reflexivity.
Defined.

(** C10: the default memory size is used exactly when [memsize] is absent:
    generation then behaves as if the configuration held [memsize = 1024].
    When the key is present its value is parsed; if [int] rejects it,
    generation raises (without changing anything) and the run ends with
    status 1 without reaching the end of the [try] block; if [int] accepts
    it, that value, not the default, is written. *)
Theorem C10_memsize_not_defaulted (w : world) (cfg : gmap pystr pystr)
    (s : state) :
  (cfg !! lit "memsize" = None ->
   generate_libvirt_xml w cfg s
     = generate_libvirt_xml w (<[lit "memsize" := lit "1024"]> cfg) s) /\
  (forall v,
     cfg !! lit "memsize" = Some v -> py_int w v = None ->
     exists e,
       generate_libvirt_xml w cfg s = (Raise e, s) /\
       (e = ValueError \/
        exists p, e = FileNotFoundError (Disk_file_missing p))) /\
  (forall v memory_mb,
     cfg !! lit "memsize" = Some v -> py_int w v = Some memory_mb ->
     N.of_nat (length (disk_files s)) <= max_disks ->
     Forall (fun f => is_Some (out_fs s !! f)) (disk_files s) ->
     generate_libvirt_xml w cfg s
       = (Ok (xml_template (vm_name_str s) (fresh_uuid w)
                (str_of_Z (memory_mb * 1024))
                (default (lit "1") (cfg !! lit "numvcpus"))
                (join [10] (disk_entries w (disk_files s)))), s)) /\
  (forall vmx rest v,
     glob_ext (lit ".vmx") (in_files w) = vmx :: rest ->
     vmx_config_of vmx !! lit "memsize" = Some v ->
     py_int w v = None ->
     fst (main w) = 1%Z /\
     forall s', main_body w (init_state w) <> (Ok tt, s')).
Proof.
  split; [|split; [|split]].
  - intros Hnone. unfold generate_libvirt_xml.
    rewrite Hnone, lookup_insert_eq, lookup_insert_ne by done. reflexivity.
  - intros v Hv Hint. unfold generate_libvirt_xml.
    unfold bind at 1. unfold get at 1.
    destruct (disk_xml_loop_cases w (disk_files s) 0%nat [] s)
      as ([parts|e] & Hloop & He).
    + rewrite (bind_ok _ _ _ _ _ Hloop), Hv. simpl. rewrite Hint.
      exists ValueError. split; [reflexivity|by left].
    + rewrite (bind_raise _ _ _ _ _ Hloop). by exists e.
  - intros v memory_mb Hv Hint Hbound Hall.
    apply generate_libvirt_xml_ok; [done|done|]. by rewrite Hv.
  - intros vmx rest v Hglob Hv Hint.
    assert (Hno : forall s', main_body w (init_state w) <> (Ok tt, s')).
    { intros s' Hok.
      destruct (main_body_ok_inv w s' Hok)
        as (vmx' & rest' & s1 & xml & s2 & _ & Hg & Hgen & _).
      rewrite Hglob in Hg. injection Hg as <- _.
      unfold generate_libvirt_xml in Hgen.
      apply bind_inv_ok in Hgen as (? & ? & [= <- <-] & Hgen).
      apply bind_inv_ok in Hgen as (? & ? & _ & Hgen).
      rewrite Hv in Hgen. simpl in Hgen. rewrite Hint in Hgen.
      discriminate Hgen. }
    split; [|exact Hno].
    pose proof (main_status w) as Hm.
    destruct (main_body w (init_state w)) as [[[]|e] sf] eqn:Hb; [|exact Hm].
    by destruct (Hno sf).
Qed.

Lemma C10_memsize_not_defaulted_witness :
  (exists e,
     generate_libvirt_xml Sample.w_flat SampleStates.cfg_bad_memsize
       SampleStates.two_disks = (Raise e, SampleStates.two_disks) /\
     (e = ValueError \/
      exists p, e = FileNotFoundError (Disk_file_missing p))) /\
  (fst (main Sample.w_bad_memsize) = 1%Z /\
   forall s',
     main_body Sample.w_bad_memsize (init_state Sample.w_bad_memsize)
       <> (Ok tt, s')) /\
  generate_libvirt_xml Sample.w_flat ∅ SampleStates.two_disks
    = generate_libvirt_xml Sample.w_flat
        (<[lit "memsize" := lit "1024"]> ∅) SampleStates.two_disks.
Proof.
  split; [|split].
  - apply (proj1 (proj2 (C10_memsize_not_defaulted Sample.w_flat
                           SampleStates.cfg_bad_memsize
                           SampleStates.two_disks))
             (lit "lots")); reflexivity.
  - apply (proj2 (proj2 (proj2 (C10_memsize_not_defaulted
                                  Sample.w_bad_memsize ∅
                                  (init_state Sample.w_bad_memsize))))
             Sample.vmx_bad_memsize [] (lit "lots")); reflexivity.
  - apply (proj1 (C10_memsize_not_defaulted Sample.w_flat ∅
                    SampleStates.two_disks)).
    reflexivity.
Defined.

(** ** Runs on the sample environments *)

(** One descriptor with its flat extent: the descriptor is the only
    target, the image is [disk.qcow2], the descriptor names [hda]. *)
Example split_disk_run :
  fst (get_disk_conversion_targets Sample.w_split
         (init_state Sample.w_split)) = Ok [Sample.descriptor] /\
  fst (main Sample.w_split) = 0%Z /\
  disk_files (snd (main Sample.w_split)) = [lit "disk.qcow2"] /\
  (exists xml,
     out_fs (snd (main Sample.w_split)) !! lit "vm.xml" = Some xml /\
     Sample.encode_ascii
       (xml_template (lit "vm") (fresh_uuid Sample.w_split) (lit "2097152")
          (lit "2") (disk_xml (lit "/out/disk.qcow2") 97)) = Some xml).
Proof.
  split; [vm_compute; reflexivity|].
  split; [vm_compute; reflexivity|].
  split; [vm_compute; reflexivity|].
  eexists. split; vm_compute; reflexivity.
Qed.

(** Only flat files: they are the targets, in discovery order. *)
Example flat_only_run :
  fst (get_disk_conversion_targets Sample.w_flat (init_state Sample.w_flat))
    = Ok [Sample.flat] /\
  fst (main Sample.w_flat) = 0%Z.
Proof. split; vm_compute; reflexivity. Qed.

(** Without [memsize] the descriptor holds 1024 * 1024 KiB. *)
Example default_memory_run :
  vmx_config_of Sample.vmx_no_memsize !! lit "memsize" = None /\
  fst (main Sample.w_no_memsize) = 0%Z /\
  (exists xml,
     out_fs (snd (main Sample.w_no_memsize)) !! lit "vm.xml" = Some xml /\
     Sample.encode_ascii
       (xml_template (lit "vm") (fresh_uuid Sample.w_no_memsize)
          (lit "1048576") (lit "2")
          (disk_xml (lit "/out/disk-flat.qcow2") 97)) = Some xml).
Proof.
  split; [vm_compute; reflexivity|].
  split; [vm_compute; reflexivity|].
  eexists. split; vm_compute; reflexivity.
Qed.

(** The decoder on a few byte strings: a two-byte and a three-byte
    character, a stray continuation byte, a truncated sequence. *)
Example decode_examples :
  decode_strict [xc3; xa9; xe2; x82; xac] = Some [233; 8364] /\
  decode_strict [x41; x80; x42] = None /\
  decode_ignore [x41; x80; x42] = [65; 66] /\
  decode_ignore [x41; xe2; x82] = [65] /\
  decode_ignore [xe2; x82; x41] = [65] /\
  universal_newlines [97; 13; 10; 98; 13; 99] = [97; 10; 98; 10; 99].
Proof. repeat split; vm_compute; reflexivity. Qed.

Example path_examples :
  path_stem (lit "disk.vmdk") = lit "disk" /\
  path_stem (lit "disk-s001.tar.vmdk") = lit "disk-s001.tar" /\
  path_stem (lit ".vmdk") = lit ".vmdk" /\
  path_suffix (lit "vm.vmem") = lit ".vmem" /\
  path_suffix (lit "README") = [].
Proof. repeat split; vm_compute; reflexivity. Qed.

Example string_examples :
  py_split (lit ": ") (lit "image: data") = [lit "image"; lit "data"] /\
  py_split (lit ": ") (lit "data") = [lit "data"] /\
  splitlines (lit "a" ++ [10; 10] ++ lit "b" ++ [13; 10]) = [lit "a"; []; lit "b"] /\
  py_strip ([32; 9] ++ lit "x y" ++ [10]) = lit "x y" /\
  split_once 61 (lit "a = b = c") = (lit "a ", lit " b = c").
Proof. repeat split; vm_compute; reflexivity. Qed.

(** * Further properties of the code *)

(** ** Classification and selection *)

Lemma filter_sublist {A} (p : A -> bool) (l : list A) :
  sublist (List.filter p l) l.
Proof.
  induction l as [|x l IH]; simpl; [constructor|].
  destruct (p x); by constructor.
Qed.

Lemma filter_partition_perm {A} (p : A -> bool) (l : list A) :
  Permutation (List.filter p l ++ List.filter (fun x => negb (p x)) l) l.
Proof.
  induction l as [|x l IH]; simpl; [constructor|].
  destruct (p x); simpl.
  - by constructor.
  - rewrite <- Permutation_middle. by constructor.
Qed.

Lemma Forall_filter_true {A} (p : A -> bool) (l : list A) :
  Forall (fun x => p x = true) (List.filter p l).
Proof. apply List.Forall_forall. intros x Hx. by apply filter_In in Hx as [_ ?]. Qed.

(** [identify_disk_structure] splits the [.vmdk] files in two: every file
    lands in exactly one list, both lists keep the discovery order, and a
    file that cannot be read is never a descriptor. *)
Theorem identify_disk_structure_partition (w : world) :
  Permutation (descriptor_files w ++ data_files w) (vmdk_files w) /\
  sublist (descriptor_files w) (vmdk_files w) /\
  sublist (data_files w) (vmdk_files w) /\
  Forall (fun e => is_descriptor e = true /\ is_Some (edata e))
         (descriptor_files w) /\
  Forall (fun e => is_descriptor e = false) (data_files w) /\
  (length (descriptor_files w) + length (data_files w))%nat
    = length (vmdk_files w).
Proof.
  rewrite descriptor_files_filter, data_files_filter.
  pose proof (filter_partition_perm is_descriptor (vmdk_files w)) as Hp.
  split; [exact Hp|]. split; [apply filter_sublist|].
  split; [apply filter_sublist|]. split; [|split].
  - apply List.Forall_forall. intros e [_ He]%filter_In. split; [done|].
    unfold is_descriptor in He. by destruct (edata e).
  - apply List.Forall_forall. intros e [_ He]%filter_In.
    by destruct (is_descriptor e).
  - rewrite <- length_app. by apply Permutation_length.
Qed.

Lemma create_type_ascii : ascii_bytes (blit "createType").
Proof.
  unfold ascii_bytes.
  let l := eval vm_compute in (blit "createType") in
  change (blit "createType") with l.
  repeat (constructor; [reflexivity|]). constructor.
Qed.

(** A file with [createType] among its first 512 bytes is classified as a
    descriptor whatever else these bytes are, valid UTF-8 or not. *)
Theorem binary_with_create_type_is_descriptor (w : world) (vmdk : entry)
    (b : list byte) :
  In vmdk (vmdk_files w) ->
  edata vmdk = Some b ->
  contains_bytes (blit "createType") (take 512 b) ->
  In vmdk (descriptor_files w) /\ ~ In vmdk (data_files w).
Proof.
  intros Hin Hdata Hc.
  assert (Hd : is_descriptor vmdk = true).
  { unfold is_descriptor. rewrite Hdata.
    change CREATE_TYPE with (map (fun x => Byte.to_N x) (blit "createType")).
    by rewrite (decode_ignore_keeps_ascii _ _ create_type_ascii Hc). }
  rewrite descriptor_files_filter, data_files_filter. split.
  - by apply filter_In.
  - intros [_ H]%filter_In. by rewrite Hd in H.
Qed.

Lemma binary_with_create_type_is_descriptor_witness :
  let sparse :=
    Sample.file "sparse.vmdk"
      ([x4b; x44; x4d; x56; xff; xfe; x80] ++ blit "createType=" ++
       [xc3; x28]) in
  let w := Sample.mk_world [Sample.vmx; sparse] Sample.fd_ok Sample.fl_dos
             Sample.info_vmdk Sample.conv_any in
  In sparse (descriptor_files w) /\ ~ In sparse (data_files w).
Proof.
  intros sparse w.
  apply (binary_with_create_type_is_descriptor w sparse
           ([x4b; x44; x4d; x56; xff; xfe; x80] ++ blit "createType=" ++
            [xc3; x28])).
  - vm_compute. left. reflexivity.
  - reflexivity.
  - exists [x4b; x44; x4d; x56; xff; xfe; x80], [x3d; xc3; x28].
    vm_compute. reflexivity.
Defined.

Lemma py_in_app_l n h t : py_in n h = true -> py_in n (h ++ t) = true.
Proof.
  intros (pre & post & ->)%py_in_inv.
  rewrite <- !app_assoc. apply py_in_app.
Qed.

(** The header is a prefix of the leniently decoded file. *)
Lemma header_prefix b :
  exists rest, decode_ignore b = header_of b ++ rest.
Proof.
  unfold header_of, decode_ignore.
  assert (utf8_run Idle b = utf8_run Idle (take 512 b ++ drop 512 b)) as ->
    by (by rewrite take_drop).
  rewrite utf8_run_app.
  destruct (utf8_run Idle (take 512 b)) as [[c1 e1] s1].
  destruct (utf8_run s1 (drop 512 b)) as [[c2 e2] s2].
  by exists c2.
Qed.

(** A parent hint seen in the header is seen in the whole text. *)
Lemma header_hint_in_text b :
  py_in PARENT_HINT (header_of b) = true ->
  py_in PARENT_HINT (read_text_ignore b) = true.
Proof.
  intros H. unfold read_text_ignore.
  apply universal_newlines_keeps; [apply parent_hint_no_newline|].
  destruct (header_prefix b) as [rest ->]. by apply py_in_app_l.
Qed.

(** The targets are never a mix: on success they are non-empty, in
    discovery order, and either all the [.vmdk] files (when none is a
    descriptor) or descriptors only.  Selecting changes nothing but the
    log. *)
Theorem targets_never_mixed (w : world) (s s' : state)
    (targets : list entry) :
  get_disk_conversion_targets w s = (Ok targets, s') ->
  targets <> [] /\
  sublist targets (vmdk_files w) /\
  (descriptor_files w = [] /\ targets = vmdk_files w \/
   descriptor_files w <> [] /\
   targets = List.filter is_selected (descriptor_files w) /\
   Forall (fun e => is_descriptor e = true) targets) /\
  (exists l, s' = with_log l s).
Proof.
  rewrite get_targets_spec.
  destruct (vmdk_files w) as [|v vs] eqn:Hv; [done|]. rewrite <- Hv.
  destruct (descriptor_files w) as [|d ds] eqn:Hd.
  - intros [= <- <-].
    assert (Hall : data_files w = vmdk_files w).
    { rewrite descriptor_files_filter in Hd. rewrite data_files_filter.
      clear Hv. induction (vmdk_files w) as [|x l IH]; [done|].
      cbn [List.filter] in *. destruct (is_descriptor x); [done|].
      simpl. f_equal. by apply IH. }
    rewrite Hall. split; [by rewrite Hv|]. split; [done|].
    split; [by left|]. by eexists.
  - rewrite <- Hd.
    destruct (List.filter is_selected (descriptor_files w)) as [|t ts] eqn:Hf;
      [done|].
    intros [= <- <-]. rewrite <- Hf. split; [by rewrite Hf|]. split.
    + etrans; [apply filter_sublist|].
      rewrite descriptor_files_filter. apply filter_sublist.
    + split; [|by eexists]. right. split; [by rewrite Hd|]. split; [done|].
      apply List.Forall_forall. intros e [He _]%filter_In.
      rewrite descriptor_files_filter in He. by apply filter_In in He as [_ ?].
Qed.

Lemma targets_never_mixed_witness :
  [Sample.descriptor] <> [] /\
  sublist [Sample.descriptor] (vmdk_files Sample.w_split) /\
  (descriptor_files Sample.w_split = [] /\
   [Sample.descriptor] = vmdk_files Sample.w_split \/
   descriptor_files Sample.w_split <> [] /\
   [Sample.descriptor]
     = List.filter is_selected (descriptor_files Sample.w_split) /\
   Forall (fun e => is_descriptor e = true) [Sample.descriptor]) /\
  (exists l, with_log [E_found_descriptor (lit "disk.vmdk")]
               (init_state Sample.w_split)
             = with_log l (init_state Sample.w_split)).
Proof.
  apply (targets_never_mixed Sample.w_split (init_state Sample.w_split)).
  vm_compute. reflexivity.
Defined.

(** Every target taken from the descriptors was classified by its creation
    type: its header has [createType] and no parent hint, and neither has
    the rest of its text. *)
Theorem selected_descriptor_headers (w : world) (s s' : state)
    (targets : list entry) :
  get_disk_conversion_targets w s = (Ok targets, s') ->
  descriptor_files w <> [] ->
  Forall (fun e => exists b,
            edata e = Some b /\
            py_in CREATE_TYPE (header_of b) = true /\
            py_in PARENT_HINT (header_of b) = false /\
            py_in PARENT_HINT (read_text_ignore b) = false) targets.
Proof.
  intros Hget Hd. rewrite get_targets_spec in Hget.
  destruct (vmdk_files w) as [|v vs]; [done|].
  destruct (descriptor_files w) as [|d ds] eqn:Hdf; [done|].
  rewrite <- Hdf in *.
  destruct (List.filter is_selected (descriptor_files w)) as [|t ts] eqn:Hf;
    [done|].
  injection Hget as <- _. rewrite <- Hf.
  apply List.Forall_forall. intros e [He Hsel]%filter_In.
  rewrite descriptor_files_filter in He. apply filter_In in He as [_ Hdesc].
  unfold is_selected in Hsel. unfold is_descriptor in Hdesc.
  destruct (edata e) as [b|]; [|done]. exists b.
  fold (header_of b) in Hdesc.
  apply negb_true_iff in Hsel.
  assert (Hh : py_in PARENT_HINT (header_of b) = false).
  { destruct (py_in PARENT_HINT (header_of b)) eqn:Hh; [|done].
    by rewrite (header_hint_in_text b Hh) in Hsel. }
  rewrite Hh, orb_false_r in Hdesc. done.
Qed.

Lemma selected_descriptor_headers_witness :
  Forall (fun e => exists b,
            edata e = Some b /\
            py_in CREATE_TYPE (header_of b) = true /\
            py_in PARENT_HINT (header_of b) = false /\
            py_in PARENT_HINT (read_text_ignore b) = false)
         [Sample.descriptor].
Proof.
  apply (selected_descriptor_headers Sample.w_late_snapshot
           (init_state Sample.w_late_snapshot)
           (with_log [E_skipping_snapshot (lit "late.vmdk");
                      E_found_descriptor (lit "disk.vmdk")]
              (init_state Sample.w_late_snapshot))).
  - vm_compute. reflexivity.
  - vm_compute. discriminate.
Defined.

(** ** The configuration file *)

Lemma lstrip_by_all p l : forallb p l = true -> lstrip_by p l = [].
Proof.
  induction l as [|c l IH]; simpl; [done|].
  intros [Hc Hl]%andb_true_iff. rewrite Hc. by apply IH.
Qed.

Lemma lstrip_by_app p l s :
  forallb p l = true -> lstrip_by p (l ++ s) = lstrip_by p s.
Proof.
  induction l as [|c l IH]; simpl; [done|].
  intros [Hc Hl]%andb_true_iff. rewrite Hc. by apply IH.
Qed.

Lemma lstrip_by_keep p s t :
  match s with [] => True | c :: _ => p c = false end -> s <> [] ->
  lstrip_by p (s ++ t) = s ++ t.
Proof.
  destruct s as [|c s]; intros H Hne; [congruence|]. simpl. by rewrite H.
Qed.

Lemma forallb_rev_true {A} (p : A -> bool) (l : list A) :
  forallb p l = true -> forallb p (rev l) = true.
Proof.
  induction l as [|x l IH]; simpl; [done|].
  intros [Hx Hl]%andb_true_iff. rewrite forallb_app, IH by done.
  simpl. by rewrite Hx.
Qed.

(** Stripping removes exactly the margin made of stripped characters. *)
Lemma strip_by_core p l s r :
  forallb p l = true -> forallb p r = true -> clean_ends p s ->
  strip_by p (l ++ s ++ r) = s.
Proof.
  intros Hl Hr [Hhead Hlast]. unfold strip_by.
  rewrite lstrip_by_app by done.
  destruct s as [|c s].
  - simpl. rewrite (lstrip_by_all p r Hr). reflexivity.
  - rewrite (lstrip_by_keep p (c :: s) r Hhead) by discriminate.
    rewrite rev_app_distr, lstrip_by_app by (by apply forallb_rev_true).
    assert (Hrev : rev (c :: s) <> []).
    { intros H. apply (f_equal (@rev N)) in H.
      by rewrite rev_involutive in H. }
    rewrite <- (app_nil_r (rev (c :: s))).
    rewrite (lstrip_by_keep p (rev (c :: s)) [] Hlast Hrev).
    by rewrite app_nil_r, rev_involutive.
Qed.

Lemma strip_by_clean p s : clean_ends p s -> strip_by p s = s.
Proof.
  intros H. pose proof (strip_by_core p [] s [] eq_refl eq_refl H) as Hs.
  simpl in Hs. by rewrite app_nil_r in Hs.
Qed.

Lemma split_once_app c k v :
  Forall (fun x => x <> c) k -> split_once c (k ++ c :: v) = (k, v).
Proof.
  induction 1 as [|x k Hx _ IH]; simpl.
  - by rewrite N.eqb_refl.
  - destruct (N.eqb_spec x c); [done|]. by rewrite IH.
Qed.

Lemma In_lstrip_by p x s : In x (lstrip_by p s) -> In x s.
Proof.
  induction s as [|c s IH]; simpl; [done|].
  destruct (p c); [by right; apply IH|done].
Qed.

Lemma In_strip_by p x s : In x (strip_by p s) -> In x s.
Proof.
  unfold strip_by. intros H. apply in_rev in H. apply In_lstrip_by in H.
  apply in_rev in H. by apply In_lstrip_by in H.
Qed.

Lemma py_in_char c s : py_in [c] s = true -> In c s.
Proof.
  intros (pre & post & ->)%py_in_inv. apply in_or_app. right. by left.
Qed.

Lemma parse_line_assignment_eq cfg key value :
  key <> [] ->
  clean_ends py_isspace key ->
  Forall (fun c => c <> 61) key ->
  startswith (lit "#") key = false ->
  clean_ends (N.eqb 34) value ->
  parse_line cfg (key ++ lit " = " ++ [34] ++ value ++ [34])
    = <[key := value]> cfg.
Proof.
  intros Hne Hkey Heq Hhash Hval. unfold parse_line.
  set (line := key ++ lit " = " ++ [34] ++ value ++ [34]).
  assert (Hstrip : py_strip line = line).
  { unfold py_strip. apply strip_by_clean. unfold line. split.
    - destruct key; [done|]. apply Hkey.
    - rewrite !rev_app_distr. simpl. reflexivity. }
  rewrite Hstrip.
  assert (Hin : py_in (lit "=") line = true).
  { unfold line. change (lit " = ") with ([32] ++ lit "=" ++ [32]).
    rewrite <- !app_assoc, (app_assoc key [32]). apply py_in_app. }
  assert (Hnot : startswith (lit "#") line = false).
  { unfold line. destruct key as [|c key]; [done|]. exact Hhash. }
  rewrite Hin, Hnot. cbn [andb negb].
  assert (Hsplit : split_once 61 line
                   = (key ++ [32], [32; 34] ++ value ++ [34])).
  { unfold line. change (lit " = ") with ([32] ++ 61 :: [32]).
    rewrite <- !app_assoc, (app_assoc key [32]).
    apply split_once_app. apply Forall_app. split; [done|].
    by repeat constructor. }
  rewrite Hsplit. f_equal.
  - unfold py_strip. by apply (strip_by_core py_isspace [] key [32]).
  - unfold strip_quotes, py_strip.
    change ([32; 34] ++ value ++ [34]) with ([32] ++ [34] ++ value ++ [34]).
    rewrite <- (app_nil_r ([34] ++ value ++ [34])) at 1.
    rewrite (strip_by_core py_isspace [32] ([34] ++ value ++ [34]) []);
      [|done|done|].
    + by apply (strip_by_core (N.eqb 34) [34] value [34]).
    + split; [done|]. rewrite !rev_app_distr. simpl. reflexivity.
Qed.

(** Writing an assignment and reading it back: the line [key = "value"]
    sets [key] to [value], with the quotes removed, whatever the lines
    before it said. *)
Theorem parse_line_assignment (cfg : gmap pystr pystr) (key value : pystr) :
  key <> [] ->
  clean_ends py_isspace key ->
  Forall (fun c => c <> 61) key ->
  startswith (lit "#") key = false ->
  clean_ends (N.eqb 34) value ->
  parse_line cfg (key ++ lit " = " ++ [34] ++ value ++ [34])
    = <[key := value]> cfg /\
  forall lines,
    fold_left parse_line
      (lines ++ [key ++ lit " = " ++ [34] ++ value ++ [34]]) cfg !! key
      = Some value.
Proof.
  intros Hne Hkey Heq Hhash Hval.
  split; [by apply parse_line_assignment_eq|]. intros lines.
  rewrite fold_left_app. cbn [fold_left].
  rewrite parse_line_assignment_eq by done. apply lookup_insert_eq.
Qed.

Lemma parse_line_assignment_witness :
  parse_line ∅ (lit "memsize" ++ lit " = " ++ [34] ++ lit "2048" ++ [34])
    = <[lit "memsize" := lit "2048"]> ∅ /\
  forall lines,
    fold_left parse_line
      (lines ++ [lit "memsize" ++ lit " = " ++ [34] ++ lit "2048" ++ [34]])
      ∅ !! lit "memsize" = Some (lit "2048").
Proof.
  apply (parse_line_assignment ∅ (lit "memsize") (lit "2048")).
  - vm_compute. discriminate.
  - split; reflexivity.
  - vm_compute. repeat (constructor; [discriminate|]). constructor.
  - reflexivity.
  - split; reflexivity.
Defined.

(** Comment lines, even indented ones that contain an assignment, and
    lines without an equals sign leave the configuration as it is. *)
Theorem parse_line_skips (cfg : gmap pystr pystr) (line : pystr) :
  startswith (lit "#") (py_strip line) = true \/
  Forall (fun c => c <> 61) line ->
  parse_line cfg line = cfg.
Proof.
  intros [Hhash|Hno]; unfold parse_line.
  - rewrite Hhash. by rewrite andb_false_r.
  - destruct (py_in (lit "=") (py_strip line)) eqn:Hin; [|done].
    apply py_in_char, In_strip_by in Hin.
    rewrite List.Forall_forall in Hno. by destruct (Hno _ Hin).
Qed.

Lemma parse_line_skips_witness :
  parse_line ∅ (lit "  # memsize = 4096") = ∅ /\
  parse_line ∅ (lit ".encoding UTF-8") = ∅.
Proof.
  split.
  - apply (parse_line_skips ∅ (lit "  # memsize = 4096")).
    left. reflexivity.
  - apply (parse_line_skips ∅ (lit ".encoding UTF-8")).
    right. vm_compute. repeat (constructor; [discriminate|]). constructor.
Defined.

(** ** Names of the converted images *)

Lemma rfind_app c t u :
  rfind c (t ++ u) =
  match rfind c u with
  | Some i => Some (length t + i)%nat
  | None => rfind c t
  end.
Proof.
  induction t as [|x t IH]; simpl.
  - by destruct (rfind c u).
  - rewrite IH. by destruct (rfind c u).
Qed.

Lemma endswith_inv ext s : endswith ext s = true -> exists t, s = t ++ ext.
Proof.
  unfold endswith. intros [t Ht]%startswith_inv. exists (rev t).
  apply (f_equal (@rev N)) in Ht.
  by rewrite rev_involutive, rev_app_distr, rev_involutive in Ht.
Qed.

Lemma path_stem_vmdk t : t <> [] -> path_stem (t ++ lit ".vmdk") = t.
Proof.
  intros Ht. unfold path_stem, suffix_index.
  rewrite rfind_app. change (rfind 46 (lit ".vmdk")) with (Some 0%nat).
  cbv beta iota. rewrite Nat.add_0_r, length_app.
  change (length (lit ".vmdk")) with 5%nat.
  destruct t as [|x t]; [done|]. simpl length.
  replace (0 <? S (length t))%nat with true by done.
  replace (S (length t) <? S (length t) + 5 - 1)%nat with true
    by (symmetry; apply Nat.ltb_lt; lia).
  cbn [andb]. change (x :: t) with ([x] ++ t) at 2.
  by rewrite (take_app_length (x :: t)).
Qed.

(** A disk [name.vmdk] is converted to [name.qcow2], so two disks of one
    directory never share an image; the one exception is a file named
    just [.vmdk], whose whole name is its stem. *)
Theorem output_names_distinct (e1 e2 : entry) :
  endswith (lit ".vmdk") (ename e1) = true ->
  endswith (lit ".vmdk") (ename e2) = true ->
  ename e1 <> lit ".vmdk" -> ename e2 <> lit ".vmdk" ->
  ename e1 = path_stem (ename e1) ++ lit ".vmdk" /\
  output_name e1 = path_stem (ename e1) ++ lit ".qcow2" /\
  (output_name e1 = output_name e2 -> ename e1 = ename e2).
Proof.
  intros [t1 H1]%endswith_inv [t2 H2]%endswith_inv Hn1 Hn2.
  assert (Ht1 : t1 <> []) by (intros ->; by rewrite H1 in Hn1).
  assert (Ht2 : t2 <> []) by (intros ->; by rewrite H2 in Hn2).
  unfold output_name. rewrite H1, H2, !path_stem_vmdk by done.
  split; [done|]. split; [done|].
  intros H. apply app_inv_tail in H. by rewrite H.
Qed.

Lemma output_names_distinct_witness :
  ename Sample.flat = path_stem (ename Sample.flat) ++ lit ".vmdk" /\
  output_name Sample.flat = path_stem (ename Sample.flat) ++ lit ".qcow2" /\
  (output_name Sample.flat = output_name Sample2.flat2 ->
   ename Sample.flat = ename Sample2.flat2).
Proof.
  apply (output_names_distinct Sample.flat Sample2.flat2);
    first [reflexivity | vm_compute; discriminate].
Defined.

(** A file named [.vmdk] and a file named [.vmdk.vmdk] are both converted
    to [.vmdk.qcow2]. *)
Example output_name_collision :
  output_name (Sample.file ".vmdk" []) = lit ".vmdk.qcow2" /\
  output_name (Sample.file ".vmdk.vmdk" []) = lit ".vmdk.qcow2".
Proof. split; vm_compute; reflexivity. Qed.

(** ** Preparing the output directory *)

Lemma copy_additional_fs w files acc s :
  exists s',
    copy_additional w files acc s
      = (Ok (acc ++ map ename (List.filter (is_copied w) files)), s') /\
    out_fs s' = fold_left (copy_into w) files (out_fs s) /\
    out_exists s' = out_exists s.
Proof.
  revert acc s. induction files as [|f files IH]; intros acc s.
  - exists s. simpl. unfold ret. by rewrite app_nil_r.
  - simpl. unfold is_copied, copy_into at 2.
    destruct (not_copied _); simpl; [apply IH|].
    destruct (edata f) as [b|]; simpl; [destruct (copy2_ok w f)|].
    + unfold bind, write_out.
      match goal with |- context [copy_additional w files ?a ?s0] =>
        destruct (IH a s0) as (s' & H & Hfs & Ho) end.
      exists s'. rewrite H, <- app_assoc. done.
    + unfold bind. rewrite echo_with_log.
      match goal with |- context [copy_additional w files ?a ?s0] =>
        destruct (IH a s0) as (s' & H & Hfs & Ho) end.
      exists s'. by rewrite H.
    + unfold bind. rewrite echo_with_log.
      match goal with |- context [copy_additional w files ?a ?s0] =>
        destruct (IH a s0) as (s' & H & Hfs & Ho) end.
      exists s'. by rewrite H.
Qed.



(** A file named just [.vmdk] has no suffix: it is among the files that
    are copied. *)
Example dot_vmdk_is_copied :
  not_copied (path_suffix (lit ".vmdk")) = false /\
  not_copied (path_suffix (lit "disk.vmdk")) = true.
Proof. split; vm_compute; reflexivity. Qed.



(** ** The probes of the validation *)

(** Validation runs [fdisk -l] once on every [.vmdk] file, in discovery
    order, and after that [file -s] once on every [.vmdk] file of at least
    1024 bytes, up to the first entry on which [stat()] fails; the error of
    that [stat()] is then raised, and without one the method returns.  It
    runs nothing else and writes nothing. *)
Theorem validation_probes (w : world) (s : state) :
  cmds (snd (validate_vmware_vm w s)) = cmds s ++ validation_trace w /\
  only_trace s (snd (validate_vmware_vm w s)) /\
  fst (validate_vmware_vm w s)
    = match first_stat_error w (vmdk_files w) with
      | Some k => Raise (os_exn k)
      | None => Ok (forallb (fun e => negb (unexcused w e)) (vmdk_files w))
      end.
Proof.
  destruct (validate_vmware_vm_total w s) as (s' & -> & Ho & Hc).
  cbn [fst snd]. split; [exact Hc|]. split; [exact Ho|reflexivity].
Qed.

(** With a dangling link after a flat disk: both are probed, the flat disk
    is sniffed, and the error of [stat()] on the link is raised. *)
Example validation_probes_dangling :
  validation_trace Sample2.w_dangling
    = [Fdisk_l (InDir (lit "disk-flat.vmdk"));
       Fdisk_l (InDir (lit "gone.vmdk"));
       File_s (InDir (lit "disk-flat.vmdk"))] /\
  fst (validate_vmware_vm Sample2.w_dangling (init_state Sample2.w_dangling))
    = Raise (FileNotFoundError No_such_file).
Proof. split; vm_compute; reflexivity. Qed.

(** ** The outcome of the verification *)

(** [verify_converted_disk] returns [True] exactly when [fdisk] ran and
    printed a partition table, and then it ran nothing else: the image is
    neither sniffed nor backed up.  Without a DOS boot sector in the
    sniffer's output no backup is made. *)
Theorem verify_outcome (w : world) (name : pystr) (s : state) :
  fst (verify_converted_disk w name s)
    = Ok match fdisk_l w (OutDir name) (out_fs s !! name) with
         | Out stdout => has_partition_table stdout
         | Raised => false
         end /\
  (fst (verify_converted_disk w name s) = Ok true ->
   snd (verify_converted_disk w name s)
     = State (vm_name s) (disk_files s) (out_exists s) (out_fs s)
             (tmp_script s) (cmds s ++ [Fdisk_l (OutDir name)])
             (log s ++ [E_partition_detected])) /\
  (forall stdout,
     file_s w (OutDir name) (out_fs s !! name) = Out stdout ->
     dos_boot_sector stdout = false ->
     out_fs (snd (verify_converted_disk w name s)) = out_fs s /\
     tmp_script (snd (verify_converted_disk w name s)) = tmp_script s).
Proof.
  unfold verify_converted_disk, attempt_boot_sector_fix, bind, echo, run_cmd,
    get, ret, write_out, write_tmp_script, dos_boot_sector.
  cbn [fst snd vm_name disk_files out_exists out_fs tmp_script cmds log].
  destruct (fdisk_l w _ _) as [|so]; cbn [fst snd out_fs tmp_script].
  { split; [done|]. split; [done|]. done. }
  destruct (has_partition_table so); cbn [fst snd out_fs tmp_script].
  { split; [done|]. split; [done|]. done. }
  destruct (file_s w _ _) as [|so2]; cbn [fst snd out_fs tmp_script].
  { split; [done|]. split; [done|]. done. }
  destruct (_ || _) eqn:Hdos; cbn [fst snd out_fs tmp_script].
  - destruct (out_fs s !! name); [destruct (cp_ok w name);
      [destruct (tmp_writable w)|]|]; cbn [fst snd out_fs tmp_script];
      (split; [done|]); (split; [done|]);
      intros stdout [= <-] Hno; by rewrite Hno in Hdos.
  - split; [done|]. split; [done|]. done.
Qed.

Lemma verify_outcome_witness :
  snd (verify_converted_disk Sample.w_flat (lit "a.qcow2")
         SampleStates.two_disks)
    = State (Some (lit "vm")) [lit "a.qcow2"; lit "b.qcow2"] true
            (out_fs SampleStates.two_disks) None
            [Fdisk_l (OutDir (lit "a.qcow2"))] [E_partition_detected].
Proof.
  apply (proj1 (proj2 (verify_outcome Sample.w_flat (lit "a.qcow2")
                         SampleStates.two_disks))).
  reflexivity.
Defined.

(** ** The conversion loop *)

Lemma info_queries_app a b :
  info_queries (a ++ b) = info_queries a ++ info_queries b.
Proof. apply omap_app. Qed.

Lemma info_queries_grew s s' :
  trace_grew reads_or_copies s s' ->
  info_queries (cmds s') = info_queries (cmds s).
Proof.
  intros (x & -> & Hx). rewrite info_queries_app.
  assert (info_queries x = []) as ->; [|by rewrite app_nil_r].
  clear s s'. induction x as [|c x IH]; [done|]. simpl in Hx.
  apply andb_true_iff in Hx as [Hc Hx].
  destruct c; try discriminate Hc; exact (IH Hx).
Qed.

Lemma is_Some_insert_mono (m : gmap pystr (list byte)) k k' v :
  is_Some (m !! k) -> is_Some (<[k' := v]> m !! k).
Proof.
  intros H. destruct (decide (k' = k)) as [->|Hne].
  - rewrite lookup_insert_eq. by eexists.
  - by rewrite lookup_insert_ne.
Qed.

Lemma backup_frame_mono name s s' k :
  backup_frame name s s' ->
  is_Some (out_fs s !! k) -> is_Some (out_fs s' !! k).
Proof.
  intros (_ & _ & _ & [->|(image & _ & ->)]) H; [done|].
  by apply is_Some_insert_mono.
Qed.

Ltac queries_done :=
  rewrite ?info_queries_app; unfold info_queries;
  cbn [omap list_omap]; rewrite ?app_nil_r, <- ?app_assoc; reflexivity.

(** What one round of the loop does, whatever the tools answer. *)
Ltac after_verify :=
  let b := fresh "b" in let s1 := fresh "s1" in
  let Hf := fresh "Hf" in let Ht := fresh "Ht" in
  run_verify b s1 Hf Ht; run_monad;
  eexists _, _; (split; [reflexivity|]);
  cbn [vm_name out_exists out_fs cmds disk_files];
  pose proof (backup_frame_lookup _ _ _ Hf) as Hl;
  pose proof (info_queries_grew _ _ Ht) as Hq;
  pose proof Hf as (Hn & Hd & Ho & _);
  rewrite Hn, Hd, Ho, Hq, Hl;
  cbn [vm_name out_exists out_fs cmds disk_files];
  rewrite lookup_insert_eq;
  repeat split; try done; try queries_done;
  intros k Hk; (eapply backup_frame_mono; [exact Hf|]);
  cbn [out_fs]; by apply is_Some_insert_mono.

Ltac failed_round :=
  eexists _, _; (split; [reflexivity|]);
  cbn [vm_name out_exists out_fs cmds disk_files];
  repeat split; try done; try queries_done.

Lemma convert_one_frame w i n vmdk s :
  exists r s',
    convert_one w i n vmdk s = (r, s') /\
    vm_name s' = vm_name s /\ out_exists s' = out_exists s /\
    (forall k, is_Some (out_fs s !! k) -> is_Some (out_fs s' !! k)) /\
    info_queries (cmds s') = info_queries (cmds s) ++ [ename vmdk] /\
    match r with
    | Ok _ =>
        converts w vmdk = true /\
        disk_files s' = disk_files s ++ [output_name vmdk] /\
        is_Some (out_fs s' !! output_name vmdk)
    | Raise e =>
        converts w vmdk = false /\
        disk_files s' = disk_files s /\
        (e = RuntimeError (Failed_to_convert (ename vmdk)) \/
         e = JSONDecodeError)
    end.
Proof.
  unfold convert_one, converts. fold (output_name vmdk).
  destruct (qemu_info w vmdk) as [| |f] eqn:Hinfo; run_monad.
  - failed_round. by left.
  - failed_round. by right.
  - assert (Hst : stat_error w vmdk = None)
      by (apply qemu_info_stat; by rewrite Hinfo).
    destruct (bool_decide (default (lit "vmdk") f = lit "raw")).
    + destruct (qemu_convert w (lit "vmdk") vmdk) as [image|]; run_monad.
      * after_verify.
      * rewrite Hst.
        destruct (qemu_convert w (lit "raw") vmdk) as [image|]; run_monad.
        -- after_verify.
        -- failed_round. by left.
    + destruct (qemu_convert w (default (lit "vmdk") f) vmdk) as [image|];
        run_monad.
      * after_verify.
      * failed_round. by left.
Qed.

(** The loop of [convert_disk_images], by induction on the targets. *)
Lemma convert_loop_spec w i n targets s :
  let r := convert_loop w i n targets s in
  vm_name (snd r) = vm_name s /\ out_exists (snd r) = out_exists s /\
  (forall k, is_Some (out_fs s !! k) -> is_Some (out_fs (snd r) !! k)) /\
  match fst r with
  | Ok _ =>
      forallb (converts w) targets = true /\
      disk_files (snd r) = disk_files s ++ map output_name targets /\
      info_queries (cmds (snd r))
        = info_queries (cmds s) ++ map ename targets /\
      Forall (fun t => is_Some (out_fs (snd r) !! output_name t)) targets
  | Raise e =>
      exists pre bad post,
        targets = pre ++ bad :: post /\
        forallb (converts w) pre = true /\ converts w bad = false /\
        disk_files (snd r) = disk_files s ++ map output_name pre /\
        info_queries (cmds (snd r))
          = info_queries (cmds s) ++ map ename pre ++ [ename bad] /\
        Forall (fun t => is_Some (out_fs (snd r) !! output_name t)) pre /\
        (e = RuntimeError (Failed_to_convert (ename bad)) \/
         e = JSONDecodeError)
  end.
Proof.
  revert i s. induction targets as [|vmdk rest IH]; intros i s.
  - cbn. rewrite !app_nil_r. repeat split; done.
  - cbn [convert_loop]. cbv zeta.
    destruct (convert_one_frame w i n vmdk s)
      as (r1 & s1 & H1 & Hn & Ho & Hfs & Hq & Hr).
    destruct r1 as [[]|e].
    + destruct Hr as (Hc & Hd & Hout).
      rewrite (bind_ok _ _ _ _ _ H1).
      specialize (IH (S i) s1). cbv zeta in IH.
      destruct IH as (IHn & IHo & IHfs & IHr).
      rewrite IHn, IHo, Hn, Ho.
      split; [done|]. split; [done|]. split; [by auto|].
      destruct (fst (convert_loop w (S i) n rest s1)) as [[]|e].
      * destruct IHr as (Hall & Hdf & Hqs & Hex).
        cbn [forallb map]. rewrite Hc, Hall, Hdf, Hd, Hqs, Hq.
        rewrite <- !app_assoc. repeat split; try done.
        constructor; [by apply IHfs|done].
      * destruct IHr as (pre & bad & post & -> & Hall & Hbad & Hdf & Hqs
                         & Hex & He).
        exists (vmdk :: pre), bad, post.
        cbn [forallb map app]. rewrite Hc, Hall, Hdf, Hd, Hqs, Hq.
        rewrite <- !app_assoc. repeat split; try done.
        constructor; [by apply IHfs|done].
    + destruct Hr as (Hc & Hd & He).
      rewrite (bind_raise _ _ _ _ _ H1). cbn [fst snd].
      split; [done|]. split; [done|]. split; [done|].
      exists [], vmdk, rest. cbn [forallb map app].
      rewrite Hd, Hq, app_nil_r. repeat split; done.
Qed.

(** The loop of [convert_disk_images] converts the targets in order and
    stops at the first one that [qemu-img] cannot inspect or convert.  When
    it completes, every target converts, [disk_files] has grown by the
    output names in target order, each target was inspected exactly once
    and every output image exists.  When it raises, the targets split into
    those before the failing one, which are converted and recorded, the
    failing one, and those after it, which were never inspected; the
    exception is [RuntimeError] ("Failed to convert") for the failing disk,
    or [JSONDecodeError] when [qemu-img info] printed no JSON.  In both
    cases the VM name and the output directory are kept and no file of the
    output directory disappears. *)
Theorem convert_loop_outcome (w : world) (i n : nat) (targets : list entry)
    (s : state) :
  let r := convert_loop w i n targets s in
  vm_name (snd r) = vm_name s /\ out_exists (snd r) = out_exists s /\
  (forall k, is_Some (out_fs s !! k) -> is_Some (out_fs (snd r) !! k)) /\
  match fst r with
  | Ok _ =>
      forallb (converts w) targets = true /\
      disk_files (snd r) = disk_files s ++ map output_name targets /\
      info_queries (cmds (snd r))
        = info_queries (cmds s) ++ map ename targets /\
      Forall (fun t => is_Some (out_fs (snd r) !! output_name t)) targets
  | Raise e =>
      exists pre bad post,
        targets = pre ++ bad :: post /\
        forallb (converts w) pre = true /\ converts w bad = false /\
        disk_files (snd r) = disk_files s ++ map output_name pre /\
        info_queries (cmds (snd r))
          = info_queries (cmds s) ++ map ename pre ++ [ename bad] /\
        Forall (fun t => is_Some (out_fs (snd r) !! output_name t)) pre /\
        (e = RuntimeError (Failed_to_convert (ename bad)) \/
         e = JSONDecodeError)
  end.
Proof. exact (convert_loop_spec w i n targets s). Qed.

(** The loop on two flat disks of which [qemu-img] converts only the
    first. *)
Lemma convert_loop_outcome_witness :
  let r := convert_loop Sample2.w_second_fails 1 2
             [Sample.flat; Sample2.flat2]
             (init_state Sample2.w_second_fails) in
  fst r = Raise (RuntimeError (Failed_to_convert (lit "data2.vmdk"))) /\
  disk_files (snd r) = [lit "disk-flat.qcow2"] /\
  (forall k, is_Some (out_fs (init_state Sample2.w_second_fails) !! k) ->
             is_Some (out_fs (snd r) !! k)).
Proof.
  pose proof (convert_loop_outcome Sample2.w_second_fails 1 2
                [Sample.flat; Sample2.flat2]
                (init_state Sample2.w_second_fails)) as H.
  cbv zeta in *. destruct H as (_ & _ & Hfs & _).
  split; [vm_compute; reflexivity|]. split; [vm_compute; reflexivity|].
  exact Hfs.
Defined.

(** ** Failures of the descriptor generator *)

(** A list of names either all exist in [fs] or splits at the first one
    that does not. *)
Lemma first_missing (fs : gmap pystr (list byte)) (files : list pystr) :
  Forall (fun f => is_Some (fs !! f)) files \/
  exists pre f post,
    files = pre ++ f :: post /\
    Forall (fun f => is_Some (fs !! f)) pre /\ fs !! f = None.
Proof.
  induction files as [|g files IH]; [by left|].
  destruct (fs !! g) as [b|] eqn:Hg.
  - destruct IH as [Hall|(pre & f & post & -> & Hpre & Hf)].
    + left. constructor; [by eexists|done].
    + right. exists (g :: pre), f, post. repeat split; [|done].
      constructor; [by eexists|done].
  - right. exists [], g, files. by repeat split.
Qed.

(** The two failures of [generate_libvirt_xml], and its result. *)
Lemma generate_libvirt_xml_cases w cfg s :
  N.of_nat (length (disk_files s)) <= max_disks ->
  let r := generate_libvirt_xml w cfg s in
  snd r = s /\
  match fst r with
  | Ok xml =>
      Forall (fun f => is_Some (out_fs s !! f)) (disk_files s) /\
      exists memory_mb,
        py_int w (default (lit "1024") (cfg !! lit "memsize"))
          = Some memory_mb /\
        xml = xml_template (vm_name_str s) (fresh_uuid w)
                (str_of_Z (memory_mb * 1024))
                (default (lit "1") (cfg !! lit "numvcpus"))
                (join [10] (disk_entries w (disk_files s)))
  | Raise e =>
      (exists pre f post,
         disk_files s = pre ++ f :: post /\
         Forall (fun f => is_Some (out_fs s !! f)) pre /\
         out_fs s !! f = None /\
         e = FileNotFoundError (Disk_file_missing (resolve w f))) \/
      (Forall (fun f => is_Some (out_fs s !! f)) (disk_files s) /\
       py_int w (default (lit "1024") (cfg !! lit "memsize")) = None /\
       e = ValueError)
  end.
Proof.
  intros Hbound. cbv zeta.
  destruct (first_missing (out_fs s) (disk_files s))
    as [Hall|(pre & f & post & Hsplit & Hpre & Hf)].
  - destruct (py_int w (default (lit "1024") (cfg !! lit "memsize")))
      as [mb|] eqn:Hint.
    + rewrite (generate_libvirt_xml_ok w cfg s mb Hbound Hall Hint).
      cbn [fst snd]. cbv beta iota. split; [done|]. split; [done|].
      exists mb. split; reflexivity.
    + assert (generate_libvirt_xml w cfg s = (Raise ValueError, s)) as ->.
      { unfold generate_libvirt_xml. unfold bind at 1. unfold get at 1.
        rewrite (bind_ok _ _ _ (disk_entries w (disk_files s)) s), Hint.
        - reflexivity.
        - rewrite disk_xml_loop_ok by done. reflexivity. }
      cbn [fst snd]. cbv beta iota. split; [done|]. right.
      by repeat split.
  - assert (generate_libvirt_xml w cfg s =
            (Raise (FileNotFoundError (Disk_file_missing (resolve w f))), s))
      as ->.
    { unfold generate_libvirt_xml. unfold bind at 1. unfold get at 1.
      apply bind_raise. rewrite Hsplit.
      apply disk_xml_loop_missing; [done|done|].
      rewrite Hsplit, length_app in Hbound. simpl in Hbound. lia. }
    cbn [fst snd]. cbv beta iota. split; [done|]. left.
    by exists pre, f, post.
Qed.



(** ** A complete run *)

Lemma disk_xml_loop_ok_bound w files i parts s r s' :
  disk_xml_loop w i files parts s = (Ok r, s') ->
  files <> [] -> N.of_nat (i + length files) <= max_disks.
Proof.
  revert i parts. induction files as [|f files IH]; intros i parts H Hne;
    [done|].
  simpl in H. unfold bind at 1 in H. unfold get at 1 in H.
  destruct (out_fs s !! f); [|done].
  destruct (py_chr (97 + N.of_nat i)) as [c|] eqn:Hc; [|done].
  unfold py_chr in Hc. destruct (N.leb_spec (97 + N.of_nat i) 0x10FFFF);
    [|done].
  destruct files as [|g files].
  - simpl. unfold max_disks. lia.
  - specialize (IH (S i) _ H ltac:(done)). simpl in *. lia.
Qed.

Lemma generate_libvirt_xml_ok_inv w cfg s xml s' :
  generate_libvirt_xml w cfg s = (Ok xml, s') ->
  s' = s /\
  Forall (fun f => is_Some (out_fs s !! f)) (disk_files s) /\
  exists memory_mb,
    py_int w (default (lit "1024") (cfg !! lit "memsize")) = Some memory_mb /\
    xml = xml_template (vm_name_str s) (fresh_uuid w)
            (str_of_Z (memory_mb * 1024))
            (default (lit "1") (cfg !! lit "numvcpus"))
            (join [10] (disk_entries w (disk_files s))).
Proof.
  intros H.
  assert (Hbound : N.of_nat (length (disk_files s)) <= max_disks).
  { pose proof H as H'. unfold generate_libvirt_xml in H'.
    unfold bind at 1 in H'. unfold get at 1 in H'.
    apply bind_inv_ok in H' as (parts & s1 & Hl & _).
    destruct (disk_files s) as [|f fs] eqn:Hd; [by vm_compute|].
    by apply (disk_xml_loop_ok_bound _ _ 0%nat _ _ _ _ Hl). }
  pose proof (generate_libvirt_xml_cases w cfg s Hbound) as Hc.
  cbv zeta in Hc. rewrite H in Hc. cbn [fst snd] in Hc.
  destruct Hc as (-> & Hall & Hx). done.
Qed.

Lemma copy_into_mono (w : world) (files : list entry) (fs : gmap pystr (list byte))
    (k : pystr) :
  is_Some (fs !! k) -> is_Some (fold_left (copy_into w) files fs !! k).
Proof.
  revert fs. induction files as [|f files IH]; intros fs H; [done|].
  simpl. apply IH. unfold copy_into. destruct (not_copied _); [done|].
  destruct (edata f); [|done]. destruct (copy2_ok w f); [|done].
  by apply is_Some_insert_mono.
Qed.

Lemma create_output_structure_fs w s s' :
  create_output_structure w s = (Ok tt, s') ->
  forall k, is_Some (out_fs s !! k) -> is_Some (out_fs s' !! k).
Proof.
  intros H k Hk. unfold create_output_structure in H.
  apply bind_inv_ok in H as (s0 & ? & [= <- <-] & H).
  apply bind_inv_ok in H as ([] & s1 & H1 & H).
  assert (Hfs : out_fs s1 = out_fs s).
  { destruct (negb (out_exists s)).
    - destruct (mkdir_out w); [|done].
      by injection H1 as <-.
    - destruct (iterdir_out w); [done|].
      destruct (negb _); [destruct (confirm w); [|done]|];
        by injection H1 as <-. }
  destruct (copy_additional_fs w (glob_dotted (in_files w)) [] s1)
    as (s2 & Hc & Hfs2 & _).
  rewrite (bind_ok _ _ _ _ _ Hc) in H.
  assert (out_fs s' = out_fs s2) as ->.
  { destruct ([] ++ _); [by injection H as <-|].
    rewrite echo_with_log in H. by injection H as <-. }
  rewrite Hfs2, Hfs. by apply copy_into_mono.
Qed.

Lemma get_targets_ok w s targets s' :
  get_disk_conversion_targets w s = (Ok targets, s') ->
  targets = conversion_targets w /\ targets <> [] /\
  exists l, s' = with_log l s.
Proof.
  rewrite get_targets_spec. unfold conversion_targets.
  destruct (vmdk_files w) as [|v vs] eqn:Hv; [done|].
  destruct (descriptor_files w) as [|d ds] eqn:Hd.
  - intros [= <- <-]. split; [done|]. split; [|by eexists].
    rewrite descriptor_files_filter in Hd. rewrite data_files_filter.
    rewrite Hv in *. cbn [List.filter] in *.
    destruct (is_descriptor v); simpl in *; done.
  - destruct (List.filter is_selected (d :: ds)) as [|t ts]; [done|].
    intros [= <- <-]. split; [done|]. split; [done|]. by eexists.
Qed.

Lemma convert_disk_images_ok_inv w s s' :
  convert_disk_images w s = (Ok tt, s') ->
  conversion_targets w <> [] /\
  forallb (converts w) (conversion_targets w) = true /\
  vm_name s' = vm_name s /\ out_exists s' = out_exists s /\
  (forall k, is_Some (out_fs s !! k) -> is_Some (out_fs s' !! k)) /\
  disk_files s' = disk_files s ++ map output_name (conversion_targets w) /\
  info_queries (cmds s')
    = info_queries (cmds s) ++ map ename (conversion_targets w) /\
  Forall (fun t => is_Some (out_fs s' !! output_name t))
         (conversion_targets w).
Proof.
  intros H. unfold convert_disk_images in H.
  apply bind_inv_ok in H as ([] & s1 & [= <-] & H).
  apply bind_inv_ok in H as ([] & s2 & [= <-] & H).
  destruct (negb (qemu_available w)); [done|].
  apply bind_inv_ok in H as (targets & s3 & Ht & H).
  apply get_targets_ok in Ht as (-> & Hne & l & ->).
  apply bind_inv_ok in H as ([] & s4 & [= <-] & H).
  match type of H with convert_loop w ?i ?n ?t ?s0 = _ =>
    pose proof (convert_loop_spec w i n t s0) as Hl end.
  cbv zeta in Hl. rewrite H in Hl. cbn [fst snd] in Hl.
  destruct Hl as (Hn & Ho & Hfs & Hall & Hd & Hq & Hex).
  cbn [vm_name out_exists out_fs disk_files cmds with_log] in *.
  rewrite info_queries_app in Hq. cbn [info_queries omap list_omap] in Hq.
  rewrite app_nil_r in Hq. done.
Qed.

Lemma validate_input_ok_inv w s s' :
  validate_input w s = (Ok tt, s') ->
  exists vmx rest,
    glob_ext (lit ".vmx") (in_files w) = vmx :: rest /\
    vm_name s' = Some (path_stem (ename vmx)) /\
    disk_files s' = disk_files s /\ out_exists s' = out_exists s /\
    out_fs s' = out_fs s /\ cmds s' = cmds s.
Proof.
  unfold validate_input.
  destruct (negb (in_exists w)); [done|].
  destruct (negb (in_is_dir w)); [done|].
  destruct (glob_ext (lit ".vmx") (in_files w)) as [|vmx rest]; [done|].
  intros [= <-]. by exists vmx, rest.
Qed.

(** What a completed [try] block of [main] leaves behind. *)
Lemma main_body_success w s :
  main_body w (init_state w) = (Ok tt, s) ->
  exists vmx rest memory_mb b,
    glob_ext (lit ".vmx") (in_files w) = vmx :: rest /\
    vm_name s = Some (path_stem (ename vmx)) /\
    out_exists s = true /\
    conversion_targets w <> [] /\
    forallb (converts w) (conversion_targets w) = true /\
    disk_files s = map output_name (conversion_targets w) /\
    info_queries (cmds s) = map ename (conversion_targets w) /\
    Forall (fun f => is_Some (out_fs s !! f)) (disk_files s) /\
    py_int w (default (lit "1024") (vmx_config_of vmx !! lit "memsize"))
      = Some memory_mb /\
    encode_text w
      (xml_template (path_stem (ename vmx)) (fresh_uuid w)
         (str_of_Z (memory_mb * 1024))
         (default (lit "1") (vmx_config_of vmx !! lit "numvcpus"))
         (join [10]
            (disk_entries w (map output_name (conversion_targets w)))))
      = Some b /\
    out_fs s !! (path_stem (ename vmx) ++ lit ".xml") = Some b /\
    (forall k, is_Some (out_fs0 w !! k) -> is_Some (out_fs s !! k)).
Proof.
  unfold main_body. intros H.
  apply bind_inv_ok in H as ([] & s0 & [= <-] & H).
  apply bind_inv_ok in H as ([] & s1 & Hin & H).
  apply validate_input_ok_inv in Hin
    as (vmx & rest & Hg & Hn1 & Hd1 & Ho1 & Hf1 & Hc1).
  cbn [disk_files out_exists out_fs cmds init_state] in Hd1, Ho1, Hf1, Hc1.
  apply bind_inv_ok in H as (valid & s2 & Hv & H).
  destruct (validate_vmware_vm_total w s1) as (s2' & Hv' & Ht2 & Hc2).
  rewrite Hv' in Hv.
  destruct (first_stat_error w (vmdk_files w)); [done|].
  injection Hv as _ ->.
  assert (Hg2 : trace_grew is_probe s1 s2).
  { eapply trace_grew_cmds; [exact Hc2|apply validation_trace_probes]. }
  destruct Ht2 as (Hn2 & Hd2 & Ho2 & Hf2 & _).
  assert (Hq2 : info_queries (cmds s2) = info_queries (cmds s1)).
  { apply info_queries_grew.
    apply (trace_grew_weaken is_probe reads_or_copies); [by intros []|done]. }
  apply bind_inv_ok in H as ([] & s3 & Hif & H).
  assert (s3 = s2) as ->.
  { destruct valid; [by injection Hif|]. by apply bind_inv_ok in Hif
      as (? & ? & _ & ?). }
  clear Hif.
  apply bind_inv_ok in H as ([] & s4 & Hcr & H).
  pose proof (create_output_structure_fs _ _ _ Hcr) as Hf4.
  destruct (create_output_structure_spec w s2)
    as (r4 & s4' & Hcr' & Hn4 & Hd4 & Hc4 & Ho4).
  rewrite Hcr' in Hcr. injection Hcr as -> ->.
  apply bind_inv_ok in H as ([] & s5 & Hcv & H).
  apply convert_disk_images_ok_inv in Hcv
    as (Hne & Hall & Hn5 & Ho5 & Hf5 & Hd5 & Hq5 & Hex5).
  rewrite Hg in H.
  apply bind_inv_ok in H as (vmx_file & s6 & [= <- <-] & H).
  apply bind_inv_ok in H as ([] & s6 & [= <-] & H).
  apply bind_inv_ok in H as (cfg & s7 & Hp & H).
  assert (cfg = vmx_config_of vmx /\ s7 = with_log
            [E_processing_config (ename vmx)] s5) as [-> ->].
  { unfold parse_vmx_config, vmx_config_of in *.
    destruct (edata vmx); [by injection Hp as <- <-|done]. }
  apply bind_inv_ok in H as (xml & s8 & Hgen & H).
  apply generate_libvirt_xml_ok_inv in Hgen
    as (-> & Hex & memory_mb & Hint & ->).
  apply bind_inv_ok in H as (sg & s9 & [= <- <-] & H).
  apply bind_inv_ok in H as ([] & s10 & Hw & H).
  injection H as <-.
  assert (Hn : vm_name s5 = Some (path_stem (ename vmx)))
    by congruence.
  assert (Hd : disk_files s5 = map output_name (conversion_targets w)).
  { rewrite Hd5, Hd4, Hd2, Hd1. reflexivity. }
  assert (Hq : info_queries (cmds s5) = map ename (conversion_targets w)).
  { rewrite Hq5, Hc4, Hq2, Hc1. reflexivity. }
  unfold vm_name_str in *.
  cbn [vm_name disk_files out_exists out_fs cmds with_log] in *.
  rewrite Hn in *. cbn [default from_option] in *. rewrite Hd in Hw.
  match type of Hw with
  | match encode_text w ?x with _ => _ end _ = _ =>
      destruct (encode_text w x) as [b|] eqn:Henc
  end; [|done].
  injection Hw as <-.
  cbn [vm_name disk_files out_exists out_fs cmds] in *.
  exists vmx, rest, memory_mb, b.
  rewrite lookup_insert_eq.
  split; [done|]. split; [done|]. split; [by rewrite Ho5|].
  split; [done|]. split; [done|]. split; [done|]. split; [done|].
  split.
  { apply List.Forall_forall. intros f Hf.
    apply is_Some_insert_mono.
    by apply (proj1 (List.Forall_forall _ _) Hex). }
  split; [done|]. split; [done|]. split; [done|].
  intros k Hk. apply is_Some_insert_mono, Hf5, Hf4.
  by rewrite Hf2, Hf1.
Qed.

(** The one [SystemExit] of the [try] block follows the message that the
    validation failed. *)
Lemma main_body_exit_inv w c s :
  main_body w (init_state w) = (Raise (SystemExit c), s) ->
  last (log s) = Some E_aborted_validation.
Proof.
  unfold main_body. intros H.
  apply bind_inv_raise in H as [H|([] & s0 & _ & H)]; [done|].
  apply bind_inv_raise in H as [H|([] & s1 & _ & H)];
    [apply validate_input_not_exit in H; discriminate H|].
  apply bind_inv_raise in H as [H|(valid & s2 & _ & H)];
    [apply validate_vmware_vm_not_exit in H; discriminate H|].
  apply bind_inv_raise in H as [H|([] & s3 & _ & H)].
  - destruct valid; [done|]. unfold bind, echo, raise in H.
    injection H as _ <-. cbn [log]. apply last_snoc.
  - exfalso. revert H.
    match goal with |- ?m ?s0 = _ -> _ =>
      assert (raises_only not_exit m) as Hro end.
    { repeat first
        [ apply create_output_structure_not_exit
        | apply convert_disk_images_not_exit
        | apply parse_vmx_config_not_exit
        | apply generate_libvirt_xml_not_exit
        | ro_step ]. }
    intros H. apply Hro in H. discriminate H.
Qed.

(** ** The whole command *)

(** The status and the last message of [main] called with both
    arguments. *)
Lemma main_last_message (w : world) :
  (fst (main w) = 0%Z \/ fst (main w) = 1%Z) /\
  exists m,
    last (log (snd (main w))) = Some m /\
    match m with
    | E_completed_successfully _ => fst (main w) = 0%Z
    | E_error e =>
        fst (main w) = 1%Z /\ (is_os_error e || is_runtime_error e) = true
    | E_unexpected e =>
        fst (main w) = 1%Z /\ (is_os_error e || is_runtime_error e) = false
    | E_aborted_validation => fst (main w) = 1%Z
    | _ => False
    end.
Proof.
  pose proof (main_status w) as Hm.
  destruct (main w) as [code sf] eqn:Hmain. unfold main in Hmain.
  destruct (main_body w (init_state w)) as [[[]|e] s] eqn:Hb.
  - injection Hm as -> ->. split; [by left|].
    destruct (main_body_ok_inv w s Hb)
      as (_ & _ & _ & _ & _ & x & _ & _ & Hl).
    by exists (E_completed_successfully x).
  - cbn [fst snd] in *. subst code. split; [by right|].
    destruct (is_os_error e) eqn:Hos.
    { injection Hmain as <-. exists (E_error e). cbn [log_final log].
      rewrite last_snoc, Hos. done. }
    destruct (is_runtime_error e) eqn:Hrt.
    { injection Hmain as <-. exists (E_error e). cbn [log_final log].
      rewrite last_snoc, Hos, Hrt. done. }
    destruct (is_abort e) eqn:Hab; [by destruct e|].
    destruct (negb (is_system_exit e)) eqn:Hex.
    { injection Hmain as <-. exists (E_unexpected e). cbn [log_final log].
      rewrite last_snoc, Hos, Hrt. done. }
    destruct e; try discriminate Hex.
    injection Hmain as _ <-. exists E_aborted_validation.
    split; [|done]. by eapply main_body_exit_inv.
Qed.

(** A run that ends with status 0 found a [.vmx] file and at least one
    conversion target; every target was inspected once, in order, and
    converted; the recorded disks are the output names of the targets, in
    target order, and all exist in the output directory; the descriptor,
    filled from the configuration of the first [.vmx] file, is written to
    the output directory under the VM name; and no file that was in the
    output directory before the run has disappeared. *)
Theorem main_success (w : world) :
  fst (main w) = 0%Z ->
  let s := snd (main w) in
  exists vmx rest memory_mb b,
    glob_ext (lit ".vmx") (in_files w) = vmx :: rest /\
    vm_name s = Some (path_stem (ename vmx)) /\
    out_exists s = true /\
    conversion_targets w <> [] /\
    forallb (converts w) (conversion_targets w) = true /\
    disk_files s = map output_name (conversion_targets w) /\
    info_queries (cmds s) = map ename (conversion_targets w) /\
    Forall (fun f => is_Some (out_fs s !! f)) (disk_files s) /\
    py_int w (default (lit "1024") (vmx_config_of vmx !! lit "memsize"))
      = Some memory_mb /\
    encode_text w
      (xml_template (path_stem (ename vmx)) (fresh_uuid w)
         (str_of_Z (memory_mb * 1024))
         (default (lit "1") (vmx_config_of vmx !! lit "numvcpus"))
         (join [10]
            (disk_entries w (map output_name (conversion_targets w)))))
      = Some b /\
    out_fs s !! (path_stem (ename vmx) ++ lit ".xml") = Some b /\
    (forall k, is_Some (out_fs0 w !! k) -> is_Some (out_fs s !! k)).
Proof.
  intros Hstatus. pose proof (main_status w) as Hm.
  destruct (main_body w (init_state w)) as [[[]|e] s] eqn:Hb.
  - rewrite Hm. cbn [snd]. by apply main_body_success.
  - rewrite Hm in Hstatus. discriminate Hstatus.
Qed.

(** The run on the split disk: one descriptor, one image, one
    descriptor file. *)
Lemma main_success_witness :
  fst (main Sample.w_split) = 0%Z /\
  disk_files (snd (main Sample.w_split)) = [lit "disk.qcow2"] /\
  is_Some (out_fs (snd (main Sample.w_split)) !! lit "vm.xml").
Proof.
  assert (H0 : fst (main Sample.w_split) = 0%Z) by (vm_compute; reflexivity).
  destruct (main_success Sample.w_split H0)
    as (vmx & rest & mb & b & Hg & _ & _ & _ & _ & Hd & _ & _ & _ & _ & Hx & _).
  split; [exact H0|]. split.
  - rewrite Hd. vm_compute. reflexivity.
  - assert (vmx = Sample.vmx) as ->.
    { revert Hg. vm_compute. by intros [= <- _]. }
    revert Hx. vm_compute. intros ->. by eexists.
Defined.

(** What [main] leaves behind when [validate_input] fails. *)
Lemma main_bad_input (w : world) :
  in_exists w = false \/ in_is_dir w = false \/
  glob_ext (lit ".vmx") (in_files w) = [] ->
  let s := snd (main w) in
  fst (main w) = 1%Z /\
  cmds s = [] /\ disk_files s = [] /\ vm_name s = None /\
  out_exists s = out_exists0 w /\ out_fs s = out_fs0 w /\
  exists e, is_os_error e = true /\ log s = [E_starting; E_error e].
Proof.
  intros H. cbv zeta.
  assert (exists e, is_os_error e = true /\
            validate_input w (with_log [E_starting] (init_state w))
              = (Raise e, with_log [E_starting] (init_state w)))
    as (e & He & Hv).
  { unfold validate_input.
    destruct (in_exists w); cbn [negb];
      [|eexists; split; [|reflexivity]; reflexivity].
    destruct (in_is_dir w); cbn [negb];
      [|eexists; split; [|reflexivity]; reflexivity].
    destruct H as [H|[H|H]]; [done|done|]. rewrite H.
    eexists; split; [|reflexivity]; reflexivity. }
  assert (main w = (1%Z, log_final (E_error e)
                           (with_log [E_starting] (init_state w)))) as ->.
  { unfold main, main_body. unfold bind at 1. rewrite echo_with_log.
    rewrite (bind_raise _ _ _ _ _ Hv). by rewrite He. }
  cbn [fst snd log_final with_log init_state cmds disk_files vm_name
       out_exists out_fs log app].
  do 6 (split; [reflexivity|]). exists e. split; [exact He|reflexivity].
Qed.

(** Every run of the command ends with status 0, 1 or 2, and its last
    message tells which: the help text or "Conversion completed
    successfully" with status 0; click's usage error with status 2; with
    status 1 the notice that both arguments are required, the error
    report of the first or second handler, the report of an unexpected
    error, or the message that the validation failed.  No run ends with
    "Conversion cancelled by user". *)
Theorem command_exit_status (w : world) :
  (fst (command w) = 0%Z \/ fst (command w) = 1%Z \/ fst (command w) = 2%Z) /\
  exists m,
    last (log (snd (command w))) = Some m /\
    match m with
    | E_completed_successfully _ => fst (command w) = 0%Z
    | E_help => fst (command w) = 0%Z /\ cmdline w = Cl_help
    | E_usage_error => fst (command w) = 2%Z
    | E_arguments_required =>
        fst (command w) = 1%Z /\
        exists i o, cmdline w = Cl_arguments i o /\ i && o = false
    | E_error e =>
        fst (command w) = 1%Z /\ (is_os_error e || is_runtime_error e) = true
    | E_unexpected e =>
        fst (command w) = 1%Z /\ (is_os_error e || is_runtime_error e) = false
    | E_aborted_validation => fst (command w) = 1%Z
    | _ => False
    end.
Proof.
  unfold command, main_callback.
  destruct (cmdline w) as [| |i o] eqn:Hcl.
  - cbn [fst snd log_final log]. split; [auto|].
    exists E_usage_error. by rewrite last_snoc.
  - cbn [fst snd log_final log]. split; [auto|].
    exists E_help. by rewrite last_snoc.
  - destruct (_ || _).
    { cbn [fst snd log_final log]. split; [auto|].
      exists E_usage_error. by rewrite last_snoc. }
    destruct (i && o) eqn:Hio.
    + destruct (main_last_message w) as (Hst & m & Hm & Hcase).
      split; [tauto|]. exists m. split; [exact Hm|].
      destruct m; done.
    + cbn [fst snd log_final log]. split; [auto|].
      exists E_arguments_required. rewrite last_snoc.
      split; [done|]. split; [done|]. by exists i, o.
Qed.

(** The command touches nothing unless its input is in order: when a run
    has started an external command, recorded a disk, or changed the
    output directory, both arguments were given, INPUT_DIR is a readable
    directory, and it holds a [.vmx] file. *)
Theorem command_needs_valid_input (w : world) :
  let s := snd (command w) in
  cmds s <> [] \/ disk_files s <> [] \/
  out_exists s <> out_exists0 w \/ out_fs s <> out_fs0 w ->
  cmdline w = Cl_arguments true true /\
  in_exists w = true /\ in_is_dir w = true /\ in_is_file w = false /\
  in_readable w = true /\
  glob_ext (lit ".vmx") (in_files w) <> [].
Proof.
  cbv zeta. unfold command, main_callback.
  assert (Hnone : forall m,
            let s := log_final m (init_state w) in
            cmds s <> [] \/ disk_files s <> [] \/
            out_exists s <> out_exists0 w \/ out_fs s <> out_fs0 w -> False).
  { intros m s0 [H|[H|[H|H]]]; by apply H. }
  destruct (cmdline w) as [| |i o]; [intros H; by apply Hnone in H..|].
  destruct (i && path_rejected true (in_exists w) (in_is_file w)
                   (in_readable w)) eqn:Hin;
    [intros H; by apply Hnone in H|].
  destruct (o && _); [intros H; by apply Hnone in H|]. cbn [orb].
  destruct i; [|intros H; by apply Hnone in H].
  destruct o; [|intros H; by apply Hnone in H].
  cbn [andb] in *. intros Htouch.
  unfold path_rejected in Hin.
  destruct (in_exists w) eqn:Hex; [|done].
  apply orb_false_iff in Hin as [Hfile Hread].
  apply negb_false_iff in Hread.
  destruct (in_is_dir w) eqn:Hdir.
  - destruct (glob_ext (lit ".vmx") (in_files w)) eqn:Hg; [|done].
    exfalso.
    destruct (main_bad_input w ltac:(auto)) as (_ & Hc & Hd & _ & Ho & Hf & _).
    destruct Htouch as [H|[H|[H|H]]]; by apply H.
  - exfalso.
    destruct (main_bad_input w ltac:(auto)) as (_ & Hc & Hd & _ & Ho & Hf & _).
    destruct Htouch as [H|[H|[H|H]]]; by apply H.
Qed.

(** The run on a flat disk has started commands: its input was in
    order. *)
Lemma command_needs_valid_input_witness :
  cmdline Sample.w_flat = Cl_arguments true true /\
  in_exists Sample.w_flat = true /\ in_is_dir Sample.w_flat = true /\
  in_is_file Sample.w_flat = false /\ in_readable Sample.w_flat = true /\
  glob_ext (lit ".vmx") (in_files Sample.w_flat) <> [].
Proof.
  apply (command_needs_valid_input Sample.w_flat).
  left. vm_compute. discriminate.
Defined.

(** Runs of the command that end before or outside the conversion. *)
Example command_runs :
  fst (command Sample2.w_missing_input) = 2%Z /\
  fst (command Sample2.w_input_is_file) = 2%Z /\
  command Sample2.w_no_output
    = (1%Z, log_final E_arguments_required (init_state Sample2.w_no_output)) /\
  fst (command Sample2.w_help) = 0%Z /\
  fst (command Sample.w_flat) = 0%Z /\
  (fst (command Sample2.w_vmx_directory) = 1%Z /\
   last (log (snd (command Sample2.w_vmx_directory)))
     = Some (E_unexpected IsADirectoryError)) /\
  (fst (command Sample2.w_mkdir_fails) = 1%Z /\
   last (log (snd (command Sample2.w_mkdir_fails)))
     = Some (E_error NotADirectoryError)).
Proof. repeat split; vm_compute; reflexivity. Qed.

(** ** The raw fallback within a run *)

Lemma convert_loop_app w i n l1 l2 s :
  convert_loop w i n (l1 ++ l2) s
  = (convert_loop w i n l1 ;;; convert_loop w (i + length l1) n l2) s.
Proof.
  revert i s. induction l1 as [|x l1 IH]; intros i s.
  - simpl. unfold bind, ret. by rewrite Nat.add_0_r.
  - cbn [convert_loop app length]. rewrite Nat.add_succ_r.
    change (S (i + length l1)) with (S i + length l1)%nat.
    unfold bind.
    destruct (convert_one w i n x s) as [[[]|e] s1]; [|done].
    rewrite IH. reflexivity.
Qed.

Lemma conversion_targets_vmdk w :
  conversion_targets w <> [] -> vmdk_files w <> [].
Proof.
  unfold conversion_targets, descriptor_files, data_files.
  intros H Hv. rewrite Hv in H. by apply H.
Qed.

(** With [qemu-img] installed and targets to convert, the method is the
    loop over the targets, started after the version check. *)
Lemma convert_disk_images_loop w s :
  qemu_available w = true -> conversion_targets w <> [] ->
  exists l,
    convert_disk_images w s
    = convert_loop w 1 (length (conversion_targets w)) (conversion_targets w)
        (State (vm_name s) (disk_files s) (out_exists s) (out_fs s)
               (tmp_script s) (cmds s ++ [Qemu_version]) (log s ++ l)).
Proof.
  intros Hq Hne. pose proof (conversion_targets_vmdk w Hne) as Hv.
  unfold convert_disk_images. rewrite Hq. cbn [negb].
  unfold bind at 1. rewrite echo_with_log.
  unfold bind at 1. unfold run_cmd at 1.
  unfold bind at 1. rewrite get_targets_spec.
  unfold conversion_targets in *.
  destruct (vmdk_files w) as [|v vs]; [done|].
  destruct (descriptor_files w) as [|d ds].
  - unfold bind at 1. rewrite echo_with_log.
    eexists. unfold with_log. cbn [vm_name disk_files out_exists out_fs
      tmp_script cmds log]. rewrite <- !app_assoc. reflexivity.
  - destruct (List.filter is_selected (d :: ds)) as [|x xs] eqn:Hf; [done|].
    unfold bind at 1. rewrite echo_with_log.
    eexists. unfold with_log. cbn [vm_name disk_files out_exists out_fs
      tmp_script cmds log]. rewrite <- !app_assoc. reflexivity.
Qed.

(** The state in which the loop reaches a target whose predecessors all
    convert. *)
Lemma convert_disk_images_reaches w s pre t post :
  qemu_available w = true ->
  conversion_targets w = pre ++ t :: post ->
  forallb (converts w) pre = true ->
  exists s_t,
    disk_files s_t = disk_files s ++ map output_name pre /\
    convert_disk_images w s
    = (convert_one w (S (length pre)) (length (conversion_targets w)) t ;;;
       convert_loop w (S (S (length pre))) (length (conversion_targets w))
         post) s_t.
Proof.
  intros Hq Ht Hpre.
  destruct (convert_disk_images_loop w s Hq) as (l & Hrun).
  { rewrite Ht. by destruct pre. }
  rewrite Hrun. set (n := length (conversion_targets w)).
  rewrite Ht. rewrite convert_loop_app.
  match goal with |- context [bind (convert_loop w 1 n pre) _ ?s0] =>
    pose proof (convert_loop_spec w 1 n pre s0) as Hl; set (s1 := s0) in *
  end.
  cbv zeta in Hl. unfold bind at 1.
  destruct (convert_loop w 1 n pre s1) as [[[]|e] s_t].
  - cbn [fst snd] in Hl. destruct Hl as (_ & _ & _ & _ & Hd & _).
    exists s_t. split; [exact Hd|]. reflexivity.
  - cbn [fst snd] in Hl.
    destruct Hl as (_ & _ & _ & p & bad & q & -> & Hp & Hbad & _).
    rewrite forallb_app in Hpre. apply andb_true_iff in Hpre as [_ Hpre].
    simpl in Hpre. by rewrite Hbad in Hpre.
Qed.

(** The state in which [main] calls [convert_disk_images], when the input
    is in order, validation passes and the output directory is created. *)
Lemma main_reaches_conversion w vmx rest :
  in_exists w = true -> in_is_dir w = true ->
  glob_ext (lit ".vmx") (in_files w) = vmx :: rest ->
  first_stat_error w (vmdk_files w) = None ->
  existsb (unexcused w) (vmdk_files w) = false ->
  out_exists0 w = false -> mkdir_out w = MkdirOk ->
  exists s0,
    disk_files s0 = [] /\
    forall e s1,
      convert_disk_images w s0 = (Raise e, s1) ->
      main_body w (init_state w) = (Raise e, s1).
Proof.
  intros Hex Hdir Hg Hst Hbad Hout Hmk.
  destruct (validate_input_ok w (with_log [E_starting] (init_state w))
              vmx rest Hex Hdir Hg)
    as (s1 & H1 & _ & Hd1 & Ho1 & _ & _ & _).
  destruct (validate_vmware_vm_spec w s1 Hst) as (s2 & H2 & Ho2 & _).
  assert (Hvalid : forallb (fun e => negb (unexcused w e)) (vmdk_files w)
                   = true).
  { clear -Hbad. induction (vmdk_files w) as [|e l IH]; [done|].
    simpl in *. apply orb_false_iff in Hbad as [-> Hl]. simpl. by apply IH. }
  rewrite Hvalid in H2.
  destruct Ho2 as (_ & Hd2 & Hoe2 & _).
  destruct (create_output_structure_creates w s2)
    as (s3 & H3 & _ & Hd3 & _); [by rewrite Hoe2, Ho1|done|].
  exists s3. split; [by rewrite Hd3, Hd2, Hd1|].
  intros e s4 Hconv. unfold main_body.
  unfold bind at 1. rewrite echo_with_log.
  rewrite (bind_ok _ _ _ _ _ H1), (bind_ok _ _ _ _ _ H2).
  unfold bind at 1. unfold ret at 1.
  rewrite (bind_ok _ _ _ _ _ H3).
  by rewrite (bind_raise _ _ _ _ _ Hconv).
Qed.

(** ** The claim on the raw fallback *)

(** C5: in a run of [convert_disk_images] that reaches a target detected
    as raw (the targets before it all convert), [qemu-img convert] is first
    run on it with [-f vmdk]; only when that fails it is run once more
    with [-f raw].  A target that converts only as raw is recorded in
    [disk_files] after exactly these two attempts.  When both fail,
    [convert_disk_images] raises [RuntimeError] ("Failed to convert"), with
    the earlier targets recorded and the later ones untouched, and a run of
    [main] that got as far as the conversion ends with status 1 and the
    report of that error. *)
Theorem C5_raw_fallback (w : world) (s : state) (pre post : list entry)
    (t : entry) :
  qemu_available w = true ->
  conversion_targets w = pre ++ t :: post ->
  forallb (converts w) pre = true ->
  qemu_info w t = InfoFormat (Some (lit "raw")) ->
  let n := length (conversion_targets w) in
  exists s_t,
    disk_files s_t = disk_files s ++ map output_name pre /\
    convert_disk_images w s
      = (convert_one w (S (length pre)) n t ;;;
         convert_loop w (S (S (length pre))) n post) s_t /\
    let r := convert_one w (S (length pre)) n t s_t in
    match qemu_convert w (lit "vmdk") t, qemu_convert w (lit "raw") t with
    | Some image, _ =>
        fst r = Ok tt /\
        conversion_attempts (cmds (snd r))
          = conversion_attempts (cmds s_t) ++ [lit "vmdk"] /\
        disk_files (snd r) = disk_files s_t ++ [output_name t] /\
        out_fs (snd r) !! output_name t = Some image
    | None, Some image =>
        fst r = Ok tt /\
        conversion_attempts (cmds (snd r))
          = conversion_attempts (cmds s_t) ++ [lit "vmdk"; lit "raw"] /\
        disk_files (snd r) = disk_files s_t ++ [output_name t] /\
        out_fs (snd r) !! output_name t = Some image
    | None, None =>
        conversion_attempts (cmds (snd r))
          = conversion_attempts (cmds s_t) ++ [lit "vmdk"; lit "raw"] /\
        convert_disk_images w s
          = (Raise (RuntimeError (Failed_to_convert (ename t))), snd r) /\
        disk_files (snd (convert_disk_images w s))
          = disk_files s ++ map output_name pre /\
        (forall vmx rest,
           in_exists w = true -> in_is_dir w = true ->
           glob_ext (lit ".vmx") (in_files w) = vmx :: rest ->
           first_stat_error w (vmdk_files w) = None ->
           existsb (unexcused w) (vmdk_files w) = false ->
           out_exists0 w = false -> mkdir_out w = MkdirOk ->
           fst (main w) = 1%Z /\
           last (log (snd (main w)))
             = Some (E_error (RuntimeError (Failed_to_convert (ename t)))) /\
           disk_files (snd (main w)) = map output_name pre)
    end.
Proof.
  intros Hq Ht Hpre Hinfo n.
  destruct (convert_disk_images_reaches w s pre t post Hq Ht Hpre)
    as (s_t & Hd & Hrun).
  fold n in Hrun. exists s_t. split; [exact Hd|]. split; [exact Hrun|].
  cbv zeta.
  pose proof (convert_one_raw w (S (length pre)) n t s_t Hinfo) as H.
  cbv zeta in H.
  destruct (qemu_convert w (lit "vmdk") t) eqn:E1; [exact H|].
  destruct (qemu_convert w (lit "raw") t) eqn:E2; [exact H|].
  destruct H as (H1 & H2 & H3).
  destruct (convert_one w (S (length pre)) n t s_t) as [r1 s1] eqn:Hone.
  cbn [fst snd] in *. subst r1.
  assert (Hraise : forall s0 s_t0,
            convert_disk_images w s0
              = (convert_one w (S (length pre)) n t ;;;
                 convert_loop w (S (S (length pre))) n post) s_t0 ->
            forall s2,
              convert_one w (S (length pre)) n t s_t0
                = (Raise (RuntimeError (Failed_to_convert (ename t))), s2) ->
              convert_disk_images w s0
                = (Raise (RuntimeError (Failed_to_convert (ename t))), s2)).
  { intros s0 s_t0 Hr s2 Ho. by rewrite Hr, (bind_raise _ _ _ _ _ Ho). }
  split; [exact H2|]. split; [by apply (Hraise s s_t)|].
  split; [rewrite (Hraise s s_t Hrun s1 Hone); cbn [snd]; congruence|].
  intros vmx rest Hex Hdir Hg Hst Hbad Hout Hmk.
  destruct (main_reaches_conversion w vmx rest Hex Hdir Hg Hst Hbad Hout Hmk)
    as (s0 & Hd0 & Hmain).
  destruct (convert_disk_images_reaches w s0 pre t post Hq Ht Hpre)
    as (s_t0 & Hdt0 & Hrun0).
  fold n in Hrun0.
  pose proof (convert_one_raw w (S (length pre)) n t s_t0 Hinfo) as H0.
  cbv zeta in H0. rewrite E1, E2 in H0.
  destruct H0 as (H01 & _ & H03).
  destruct (convert_one w (S (length pre)) n t s_t0) as [r0 s2] eqn:Hone0.
  cbn [fst snd] in *. subst r0.
  pose proof (Hmain _ _ (Hraise s0 s_t0 Hrun0 s2 Hone0)) as Hb.
  unfold main. rewrite Hb. cbn [is_os_error is_runtime_error fst snd
    log_final log disk_files].
  split; [done|]. split; [apply last_snoc|].
  by rewrite H03, Hdt0, Hd0.
Qed.

(** A raw source that converts only as raw: recorded after the two
    attempts.  A raw source that does not convert at all: the run ends with
    status 1 and the report of the failed conversion. *)
Lemma C5_raw_fallback_witness :
  (exists s_t,
     convert_disk_images Sample.w_raw (init_state Sample.w_raw)
       = (convert_one Sample.w_raw 1 1 Sample.flat ;;;
          convert_loop Sample.w_raw 2 1 []) s_t /\
     let r := convert_one Sample.w_raw 1 1 Sample.flat s_t in
     fst r = Ok tt /\
     conversion_attempts (cmds (snd r))
       = conversion_attempts (cmds s_t) ++ [lit "vmdk"; lit "raw"] /\
     disk_files (snd r) = disk_files s_t ++ [output_name Sample.flat] /\
     out_fs (snd r) !! output_name Sample.flat = Some Sample.image_raw) /\
  (fst (main Sample.w_raw_fails) = 1%Z /\
   last (log (snd (main Sample.w_raw_fails)))
     = Some (E_error (RuntimeError (Failed_to_convert (lit "disk-flat.vmdk")))) /\
   disk_files (snd (main Sample.w_raw_fails)) = []).
Proof.
  split.
  - destruct (C5_raw_fallback Sample.w_raw (init_state Sample.w_raw)
                [] [] Sample.flat eq_refl
                ltac:(vm_compute; reflexivity) eq_refl
                ltac:(vm_compute; reflexivity))
      as (s_t & _ & Hrun & Hr).
    cbv zeta in Hr.
    assert (Hn : length (conversion_targets Sample.w_raw) = 1%nat)
      by (vm_compute; reflexivity).
    rewrite Hn in Hrun, Hr. exists s_t. split; [exact Hrun|]. exact Hr.
  - destruct (C5_raw_fallback Sample.w_raw_fails
                (init_state Sample.w_raw_fails)
                [] [] Sample.flat eq_refl
                ltac:(vm_compute; reflexivity) eq_refl
                ltac:(vm_compute; reflexivity))
      as (s_t & _ & _ & Hr).
    cbv zeta in Hr. destruct Hr as (_ & _ & _ & Hmain).
    apply (Hmain Sample.vmx []); vm_compute; reflexivity.
Defined.

(** ** The document of the descriptor *)

Lemma join_cons sep p q rest :
  join sep (p :: q :: rest) = p ++ sep ++ join sep (q :: rest).
Proof. reflexivity. Qed.

Lemma join_middle sep (a b : list pystr) d :
  a <> [] -> b <> [] ->
  join sep (a ++ d :: b) = (join sep a ++ sep) ++ d ++ (sep ++ join sep b).
Proof.
  intros Ha Hb. induction a as [|p a IH]; [done|].
  destruct a as [|q a].
  - destruct b as [|r b]; [done|]. simpl. by rewrite <- app_assoc.
  - cbn [app]. rewrite !join_cons. cbn [app] in IH. rewrite IH by done.
    by rewrite <- !app_assoc.
Qed.

Lemma py_in_trans a b c :
  py_in a b = true -> py_in b c = true -> py_in a c = true.
Proof.
  intros (p1 & q1 & ->)%py_in_inv (p2 & q2 & ->)%py_in_inv.
  replace (p2 ++ (p1 ++ a ++ q1) ++ q2) with ((p2 ++ p1) ++ a ++ (q1 ++ q2))
    by (by rewrite <- !app_assoc).
  apply py_in_app.
Qed.

Lemma py_in_refl a : py_in a a = true.
Proof. rewrite <- (app_nil_r a) at 2. apply (py_in_app a [] []). Qed.

Lemma py_in_join sep (l : list pystr) i x :
  l !! i = Some x -> py_in x (join sep l) = true.
Proof.
  revert i. induction l as [|p l IH]; intros i Hi; [done|].
  destruct l as [|q l].
  - destruct i; [|done]. injection Hi as ->. apply py_in_refl.
  - rewrite join_cons. destruct i as [|i].
    + injection Hi as ->. apply (py_in_app x []).
    + simpl in Hi. apply IH in Hi.
      apply (py_in_trans _ _ _ Hi).
      replace (p ++ sep ++ join sep (q :: l))
        with ((p ++ sep) ++ join sep (q :: l) ++ [])
        by (by rewrite app_nil_r, <- app_assoc).
      apply py_in_app.
Qed.

Lemma endswith_refl p : endswith p p = true.
Proof. unfold endswith. rewrite <- (app_nil_r (rev p)) at 2. apply startswith_app. Qed.

Lemma endswith_app_r p x s : endswith p s = true -> endswith p (x ++ s) = true.
Proof.
  intros [t ->]%endswith_inv. unfold endswith.
  rewrite !rev_app_distr, <- app_assoc. apply startswith_app.
Qed.

(** The descriptor is what comes before the disk entries, the entries, and
    what comes after them: the entries stand directly inside the
    [<devices>] element, after the emulator, and what follows them holds no
    other disk. *)
Lemma xml_template_split vm_name vm_uuid memory_kb vcpus disk_xml :
  exists before after,
    xml_template vm_name vm_uuid memory_kb vcpus disk_xml
      = before ++ disk_xml ++ after /\
    endswith devices_open before = true /\
    startswith after_disks after = true /\
    endswith document_end after = true /\
    py_in (lit "<disk") after = false.
Proof.
  unfold xml_template.
  match goal with |- context [join [10] ?L] =>
    rewrite <- (take_drop 22 L)
  end.
  cbn [take drop]. rewrite join_middle by done.
  eexists _, _. split; [reflexivity|]. split.
  - cbn [join]. unfold devices_open. rewrite <- !app_assoc.
    repeat first [apply endswith_refl | apply endswith_app_r].
  - repeat split; vm_compute; reflexivity.
Qed.

(** ** The claim on the disk entries *)

(** C8: with every recorded disk present, [generate_libvirt_xml] emits one
    disk entry per element of [disk_files], in list order: the document is
    some text that ends with the opening of [<devices>] and its emulator,
    then the entries joined by newlines, then a text that starts with the
    network interface, ends the document and holds no disk.  Entry [i]
    names the resolved path of disk [i] and the device [hd] followed by
    [chr(97 + i)] ([hda], [hdb], ...).  When a recorded disk is missing the
    method raises [FileNotFoundError] for the first such disk. *)
Theorem C8_disk_entries (w : world) (cfg : gmap pystr pystr) (s : state) :
  N.of_nat (length (disk_files s)) <= max_disks ->
  (Forall (fun f => is_Some (out_fs s !! f)) (disk_files s) ->
   disk_xml_loop w 0 (disk_files s) [] s
     = (Ok (disk_entries w (disk_files s)), s) /\
   length (disk_entries w (disk_files s)) = length (disk_files s) /\
   (forall i f,
      disk_files s !! i = Some f ->
      disk_entries w (disk_files s) !! i
        = Some (disk_xml (resolve w f) (97 + N.of_nat i)) /\
      py_in (source_line (resolve w f))
            (disk_xml (resolve w f) (97 + N.of_nat i)) = true /\
      py_in (target_line (97 + N.of_nat i))
            (disk_xml (resolve w f) (97 + N.of_nat i)) = true) /\
   (forall memory_mb,
      py_int w (default (lit "1024") (cfg !! lit "memsize")) = Some memory_mb ->
      exists xml before after,
        generate_libvirt_xml w cfg s = (Ok xml, s) /\
        xml = before ++ join [10] (disk_entries w (disk_files s)) ++ after /\
        endswith devices_open before = true /\
        startswith after_disks after = true /\
        endswith document_end after = true /\
        py_in (lit "<disk") after = false /\
        (forall i f,
           disk_files s !! i = Some f ->
           py_in (disk_xml (resolve w f) (97 + N.of_nat i)) xml = true /\
           py_in (source_line (resolve w f)) xml = true /\
           py_in (target_line (97 + N.of_nat i)) xml = true))) /\
  (forall pre f post,
     disk_files s = pre ++ f :: post ->
     Forall (fun f => is_Some (out_fs s !! f)) pre ->
     out_fs s !! f = None ->
     generate_libvirt_xml w cfg s
       = (Raise (FileNotFoundError (Disk_file_missing (resolve w f))), s)) /\
  target_line 97 = dq "      <target dev='hda' bus='ide'/>" /\
  target_line 98 = dq "      <target dev='hdb' bus='ide'/>".
Proof.
  intros Hbound. split; [|split; [|split; reflexivity]].
  - intros Hall.
    assert (Hloop : disk_xml_loop w 0 (disk_files s) [] s
                    = (Ok (disk_entries w (disk_files s)), s)).
    { rewrite disk_xml_loop_ok by done. reflexivity. }
    assert (Hentry : forall i f,
              disk_files s !! i = Some f ->
              disk_entries w (disk_files s) !! i
                = Some (disk_xml (resolve w f) (97 + N.of_nat i))).
    { intros i f Hi. unfold disk_entries.
      rewrite list_lookup_imap, Hi. reflexivity. }
    split; [exact Hloop|]. split; [apply length_imap|]. split.
    + intros i f Hi. split; [by apply Hentry|].
      split; [apply source_line_in_entry|apply target_line_in_entry].
    + intros memory_mb Hint.
      destruct (xml_template_split (vm_name_str s) (fresh_uuid w)
                  (str_of_Z (memory_mb * 1024))
                  (default (lit "1") (cfg !! lit "numvcpus"))
                  (join [10] (disk_entries w (disk_files s))))
        as (before & after & Hsplit & Hb & Ha & He & Hno).
      eexists _, before, after.
      split; [by apply generate_libvirt_xml_ok|].
      split; [exact Hsplit|]. do 4 (split; [done|]).
      intros i f Hi.
      assert (Hin : py_in (disk_xml (resolve w f) (97 + N.of_nat i))
                      (xml_template (vm_name_str s) (fresh_uuid w)
                         (str_of_Z (memory_mb * 1024))
                         (default (lit "1") (cfg !! lit "numvcpus"))
                         (join [10] (disk_entries w (disk_files s))))
                    = true).
      { rewrite Hsplit.
        eapply py_in_trans; [|apply py_in_app].
        eapply py_in_join. by apply Hentry. }
      split; [exact Hin|].
      split; (eapply py_in_trans; [|exact Hin]);
        [apply source_line_in_entry|apply target_line_in_entry].
  - intros pre f post Hsplit Hpre Hf. unfold generate_libvirt_xml.
    unfold bind at 1. unfold get at 1. apply bind_raise.
    rewrite Hsplit. apply disk_xml_loop_missing; [done|done|].
    rewrite Hsplit, length_app in Hbound. simpl. lia.
Qed.

(** Two recorded disks, both present: the document holds the entry of
    [/out/a.qcow2] as [hda] and that of [/out/b.qcow2] as [hdb].  With the
    second one gone, the method raises for it. *)
Lemma C8_disk_entries_witness :
  (exists xml,
     generate_libvirt_xml Sample.w_flat ∅ SampleStates.two_disks
       = (Ok xml, SampleStates.two_disks) /\
     py_in (disk_xml (lit "/out/a.qcow2") 97) xml = true /\
     py_in (disk_xml (lit "/out/b.qcow2") 98) xml = true /\
     py_in (dq "      <target dev='hdb' bus='ide'/>") xml = true) /\
  generate_libvirt_xml Sample.w_flat ∅ SampleStates.second_missing
    = (Raise (FileNotFoundError (Disk_file_missing (lit "/out/b.qcow2"))),
       SampleStates.second_missing).
Proof.
  split.
  - destruct (proj1 (C8_disk_entries Sample.w_flat ∅ SampleStates.two_disks
                       ltac:(vm_compute; discriminate)))
      as (_ & _ & _ & Hdoc).
    { repeat constructor; eexists; reflexivity. }
    destruct (Hdoc 1024%Z eq_refl)
      as (xml & before & after & Hgen & _ & _ & _ & _ & _ & Hin).
    exists xml. split; [exact Hgen|].
    destruct (Hin 0%nat (lit "a.qcow2") eq_refl) as (Ha & _ & _).
    destruct (Hin 1%nat (lit "b.qcow2") eq_refl) as (Hb & _ & Ht).
    split; [exact Ha|]. split; [exact Hb|exact Ht].
  - apply (proj1 (proj2 (C8_disk_entries Sample.w_flat ∅
                           SampleStates.second_missing
                           ltac:(vm_compute; discriminate)))
             [lit "a.qcow2"] (lit "b.qcow2") []).
    + reflexivity.
    + repeat constructor. eexists. reflexivity.
    + reflexivity.
Defined.
